(** * FinanceAI-chat: the metric resolvers, the comparators and the request
    walker of [main.py], embedded as Rocq functions.

    Python floats are IEEE 754 binary64 numbers; they are modelled by the
    specification floats of the standard library at precision 53 and
    maximal exponent 1024.  Python dictionaries keep insertion order, and
    the comparators depend on it, so a dictionary is an association list.
    Exceptions are explicit: a computation that may raise returns in [exc]. *)

From Stdlib Require Import ZArith List String Ascii Bool Lia.
From Stdlib Require Import Floats.SpecFloat.
Import ListNotations.
Local Open Scope string_scope.
Local Open Scope Z_scope.
Set Warnings "-register-all".

Definition float : Type := spec_float.

(** ** Binary64 arithmetic *)

Module PyFloat.

Definition prec : Z := 53.
Definition emax : Z := 1024.

Definition nan : float := S754_nan.
Definition of_Z (z : Z) : float := binary_normalize prec emax z 0 false.

Definition add : float -> float -> float := SFadd prec emax.
Definition sub : float -> float -> float := SFsub prec emax.
Definition mul : float -> float -> float := SFmul prec emax.
Definition div : float -> float -> float := SFdiv prec emax.
Definition sqrt : float -> float := SFsqrt prec emax.

(** [a < b], [a > b] and [a == b] of Python; all three are [false] when
    an operand is NaN. *)
Definition ltb (a b : float) : bool := SFltb a b.
Definition gtb (a b : float) : bool := SFltb b a.
Definition eqb (a b : float) : bool := SFeqb a b.

Definition is_nan (x : float) : bool :=
  match x with S754_nan => true | _ => false end.

(** Truth value of a float: every float but the two zeros is true. *)
Definition truthy (x : float) : bool :=
  match x with S754_zero _ => false | _ => true end.

Definition is_finite_nonzero (x : float) : bool :=
  match x with S754_finite _ _ _ => true | _ => false end.

(** Nearest integer, halves to the even neighbour ([numpy.rint]). *)
Definition round_half_even (q r d : Z) : Z :=
  match Z.compare (2 * r) d with
  | Lt => q
  | Gt => q + 1
  | Eq => if Z.even q then q else q + 1
  end.

(** The float of an integer; a zero takes the sign [s]. *)
Definition of_integer (k : Z) (s : bool) : float :=
  binary_normalize prec emax k 0 s.

(** [numpy.rint]: a float with a non-negative exponent is an integer
    already and comes back as it is. *)
Definition rint (x : float) : float :=
  match x with
  | S754_finite s m e =>
      let n :=
        if 0 <=? e then Z.pos m * Z.pow 2 e
        else
          let d := Z.pow 2 (- e) in
          round_half_even (Z.pos m / d) (Z.pos m mod d) d in
      of_integer (cond_Zopp s n) s
  | _ => x
  end.

(** [round(x, 2)] on a numpy float: scale by 100, round to the nearest
    integer, scale back. *)
Definition round2 (x : float) : float :=
  div (rint (mul x (of_Z 100))) (of_Z 100).

(** A float that [round(., 2)] leaves as it is. *)
Definition is_rounded2 (x : float) : bool :=
  match x, round2 x with
  | S754_nan, S754_nan => true
  | _, y => eqb x y
  end.

End PyFloat.

(** ** Values, exceptions and dictionaries *)

(** What [json.loads] builds, and what the endpoint hands back. *)
Inductive json : Type :=
| JNull
| JBool (b : bool)
| JInt (z : Z)
| JFloat (f : float)
| JStr (s : string)
| JList (l : list json)
| JDict (d : list (string * json)).

(** An exception: its class and the text [str(e)] gives. *)
Record exn : Type := Exn { exn_class : string; exn_text : string }.

Inductive exc (A : Type) : Type :=
| Ret (a : A)
| Raise (e : exn).
Arguments Ret {A} a.
Arguments Raise {A} e.

Definition bind {A B : Type} (c : exc A) (k : A -> exc B) : exc B :=
  match c with
  | Ret a => k a
  | Raise e => Raise e
  end.

Notation "x <- c ;; k" := (bind c (fun x => k))
  (at level 61, c at next level, right associativity).

(** [try: body / except Exception: handler]. *)
Definition try_except {A : Type} (body : exc A) (handler : exc A) : exc A :=
  match body with
  | Ret a => Ret a
  | Raise _ => handler
  end.

Definition pydict (V : Type) : Type := list (string * V).

Fixpoint dict_get {V : Type} (d : pydict V) (k : string) : option V :=
  match d with
  | [] => None
  | (k', v) :: d' => if String.eqb k' k then Some v else dict_get d' k
  end.

(** [d[k] = v]: an existing key keeps its place, a new key goes last. *)
Fixpoint dict_set {V : Type} (d : pydict V) (k : string) (v : V) : pydict V :=
  match d with
  | [] => [(k, v)]
  | (k', v') :: d' =>
      if String.eqb k' k then (k', v) :: d' else (k', v') :: dict_set d' k v
  end.

Definition dict_keys {V : Type} (d : pydict V) : list string := map fst d.

Definition dict_mem {V : Type} (d : pydict V) (k : string) : bool :=
  match dict_get d k with Some _ => true | None => false end.

Definition type_name (v : json) : string :=
  match v with
  | JNull => "NoneType"
  | JBool _ => "bool"
  | JInt _ => "int"
  | JFloat _ => "float"
  | JStr _ => "str"
  | JList _ => "list"
  | JDict _ => "dict"
  end.

Definition AttributeError (v : json) (attr : string) : exn :=
  Exn "AttributeError"
      ("'" ++ type_name v ++ "' object has no attribute '" ++ attr ++ "'").

Definition NotIterable (v : json) : exn :=
  Exn "TypeError" ("'" ++ type_name v ++ "' object is not iterable").

Definition NoItemAssignment (v : json) : exn :=
  Exn "TypeError"
      ("'" ++ type_name v ++ "' object does not support item assignment").

Definition BadListIndex (k : json) : exn :=
  Exn "TypeError"
      ("list indices must be integers or slices, not " ++ type_name k).

Definition ListIndexRange : exn :=
  Exn "IndexError" "list assignment index out of range".

Definition Unhashable (k : json) : exn :=
  Exn "TypeError" ("unhashable type: '" ++ type_name k ++ "'").

(** [to_dict]: rebuilds dictionaries and lists, leaves the rest. *)
Fixpoint to_dict (obj : json) : json :=
  match obj with
  | JDict d => JDict (map (fun kv => (fst kv, to_dict (snd kv))) d)
  | JList l => JList (map to_dict l)
  | _ => obj
  end.

(** Truth value of a Python object, as [if v] tests it. *)
Definition truthy (v : json) : bool :=
  match v with
  | JNull => false
  | JBool b => b
  | JInt z => negb (z =? 0)
  | JFloat f => PyFloat.truthy f
  | JStr s => negb (String.eqb s "")
  | JList l => match l with [] => false | _ => true end
  | JDict d => match d with [] => false | _ => true end
  end.

(** ** The outside world

    The market-data provider, the text oracle and the string-to-float
    parser of the Python runtime are not part of the program; the
    functions below take them from a [World]. *)

(** A frame of named numeric columns; the rows are those of its first
    column. *)
Definition DataFrame : Type := pydict (list float).

Record World : Type := {
  (** [yf.download(ticker, period=period, progress=False)] *)
  yf_download : string -> json -> exc DataFrame;
  (** [yf.Ticker(ticker).info] *)
  ticker_info : string -> exc (pydict json);
  (** [float(s)] on a string: [None] stands for [ValueError] *)
  str_to_float : string -> option float;
  (** first oracle call, with [json.loads] of its answer *)
  oracle_request : string -> exc json;
  (** second oracle call, on the populated result *)
  oracle_summary : json -> exc string
}.

(** ** Frames and series *)

Definition df_empty (data : DataFrame) : bool :=
  match data with
  | [] => true
  | (_, []) :: _ => true
  | _ => false
  end.

Definition df_getitem (data : DataFrame) (col : string) : exc (list float) :=
  match dict_get data col with
  | Some c => Ret c
  | None => Raise (Exn "KeyError" col)
  end.

Definition IlocRange : exn :=
  Exn "IndexError" "single positional indexer is out-of-bounds".

(** [series.iloc[0]] and [series.iloc[-1]]. *)
Definition iloc_first (s : list float) : exc float :=
  match s with
  | [] => Raise IlocRange
  | x :: _ => Ret x
  end.

Fixpoint iloc_last (s : list float) : exc float :=
  match s with
  | [] => Raise IlocRange
  | [x] => Ret x
  | _ :: s' => iloc_last s'
  end.

(** [series.max()] and [series.min()]: NaN entries are skipped, and the
    result is NaN when nothing is left.  Of several entries that compare
    equal, the first is kept here.  Such entries are one and the same
    float unless they are zeros of opposite signs; which of the two zeros
    numpy returns then depends on the vector instructions it runs on, so
    the sign of a zero result is not fixed by this definition. *)
Definition series_extremum (better : float -> float -> bool) (s : list float)
  : float :=
  match
    fold_left
      (fun (cur : option float) (x : float) =>
         if PyFloat.is_nan x then cur
         else match cur with
              | None => Some x
              | Some c => if better x c then Some x else cur
              end)
      s None
  with
  | Some c => c
  | None => PyFloat.nan
  end.

Definition series_max : list float -> float := series_extremum PyFloat.gtb.
Definition series_min : list float -> float := series_extremum PyFloat.ltb.

(** [series.pct_change()]: the change from the previous row, undefined
    (NaN) on the first row. *)
Fixpoint pct_change_from (prev : float) (s : list float) : list float :=
  match s with
  | [] => []
  | x :: s' =>
      PyFloat.sub (PyFloat.div x prev) (PyFloat.of_Z 1) :: pct_change_from x s'
  end.

Definition pct_change (s : list float) : list float :=
  match s with
  | [] => []
  | x :: s' => PyFloat.nan :: pct_change_from x s'
  end.

Definition dropna (s : list float) : list float :=
  filter (fun x => negb (PyFloat.is_nan x)) s.

(** [ndarray.sum()], which [std] calls twice, is numpy's pairwise
    summation of a float64 array.  Fewer than eight values are added one
    after the other.  Up to [block_size] values are added into eight
    running sums, the value at position [i] into the sum of number
    [i mod 8]; the eight sums are then added as a tree, and the values
    behind the last full group of eight are added to that one after the
    other.  A longer array is cut in two, the first part of a length that
    is a multiple of eight, and the sums of the two parts are added. *)
Record lanes : Type := Lanes {
  lane0 : float; lane1 : float; lane2 : float; lane3 : float;
  lane4 : float; lane5 : float; lane6 : float; lane7 : float
}.

(** The loop over the full groups of eight; what is left of the array
    comes back with the running sums. *)
Fixpoint add_groups (r : lanes) (a : list float) : lanes * list float :=
  match a with
  | a0 :: a1 :: a2 :: a3 :: a4 :: a5 :: a6 :: a7 :: rest =>
      add_groups
        {| lane0 := PyFloat.add (lane0 r) a0;
           lane1 := PyFloat.add (lane1 r) a1;
           lane2 := PyFloat.add (lane2 r) a2;
           lane3 := PyFloat.add (lane3 r) a3;
           lane4 := PyFloat.add (lane4 r) a4;
           lane5 := PyFloat.add (lane5 r) a5;
           lane6 := PyFloat.add (lane6 r) a6;
           lane7 := PyFloat.add (lane7 r) a7 |}
        rest
  | _ => (r, a)
  end.

(** [res += a[i]] for each value in turn. *)
Definition sum_in_order (res : float) (a : list float) : float :=
  fold_left PyFloat.add a res.

Definition add_tree (r : lanes) : float :=
  PyFloat.add
    (PyFloat.add (PyFloat.add (lane0 r) (lane1 r))
                 (PyFloat.add (lane2 r) (lane3 r)))
    (PyFloat.add (PyFloat.add (lane4 r) (lane5 r))
                 (PyFloat.add (lane6 r) (lane7 r))).

(** The sum of an array of at most [block_size] values. *)
Definition block_sum (a : list float) : float :=
  match a with
  | a0 :: a1 :: a2 :: a3 :: a4 :: a5 :: a6 :: a7 :: rest =>
      let '(r, tail) :=
        add_groups
          {| lane0 := a0; lane1 := a1; lane2 := a2; lane3 := a3;
             lane4 := a4; lane5 := a5; lane6 := a6; lane7 := a7 |}
          rest
      in sum_in_order (add_tree r) tail
  | _ => sum_in_order (PyFloat.of_Z 0) a
  end.

Definition block_size : nat := 128.

(** [fuel] bounds the depth of the cuts; the length of the array is
    always enough ([pairwise_sum_fuel]). *)
Fixpoint pairwise_sum (fuel : nat) (a : list float) : float :=
  match fuel with
  | O => block_sum a
  | S fuel' =>
      let n := List.length a in
      if (block_size <? n)%nat then
        let n2 := (n / 2 - (n / 2) mod 8)%nat in
        PyFloat.add (pairwise_sum fuel' (firstn n2 a))
                    (pairwise_sum fuel' (skipn n2 a))
      else block_sum a
  end.

(** The reduction starts from the zero of the addition and adds the
    pairwise sum of the whole array to it.  (The sign of the zero it
    starts from shows in the sum of negative zeros only.) *)
Definition series_sum (s : list float) : float :=
  PyFloat.add (PyFloat.of_Z 0) (pairwise_sum (List.length s) s).

(** [series.std()]: sample standard deviation (divisor [n - 1]); NaN when
    fewer than two values are there. *)
Definition series_std (s : list float) : float :=
  let n := Z.of_nat (List.length s) in
  if n <=? 1 then PyFloat.nan
  else
    let avg := PyFloat.div (series_sum s) (PyFloat.of_Z n) in
    let sqr := map (fun x => let d := PyFloat.sub avg x in PyFloat.mul d d) s in
    PyFloat.sqrt (PyFloat.div (series_sum sqr) (PyFloat.of_Z (n - 1))).

(** [252 ** 0.5] *)
Definition sqrt252 : float := PyFloat.sqrt (PyFloat.of_Z 252).

(** ** Metric resolvers *)

Definition get_return (w : World) (ticker : string) (period : json)
  : exc (option float) :=
  try_except
    (data <- yf_download w ticker period ;;
     if df_empty data || negb (dict_mem data "Close") then Ret None
     else
       close <- df_getitem data "Close" ;;
       start_price <- iloc_first close ;;
       end_price <- iloc_last close ;;
       Ret (Some (PyFloat.round2
                    (PyFloat.mul
                       (PyFloat.div (PyFloat.sub end_price start_price)
                                    start_price)
                       (PyFloat.of_Z 100)))))
    (Ret None).

Definition get_volatility (w : World) (ticker : string) (period : json)
  : exc (option float) :=
  try_except
    (data <- yf_download w ticker period ;;
     if df_empty data || negb (dict_mem data "Close") then Ret None
     else
       close <- df_getitem data "Close" ;;
       let daily_returns := dropna (pct_change close) in
       let vol := PyFloat.mul (series_std daily_returns) sqrt252 in
       Ret (Some (PyFloat.round2 (PyFloat.mul vol (PyFloat.of_Z 100)))))
    (Ret None).

Record max_min : Type := MaxMin { mm_max : float; mm_min : float }.

Definition get_max_min (w : World) (ticker : string) (period : json)
  : exc (option max_min) :=
  try_except
    (data <- yf_download w ticker period ;;
     if df_empty data || negb (dict_mem data "Close") then Ret None
     else
       close <- df_getitem data "Close" ;;
       Ret (Some {| mm_max := PyFloat.round2 (series_max close);
                    mm_min := PyFloat.round2 (series_min close) |}))
    (Ret None).

(** [info.get(key)] *)
Definition info_get (info : pydict json) (key : string) : json :=
  match dict_get info key with
  | Some v => v
  | None => JNull
  end.

(** [float(v)] *)
Definition py_float (w : World) (v : json) : exc float :=
  match v with
  | JBool b => Ret (PyFloat.of_Z (if b then 1 else 0))
  | JInt z =>
      match PyFloat.of_Z z with
      | S754_infinity _ =>
          Raise (Exn "OverflowError" "int too large to convert to float")
      | f => Ret f
      end
  | JFloat f => Ret f
  | JStr s =>
      match str_to_float w s with
      | Some f => Ret f
      | None => Raise (Exn "ValueError" "could not convert string to float")
      end
  | _ =>
      Raise (Exn "TypeError"
                 ("float() argument must be a string or a real number, not '"
                    ++ type_name v ++ "'"))
  end.

(** [float(info.get(key)) if info.get(key) else None] *)
Definition float_or_none (w : World) (info : pydict json) (key : string)
  : exc (option float) :=
  if truthy (info_get info key)
  then f <- py_float w (info_get info key) ;; Ret (Some f)
  else Ret None.

Record fundamentals : Type := Fundamentals {
  longName : json;
  marketCap : option float;
  peRatio : option float;
  eps : option float;
  dividendYield : option float;
  debtToEquity : option float
}.

Definition get_fundamentals (w : World) (ticker : string)
  : exc (option fundamentals) :=
  try_except
    (info <- ticker_info w ticker ;;
     mc <- float_or_none w info "marketCap" ;;
     pe <- float_or_none w info "trailingPE" ;;
     ep <- float_or_none w info "trailingEps" ;;
     dy <- float_or_none w info "dividendYield" ;;
     de <- float_or_none w info "debtToEquity" ;;
     Ret (Some {| longName := info_get info "longName";
                  marketCap := mc;
                  peRatio := pe;
                  eps := ep;
                  dividendYield := dy;
                  debtToEquity := de |}))
    (Ret None).

(** ** Comparators *)

(** The loop that opens each comparator: resolve every ticker in turn and
    keep, under the ticker's name, the values that are not [None]. *)
Fixpoint collect {V : Type} (resolve : string -> exc (option V))
         (tickers : list string) (acc : pydict V) : exc (pydict V) :=
  match tickers with
  | [] => Ret acc
  | t :: ts =>
      r <- resolve t ;;
      collect resolve ts
              (match r with
               | Some v => dict_set acc t v
               | None => acc
               end)
  end.

(** [max(d, key=lambda k: d[k])] and [min(d, key=lambda k: d[k])]: the
    keys are visited in the dictionary's order, and the running choice
    gives way only to a strictly better value.  The entry is returned
    whole, since the callers read [d[best]] next. *)
Fixpoint extremum_from {V : Type} (better : V -> V -> bool)
         (cur : string * V) (rest : pydict V) : string * V :=
  match rest with
  | [] => cur
  | kv :: rest' =>
      extremum_from better (if better (snd kv) (snd cur) then kv else cur) rest'
  end.

Definition py_extremum {V : Type} (name : string) (better : V -> V -> bool)
           (d : pydict V) : exc (string * V) :=
  match d with
  | [] => Raise (Exn "ValueError" (name ++ "() arg is an empty sequence"))
  | kv :: rest => Ret (extremum_from better kv rest)
  end.

Definition py_max : pydict float -> exc (string * float) :=
  py_extremum "max" PyFloat.gtb.
Definition py_min : pydict float -> exc (string * float) :=
  py_extremum "min" PyFloat.ltb.

(** What a comparator returns: the [{"error": ...}] dictionary, or a
    ranking. *)
Inductive comparison (R : Type) : Type :=
| NoData (error : string)
| Ranking (r : R).
Arguments NoData {R} error.
Arguments Ranking {R} r.

Record returns_ranking : Type := {
  best_ticker : string;
  best_return : float;
  all_returns : pydict float
}.

Definition compare_returns (w : World) (tickers : list string) (period : json)
  : exc (comparison returns_ranking) :=
  performances <- collect (fun t => get_return w t period) tickers [] ;;
  match performances with
  | [] => Ret (NoData "No data available for tickers")
  | _ =>
      best <- py_max performances ;;
      Ret (Ranking {| best_ticker := fst best;
                      best_return := snd best;
                      all_returns := performances |})
  end.

Record volatility_ranking : Type := {
  least_volatile : string;
  least_volatility : float;
  most_volatile : string;
  most_volatility : float;
  all_volatilities : pydict float
}.

Definition compare_volatility (w : World) (tickers : list string)
           (period : json) : exc (comparison volatility_ranking) :=
  volatilities <- collect (fun t => get_volatility w t period) tickers [] ;;
  match volatilities with
  | [] => Ret (NoData "No volatility data available for tickers")
  | _ =>
      least <- py_min volatilities ;;
      most <- py_max volatilities ;;
      Ret (Ranking {| least_volatile := fst least;
                      least_volatility := snd least;
                      most_volatile := fst most;
                      most_volatility := snd most;
                      all_volatilities := volatilities |})
  end.

(** [{t: data.get(attr) for t, data in d.items() if data.get(attr) is not
    None and keep(data.get(attr))}] *)
Fixpoint select_attribute (attr : fundamentals -> option float)
         (keep : float -> bool) (d : pydict fundamentals) : pydict float :=
  match d with
  | [] => []
  | (t, data) :: d' =>
      match attr data with
      | Some v =>
          if keep v then (t, v) :: select_attribute attr keep d'
          else select_attribute attr keep d'
      | None => select_attribute attr keep d'
      end
  end.

Definition any_value (v : float) : bool := true.

(** [v > 0] *)
Definition positive_value (v : float) : bool := PyFloat.gtb v (PyFloat.of_Z 0).

(** One entry of ["analysis"]: present only when some ticker qualifies. *)
Definition sub_comparison (pick : pydict float -> exc (string * float))
           (candidates : pydict float) : exc (option (string * float)) :=
  match candidates with
  | [] => Ret None
  | _ => best <- pick candidates ;; Ret (Some best)
  end.

Record fundamentals_ranking : Type := {
  all_fundamentals : pydict fundamentals;
  largest_market_cap : option (string * float);
  best_pe_ratio : option (string * float);
  highest_dividend_yield : option (string * float);
  lowest_debt_to_equity : option (string * float)
}.

Definition compare_fundamentals (w : World) (tickers : list string)
  : exc (comparison fundamentals_ranking) :=
  fundamentals_data <- collect (fun t => get_fundamentals w t) tickers [] ;;
  match fundamentals_data with
  | [] => Ret (NoData "No fundamentals data available for tickers")
  | _ =>
      let market_caps :=
        select_attribute marketCap any_value fundamentals_data in
      mc <- sub_comparison py_max market_caps ;;
      let pe_ratios :=
        select_attribute peRatio positive_value fundamentals_data in
      pe <- sub_comparison py_min pe_ratios ;;
      let dividend_yields :=
        select_attribute dividendYield positive_value fundamentals_data in
      dy <- sub_comparison py_max dividend_yields ;;
      let debt_equity :=
        select_attribute debtToEquity positive_value fundamentals_data in
      de <- sub_comparison py_min debt_equity ;;
      Ret (Ranking {| all_fundamentals := fundamentals_data;
                      largest_market_cap := mc;
                      best_pe_ratio := pe;
                      highest_dividend_yield := dy;
                      lowest_debt_to_equity := de |})
  end.

Record max_min_ranking : Type := {
  highest_max : string * float;
  lowest_min : string * float;
  all_data : pydict max_min
}.

Definition compare_max_min (w : World) (tickers : list string) (period : json)
  : exc (comparison max_min_ranking) :=
  max_min_data <- collect (fun t => get_max_min w t period) tickers [] ;;
  match max_min_data with
  | [] => Ret (NoData "No max/min data available for tickers")
  | _ =>
      let all_maxes := map (fun kv => (fst kv, mm_max (snd kv))) max_min_data in
      let all_mins := map (fun kv => (fst kv, mm_min (snd kv))) max_min_data in
      highest <- py_max all_maxes ;;
      lowest <- py_min all_mins ;;
      Ret (Ranking {| highest_max := highest;
                      lowest_min := lowest;
                      all_data := max_min_data |})
  end.

(** ** Results as JSON values *)

Definition json_of_float (v : option float) : json :=
  match v with
  | Some f => JFloat f
  | None => JNull
  end.

Definition json_of_max_min (m : max_min) : json :=
  JDict [("max", JFloat (mm_max m)); ("min", JFloat (mm_min m))].

Definition json_of_fundamentals (f : fundamentals) : json :=
  JDict [("longName", longName f);
         ("marketCap", json_of_float (marketCap f));
         ("peRatio", json_of_float (peRatio f));
         ("eps", json_of_float (eps f));
         ("dividendYield", json_of_float (dividendYield f));
         ("debtToEquity", json_of_float (debtToEquity f))].

Definition json_of_option {A : Type} (f : A -> json) (v : option A) : json :=
  match v with
  | Some a => f a
  | None => JNull
  end.

Definition json_of_dict {V : Type} (f : V -> json) (d : pydict V) : json :=
  JDict (map (fun kv => (fst kv, f (snd kv))) d).

Definition json_of_winner (e : string * float) : json :=
  JDict [("ticker", JStr (fst e)); ("value", JFloat (snd e))].

Definition json_of_comparison {R : Type} (f : R -> json) (c : comparison R)
  : json :=
  match c with
  | NoData msg => JDict [("error", JStr msg)]
  | Ranking r => f r
  end.

Definition json_of_returns (r : returns_ranking) : json :=
  JDict [("best_ticker", JStr (best_ticker r));
         ("best_return", JFloat (best_return r));
         ("all_returns", json_of_dict JFloat (all_returns r))].

Definition json_of_volatility (r : volatility_ranking) : json :=
  JDict [("least_volatile", JStr (least_volatile r));
         ("least_volatility", JFloat (least_volatility r));
         ("most_volatile", JStr (most_volatile r));
         ("most_volatility", JFloat (most_volatility r));
         ("all_volatilities", json_of_dict JFloat (all_volatilities r))].

(** The ["analysis"] dictionary receives its keys in this order, each
    only when its sub-comparison has a winner. *)
Definition analysis_entry (name : string) (e : option (string * float))
  : list (string * json) :=
  match e with
  | Some winner => [(name, json_of_winner winner)]
  | None => []
  end.

Definition json_of_fundamentals_ranking (r : fundamentals_ranking) : json :=
  JDict [("all_fundamentals",
          json_of_dict json_of_fundamentals (all_fundamentals r));
         ("analysis",
          JDict (analysis_entry "largest_market_cap" (largest_market_cap r)
                 ++ analysis_entry "best_pe_ratio" (best_pe_ratio r)
                 ++ analysis_entry "highest_dividend_yield"
                                   (highest_dividend_yield r)
                 ++ analysis_entry "lowest_debt_to_equity"
                                   (lowest_debt_to_equity r))%list)].

Definition json_of_max_min_ranking (r : max_min_ranking) : json :=
  JDict [("highest_max", json_of_winner (highest_max r));
         ("lowest_min", json_of_winner (lowest_min r));
         ("all_data", json_of_dict json_of_max_min (all_data r))].

(** ** Request walker *)

(** [v.items()] *)
Definition items (v : json) : exc (pydict json) :=
  match v with
  | JDict d => Ret d
  | _ => Raise (AttributeError v "items")
  end.

(** [l[z] = v] on a list: negative indices count from the end. *)
Fixpoint list_update (l : list json) (i : nat) (v : json) : list json :=
  match l, i with
  | [], _ => []
  | _ :: l', O => v :: l'
  | x :: l', S i' => x :: list_update l' i' v
  end.

Definition list_setitem (l : list json) (z : Z) (v : json) : exc json :=
  let n := Z.of_nat (List.length l) in
  let i := if z <? 0 then z + n else z in
  if (0 <=? i) && (i <? n) then Ret (JList (list_update l (Z.to_nat i) v))
  else Raise ListIndexRange.

(** [periods[period] = v].  A dictionary is only ever indexed here by one
    of its own keys, which are strings. *)
Definition assign (periods period v : json) : exc json :=
  match periods, period with
  | JDict d, JStr k => Ret (JDict (dict_set d k v))
  | JDict _, _ => Raise (Unhashable period)
  | JList l, JInt z => list_setitem l z v
  | JList l, JBool b => list_setitem l (if b then 1 else 0) v
  | JList _, _ => Raise (BadListIndex period)
  | _, _ => Raise (NoItemAssignment periods)
  end.

(** [for period in periods: periods = step periods period], over the keys
    of a dictionary or the characters of a string ... *)
Fixpoint iterate_keys (keys : list json) (periods : json)
         (step : json -> json -> exc json) : exc json :=
  match keys with
  | [] => Ret periods
  | k :: ks => p' <- step periods k ;; iterate_keys ks p' step
  end.

(** ... or over the positions of a list, read as the loop reaches them. *)
Fixpoint iterate_list (fuel i : nat) (periods : json)
         (step : json -> json -> exc json) : exc json :=
  match fuel with
  | O => Ret periods
  | S fuel' =>
      match periods with
      | JList l =>
          match nth_error l i with
          | Some e => p' <- step periods e ;; iterate_list fuel' (S i) p' step
          | None => Ret periods
          end
      | _ => Ret periods
      end
  end.

Definition chars (s : string) : list json :=
  map (fun c => JStr (String c "")) (list_ascii_of_string s).

Definition for_each (periods : json) (step : json -> json -> exc json)
  : exc json :=
  match periods with
  | JDict d => iterate_keys (map JStr (dict_keys d)) periods step
  | JStr s => iterate_keys (chars s) periods step
  | JList l => iterate_list (List.length l) 0 periods step
  | _ => Raise (NotIterable periods)
  end.

(** The [if]/[elif] chain of a plain branch: the value to store, when the
    metric is one of the three that have periods. *)
Definition resolver_for (w : World) (metric ticker : string) (period : json)
  : option (exc json) :=
  if String.eqb metric "return" then
    Some (r <- get_return w ticker period ;; Ret (json_of_float r))
  else if String.eqb metric "volatility" then
    Some (r <- get_volatility w ticker period ;; Ret (json_of_float r))
  else if String.eqb metric "max_min" then
    Some (r <- get_max_min w ticker period ;;
          Ret (json_of_option json_of_max_min r))
  else None.

(** The [if]/[elif] chain of the [compare] branch. *)
Definition comparator_for (w : World) (sub_metric : string)
           (tickers : list string) (period : json) : option (exc json) :=
  if String.eqb sub_metric "return" then
    Some (c <- compare_returns w tickers period ;;
          Ret (to_dict (json_of_comparison json_of_returns c)))
  else if String.eqb sub_metric "volatility" then
    Some (c <- compare_volatility w tickers period ;;
          Ret (to_dict (json_of_comparison json_of_volatility c)))
  else if String.eqb sub_metric "fundamentals" then
    Some (c <- compare_fundamentals w tickers ;;
          Ret (to_dict (json_of_comparison json_of_fundamentals_ranking c)))
  else if String.eqb sub_metric "max_min" then
    Some (c <- compare_max_min w tickers period ;;
          Ret (to_dict (json_of_comparison json_of_max_min_ranking c)))
  else None.

(** One pass of the innermost [try]: store the computed value if a branch
    of the chain applies; on any exception store [None] instead. *)
Definition fill_leaf (value : json -> option (exc json))
           (periods period : json) : exc json :=
  try_except
    (match value period with
     | Some compute => v <- compute ;; assign periods period v
     | None => Ret periods
     end)
    (assign periods period JNull).

(** A loop over [d.items()] whose body changes only the value of the
    entry it is visiting; the first exception ends it. *)
Fixpoint map_items (f : string -> json -> exc json) (d : pydict json)
  : exc (pydict json) :=
  match d with
  | [] => Ret []
  | (k, v) :: d' =>
      v' <- f k v ;;
      d'' <- map_items f d' ;;
      Ret ((k, v') :: d'')
  end.

Definition walk_compare (w : World) (tickers_data : json) : exc json :=
  subs <- items tickers_data ;;
  subs' <- map_items
             (fun sub_metric tickers_cmp =>
                cmp <- items tickers_cmp ;;
                cmp' <- map_items
                          (fun ticker periods =>
                             for_each periods
                               (fill_leaf
                                  (comparator_for w sub_metric
                                                  (dict_keys cmp))))
                          cmp ;;
                Ret (JDict cmp'))
             subs ;;
  Ret (JDict subs').

Definition walk_metric (w : World) (metric : string) (tickers_data : json)
  : exc json :=
  tickers <- items tickers_data ;;
  tickers' <- map_items
                (fun ticker periods =>
                   if String.eqb metric "fundamentals" then
                     try_except
                       (r <- get_fundamentals w ticker ;;
                        Ret (json_of_option json_of_fundamentals r))
                       (Ret JNull)
                   else
                     for_each periods
                              (fill_leaf (resolver_for w metric ticker)))
                tickers ;;
  Ret (JDict tickers').

Definition walk (w : World) (parsed : json) : exc json :=
  branches <- items parsed ;;
  branches' <- map_items
                 (fun metric tickers_data =>
                    if String.eqb metric "compare"
                    then walk_compare w tickers_data
                    else walk_metric w metric tickers_data)
                 branches ;;
  Ret (JDict branches').

(** ** The endpoint *)

Definition error_response (prefix : string) (e : exn) : json :=
  JDict [("status", JStr "error");
         ("message", JStr (prefix ++ exn_text e))].

Definition receive_prompt (w : World) (prompt : string) : json :=
  match p <- oracle_request w prompt ;; Ret (to_dict p) with
  | Raise e => error_response "Failed to parse JSON from GPT: " e
  | Ret parsed =>
      match walk w parsed with
      | Raise e => error_response "Failed to fetch data: " e
      | Ret result =>
          let nl_text :=
            match oracle_summary w result with
            | Ret text => text
            | Raise e =>
                "Failed to generate natural language summary: " ++ exn_text e
            end in
          JDict [("status", JStr "ok");
                 ("result", result);
                 ("natural_language", JStr nl_text)]
      end
  end.

Definition status (response : json) : option json :=
  match response with
  | JDict d => dict_get d "status"
  | _ => None
  end.

Definition result (response : json) : option json :=
  match response with
  | JDict d => dict_get d "result"
  | _ => None
  end.

(** ** Notions used to state the properties *)

(** The value a resolver call yields; [None] also when it raises. *)
Definition resolved {V : Type} (r : exc (option V)) : option V :=
  match r with
  | Ret v => v
  | Raise _ => None
  end.

(** The entries a comparator's first loop leaves in its dictionary: one
    per ticker that has a value, in the order of first appearance. *)
Fixpoint first_occurrences {V : Type} (value : string -> option V)
         (seen tickers : list string) : pydict V :=
  match tickers with
  | [] => []
  | t :: ts =>
      match value t with
      | Some v =>
          if existsb (String.eqb t) seen then first_occurrences value seen ts
          else (t, v) :: first_occurrences value (seen ++ [t])%list ts
      | None => first_occurrences value seen ts
      end
  end.

(** The candidates of one ranking: the entries whose value qualifies. *)
Fixpoint pick_values {V : Type} (pick : V -> option float) (d : pydict V)
  : pydict float :=
  match d with
  | [] => []
  | (t, x) :: d' =>
      match pick x with
      | Some v => (t, v) :: pick_values pick d'
      | None => pick_values pick d'
      end
  end.

(** The value with which a ticker enters a sub-comparison of the
    fundamentals: its attribute, when it has one that passes the test. *)
Definition qualifying (attr : fundamentals -> option float)
           (keep : float -> bool) (data : fundamentals) : option float :=
  match attr data with
  | Some v => if keep v then Some v else None
  | None => None
  end.

(** The candidate value of a ticker, from its resolved value. *)
Definition candidate {V : Type} (value : string -> option V)
           (pick : V -> option float) (t : string) : option float :=
  match value t with
  | Some x => pick x
  | None => None
  end.

(** [winner] is the earliest ticker of the list among those whose
    candidate value equals the winning one. *)
Definition first_among_ties (tickers : list string)
           (candidate : string -> option float) (winner : string * float)
  : Prop :=
  forall pre post,
    tickers = (pre ++ fst winner :: post)%list ->
    ~ In (fst winner) pre ->
    forall t v, In t pre -> candidate t = Some v ->
                PyFloat.eqb v (snd winner) = false.


(** How a comparator treats missing data: no ranking only when every
    ticker is unavailable; otherwise the per-ticker map holds exactly the
    available tickers, and every winner is one of them. *)
Definition tolerates_missing {V R : Type} (tickers : list string)
           (resolve : string -> exc (option V)) (entries : R -> pydict V)
           (winners : R -> list string) (c : comparison R) : Prop :=
  match c with
  | NoData _ => forall t, In t tickers -> resolve t = Ret None
  | Ranking r =>
      (forall t v, In (t, v) (entries r) <->
                   In t tickers /\ resolve t = Ret (Some v)) /\
      (exists t, In t tickers /\ resolve t <> Ret None) /\
      (forall t, In t (winners r) -> In t (dict_keys (entries r)))
  end.

Definition winner_name (e : option (string * float)) : list string :=
  match e with
  | Some winner => [fst winner]
  | None => []
  end.

Definition fundamentals_winners (r : fundamentals_ranking) : list string :=
  (winner_name (largest_market_cap r) ++ winner_name (best_pe_ratio r)
   ++ winner_name (highest_dividend_yield r)
   ++ winner_name (lowest_debt_to_equity r))%list.

(** One sub-comparison of the fundamentals: its winner qualifies and no
    qualifying ticker does better; it is left out only when no ticker
    qualifies. *)
Definition sub_comparison_ok (w : World) (tickers : list string)
           (better : float -> float -> bool)
           (attr : fundamentals -> option float) (keep : float -> bool)
           (outcome : option (string * float)) : Prop :=
  match outcome with
  | Some winner =>
      In (fst winner) tickers /\
      (exists data, get_fundamentals w (fst winner) = Ret (Some data) /\
                    attr data = Some (snd winner) /\
                    keep (snd winner) = true) /\
      (forall t data v,
          In t tickers -> get_fundamentals w t = Ret (Some data) ->
          attr data = Some v -> keep v = true ->
          better v (snd winner) = false)
  | None =>
      forall t data v,
        In t tickers -> get_fundamentals w t = Ret (Some data) ->
        attr data = Some v -> keep v = false
  end.

(** Each of the eight running sums has the property [P]. *)
Definition lanes_all (P : float -> Prop) (r : lanes) : Prop :=
  P (lane0 r) /\ P (lane1 r) /\ P (lane2 r) /\ P (lane3 r) /\
  P (lane4 r) /\ P (lane5 r) /\ P (lane6 r) /\ P (lane7 r).

(** The fetch gave no usable price series: it raised, the frame is
    empty, or it has no closing-price column. *)
Definition no_price_series (w : World) (ticker : string) (period : json)
  : Prop :=
  match yf_download w ticker period with
  | Raise _ => True
  | Ret data => df_empty data = true \/ dict_get data "Close" = None
  end.

(** A float with two decimals: the quotient by 100 of an integer, or one
    of the special values. *)
Definition hundredths (v : float) : Prop :=
  match v with
  | S754_nan | S754_infinity _ => True
  | _ => exists k s, v = PyFloat.div (PyFloat.of_integer k s) (PyFloat.of_Z 100)
  end.

(** A float that is the outcome of [round(., 2)]; it has two decimals. *)
Definition rounded_output (v : float) : Prop :=
  (exists x, v = PyFloat.round2 x) /\ hundredths v.

(** The five attributes that go through [float]. *)
Definition numeric_keys : list string :=
  ["marketCap"; "trailingPE"; "trailingEps"; "dividendYield"; "debtToEquity"].

(** An attribute that is absent or null, or an ordinary number. *)
Definition plain_number (v : json) : bool :=
  match v with
  | JNull => true
  | JFloat _ => true
  | JInt z =>
      match PyFloat.of_Z z with
      | S754_infinity _ => false
      | _ => true
      end
  | _ => false
  end.

(** What the record carries for such an attribute: nothing when it is
    absent, null or zero, its value as a float otherwise. *)
Definition carried (v : json) : option float :=
  match v with
  | JFloat f => if PyFloat.truthy f then Some f else None
  | JInt z => if z =? 0 then None else Some (PyFloat.of_Z z)
  | _ => None
  end.

(** An attribute of the record that, when it is not null, is
    [float(info.get(key))] as it stands. *)
Definition passes_through (w : World) (info : pydict json) (key : string)
           (out : option float) : Prop :=
  forall f, out = Some f -> py_float w (info_get info key) = Ret f.

(** [v[k1][k2]...], when every step is a dictionary holding the key. *)
Fixpoint lookup (v : json) (path : list string) : option json :=
  match path with
  | [] => Some v
  | k :: path' =>
      match v with
      | JDict d =>
          match dict_get d k with
          | Some v' => lookup v' path'
          | None => None
          end
      | _ => None
      end
  end.

Definition is_mapping (v : json) : bool :=
  match v with
  | JDict _ => true
  | _ => false
  end.

Definition branches (parsed : json) : pydict json :=
  match parsed with
  | JDict d => d
  | _ => []
  end.

(** The names the walker has a case for. *)
Definition recognized (metric : string) : bool :=
  existsb (String.eqb metric)
          ["return"; "volatility"; "fundamentals"; "max_min"; "compare"].

(** The shape the walker goes through without a request-level error:
    ticker -> periods under a plain branch (ticker -> anything under
    [fundamentals]), one more level under [compare]. *)
Definition tickers_shaped (v : json) : bool :=
  match v with
  | JDict d => forallb (fun kv => is_mapping (snd kv)) d
  | _ => false
  end.

Definition branch_shaped (metric : string) (v : json) : bool :=
  if String.eqb metric "compare" then
    match v with
    | JDict subs => forallb (fun kv => tickers_shaped (snd kv)) subs
    | _ => false
    end
  else if String.eqb metric "fundamentals" then is_mapping v
  else tickers_shaped v.

Definition well_shaped (parsed : json) : bool :=
  match parsed with
  | JDict d => forallb (fun kv => branch_shaped (fst kv) (snd kv)) d
  | _ => false
  end.

(** The value a leaf of the [compare] branch receives. *)
Definition comparison_result (w : World) (sub_metric : string)
           (tickers : list string) (period : json) : json :=
  match comparator_for w sub_metric tickers period with
  | Some (Ret agg) => agg
  | _ => JNull
  end.

(** [agg] is what the comparator named by [sub_metric] returns for all
    of [tickers]. *)
Definition aggregate_of (w : World) (sub_metric : string)
           (tickers : list string) (period : json) (agg : json) : Prop :=
  (sub_metric = "return" /\
   exists c, compare_returns w tickers period = Ret c /\
             agg = json_of_comparison json_of_returns c) \/
  (sub_metric = "volatility" /\
   exists c, compare_volatility w tickers period = Ret c /\
             agg = json_of_comparison json_of_volatility c) \/
  (sub_metric = "fundamentals" /\
   exists c, compare_fundamentals w tickers = Ret c /\
             agg = json_of_comparison json_of_fundamentals_ranking c) \/
  (sub_metric = "max_min" /\
   exists c, compare_max_min w tickers period = Ret c /\
             agg = json_of_comparison json_of_max_min_ranking c).

(** What one pass of the innermost [try] stores under a key, if
    anything. *)
Definition leaf_value (value : json -> option (exc json)) (k : string)
  : option json :=
  match value (JStr k) with
  | Some (Ret v) => Some v
  | Some (Raise _) => Some JNull
  | None => None
  end.

Definition store_leaf (value : json -> option (exc json))
           (d : pydict json) (k : string) : pydict json :=
  match leaf_value value k with
  | Some v => dict_set d k v
  | None => d
  end.

(** Induction over values, through lists and dictionaries. *)
Section JsonInduction.

Variable P : json -> Prop.
Hypothesis P_null : P JNull.
Hypothesis P_bool : forall b, P (JBool b).
Hypothesis P_int : forall z, P (JInt z).
Hypothesis P_float : forall f, P (JFloat f).
Hypothesis P_str : forall s, P (JStr s).
Hypothesis P_list : forall l, Forall P l -> P (JList l).
Hypothesis P_dict : forall d, Forall (fun kv => P (snd kv)) d -> P (JDict d).

Fixpoint json_induction (v : json) : P v :=
  match v with
  | JNull => P_null
  | JBool b => P_bool b
  | JInt z => P_int z
  | JFloat f => P_float f
  | JStr s => P_str s
  | JList l =>
      P_list l
        ((fix all (l : list json) : Forall P l :=
            match l with
            | [] => Forall_nil P
            | x :: l' => Forall_cons x (json_induction x) (all l')
            end) l)
  | JDict d =>
      P_dict d
        ((fix all (d : list (string * json))
            : Forall (fun kv => P (snd kv)) d :=
            match d with
            | [] => Forall_nil _
            | kv :: d' => Forall_cons kv (json_induction (snd kv)) (all d')
            end) d)
  end.

End JsonInduction.

(** ** The volatility the specification describes *)

(** Modelled from the spec: the day-over-day change at row [k + 1], the
    closing price of that row over the closing price of the row before,
    less one. *)
Definition day_over_day (close : list float) (k : nat) : float :=
  PyFloat.sub
    (PyFloat.div (nth (S k) close PyFloat.nan) (nth k close PyFloat.nan))
    (PyFloat.of_Z 1).

(** Modelled from the spec: the changes of a series in the order of its
    rows, the undefined ones (NaN) left out.  The first row has no
    change. *)
Definition defined_changes (close : list float) : list float :=
  filter (fun c => negb (PyFloat.is_nan c))
         (map (day_over_day close) (seq 0 (List.length close - 1))).

(** Modelled from the spec: the sample standard deviation, the root of
    the sum of the squared distances to the mean over one less than the
    number of values.  [total] is the summation. *)
Definition sample_standard_deviation (total : list float -> float)
           (xs : list float) : float :=
  let n := Z.of_nat (List.length xs) in
  let mean := PyFloat.div (total xs) (PyFloat.of_Z n) in
  let squared_distance x :=
    PyFloat.mul (PyFloat.sub x mean) (PyFloat.sub x mean) in
  PyFloat.sqrt
    (PyFloat.div (total (map squared_distance xs)) (PyFloat.of_Z (n - 1))).

(** Modelled from the spec: annualised by the square root of 252, as a
    percentage, with two decimals. *)
Definition annualised_percent (deviation : float) : float :=
  PyFloat.round2
    (PyFloat.mul (PyFloat.mul deviation (PyFloat.sqrt (PyFloat.of_Z 252)))
                 (PyFloat.of_Z 100)).

(** ** Sample data *)

(** A small market, used to run the functions on concrete requests. *)

Definition closes (l : list Z) : DataFrame :=
  [("Open", map PyFloat.of_Z l); ("Close", map PyFloat.of_Z l)].

Definition one_eighth : float := PyFloat.div (PyFloat.of_Z 1) (PyFloat.of_Z 8).

Definition sample_download (ticker : string) (period : json)
  : exc DataFrame :=
  if String.eqb ticker "AAPL" then Ret (closes [100; 110])
  else if String.eqb ticker "MSFT" then Ret (closes [50; 40; 55])
  else if String.eqb ticker "GOOGL" then Ret (closes [200; 150; 180])
  else if String.eqb ticker "NEWCO" then Ret (closes [100])
  else if String.eqb ticker "DOWN" then
    Raise (Exn "ConnectionError" "no route to host")
  else Ret [].

Definition sample_info (ticker : string) : exc (pydict json) :=
  if String.eqb ticker "AAPL" then
    Ret [("longName", JStr "Apple Inc."); ("marketCap", JInt 3000);
         ("trailingPE", JFloat (PyFloat.of_Z (-5)));
         ("trailingEps", JFloat (PyFloat.of_Z 0));
         ("dividendYield", JFloat one_eighth)]
  else if String.eqb ticker "MSFT" then
    Ret [("longName", JStr "Microsoft Corporation"); ("marketCap", JInt 2000);
         ("trailingPE", JInt 30); ("trailingEps", JInt 11);
         ("dividendYield", JFloat one_eighth); ("debtToEquity", JInt 40)]
  else if String.eqb ticker "GOOGL" then
    Ret [("longName", JStr "Alphabet Inc."); ("marketCap", JInt 2000);
         ("trailingPE", JInt 30); ("debtToEquity", JInt 40)]
  else if String.eqb ticker "ODD" then
    Ret [("longName", JStr "Odd Lot"); ("marketCap", JStr "n/a")]
  else if String.eqb ticker "DOWN" then
    Raise (Exn "ConnectionError" "no route to host")
  else Ret [].

Definition sample_world (answer : exc json) : World :=
  {| yf_download := sample_download;
     ticker_info := sample_info;
     str_to_float := fun _ => None;
     oracle_request := fun _ => answer;
     oracle_summary := fun _ => Ret "Sintesi." |}.

Definition market : World := sample_world (Ret (JDict [])).

Definition ytd : json := JStr "ytd".

Definition sample_tickers : list string := ["AAPL"; "MSFT"; "GOOGL"; "DOWN"].

Definition null_leaf : json := JDict [("ytd", JNull)].

(** A request with a branch name the walker does not know. *)
Definition unknown_branch_request : json :=
  JDict [("foo", JDict [("AAPL", null_leaf)])].

(** A request with an unknown branch and a ticker that cannot be
    fetched beside one that can. *)
Definition mixed_request : json :=
  JDict [("foo", JDict [("AAPL", null_leaf)]);
         ("return", JDict [("DOWN", null_leaf); ("AAPL", null_leaf)])].

(** A request whose branch is not a mapping. *)
Definition broken_request : json := JDict [("return", JNull)].

(** A comparison of returns over three tickers. *)
Definition compare_request : json :=
  JDict [("compare",
          JDict [("return",
                  JDict [("AAPL", null_leaf); ("GOOGL", null_leaf);
                         ("DOWN", null_leaf)])])].


(** A market where every series has the same ten closing prices. *)
Definition ten_closes : list Z :=
  [100; 102; 101; 105; 103; 108; 107; 110; 109; 115].

Definition ten_day_market : World :=
  {| yf_download := fun _ _ => Ret (closes ten_closes);
     ticker_info := sample_info;
     str_to_float := fun _ => None;
     oracle_request := fun _ => Ret JNull;
     oracle_summary := fun _ => Ret "" |}.

(** ** Notions for the further properties *)

(** [(last - first) / first * 100], rounded: what [get_return] computes
    from the two ends of a series. *)
Definition percent_return (first last : float) : float :=
  PyFloat.round2
    (PyFloat.mul (PyFloat.div (PyFloat.sub last first) first)
                 (PyFloat.of_Z 100)).

(** Not below zero: NaN and the negative zero pass. *)
Definition not_negative (x : float) : bool :=
  match x with
  | S754_finite true _ _ | S754_infinity true => false
  | _ => true
  end.

(** The sign bit is clear. *)
Definition sign_clear (x : float) : bool :=
  match x with
  | S754_zero true | S754_finite true _ _ | S754_infinity true => false
  | _ => true
  end.

(** A market whose every series starts at zero. *)
Definition zero_start_market : World :=
  {| yf_download := fun _ _ => Ret (closes [0; 3; 5]);
     ticker_info := sample_info;
     str_to_float := fun _ => None;
     oracle_request := fun _ => Ret JNull;
     oracle_summary := fun _ => Ret "" |}.

(** The available tickers of a list with their values, in the order of
    the list. *)
Definition available_in_order {V : Type} (value : string -> option V)
           (tickers : list string) : pydict V :=
  flat_map (fun t => match value t with
                     | Some v => [(t, v)]
                     | None => []
                     end) tickers.

(** A per-ticker map that names no ticker twice and, when the list has no
    repetition, lists the available tickers in the order of the list. *)
Definition lists_once_in_order {V : Type} (tickers : list string)
           (resolve : string -> exc (option V)) (entries : pydict V) : Prop :=
  NoDup (dict_keys entries) /\
  (NoDup tickers ->
   entries = available_in_order (fun t => resolved (resolve t)) tickers).

(** A placeholder the periods loop cannot go over. *)
Definition not_iterable (v : json) : bool :=
  match v with
  | JNull | JBool _ | JInt _ | JFloat _ => true
  | _ => false
  end.

(** Periods written as a list that starts with a name, or as a
    non-empty string. *)
Definition names_not_mapping (v : json) : bool :=
  match v with
  | JList (JStr _ :: _) => true
  | JStr (String _ _) => true
  | _ => false
  end.

Definition fundamentals_request : json :=
  JDict [("fundamentals", JDict [("MSFT", JNull); ("DOWN", null_leaf)])].

Definition null_periods_request : json :=
  JDict [("foo", JDict [("AAPL", JNull)])].

Definition list_periods_request : json :=
  JDict [("return", JDict [("AAPL", JList [JStr "ytd"])])].

Definition unknown_compare_request : json :=
  JDict [("compare", JDict [("sharpe", JDict [("AAPL", null_leaf)])])].

(** The resolver behind a sub-metric has nothing for the ticker. *)
Definition sub_metric_unavailable (w : World) (sub_metric ticker : string)
           (period : json) : Prop :=
  if String.eqb sub_metric "return" then
    get_return w ticker period = Ret None
  else if String.eqb sub_metric "volatility" then
    get_volatility w ticker period = Ret None
  else if String.eqb sub_metric "fundamentals" then
    get_fundamentals w ticker = Ret None
  else get_max_min w ticker period = Ret None.

(** A frame whose closing-price column is there but has no row. *)
Definition close_without_rows (w : World) (ticker : string) (period : json)
  : Prop :=
  exists data,
    yf_download w ticker period = Ret data /\
    dict_get data "Close" = Some [].

(** The first column has a row, the closing prices have none. *)
Definition ragged_market : World :=
  {| yf_download := fun _ _ => Ret [("Open", [PyFloat.of_Z 1]); ("Close", [])];
     ticker_info := sample_info;
     str_to_float := fun _ => None;
     oracle_request := fun _ => Ret JNull;
     oracle_summary := fun _ => Ret "" |}.

(** The longest flat series the zero-volatility property is checked for. *)
Definition flat_limit : nat := 4096.

(** A market where every series is 42, five times. *)
Definition flat_market : World :=
  {| yf_download := fun _ _ => Ret [("Close", repeat (PyFloat.of_Z 42) 5)];
     ticker_info := sample_info;
     str_to_float := fun _ => None;
     oracle_request := fun _ => Ret JNull;
     oracle_summary := fun _ => Ret "" |}.

(** The world [w] with another second-stage oracle. *)
Definition with_summary (w : World) (summary : json -> exc string) : World :=
  {| yf_download := yf_download w;
     ticker_info := ticker_info w;
     str_to_float := str_to_float w;
     oracle_request := oracle_request w;
     oracle_summary := summary |}.

(** * Properties *)

Local Open Scope list_scope.

(** ** Order on binary64 numbers *)

Module PyFloatFacts.

Ltac float_cases :=
  simpl; try discriminate; try reflexivity;
  repeat match goal with
         | s : bool |- _ => destruct s
         end;
  simpl; try congruence.

Ltac compare_cases :=
  change (Pos.compare_cont Eq) with Pos.compare;
  repeat match goal with
         | |- context [Z.compare ?a ?b] => destruct (Z.compare_spec a b)
         | H : context [Z.compare ?a ?b] |- _ => destruct (Z.compare_spec a b)
         end;
  try discriminate; try lia; try reflexivity;
  repeat match goal with
         | |- context [Pos.compare ?a ?b] => destruct (Pos.compare_spec a b)
         | H : context [Pos.compare ?a ?b] |- _ =>
             destruct (Pos.compare_spec a b)
         end;
  simpl in *; try discriminate; try lia; try reflexivity.

Lemma ltb_trans a b c :
  PyFloat.ltb a b = true -> PyFloat.ltb b c = true -> PyFloat.ltb a c = true.
Proof.
  unfold PyFloat.ltb, SFltb.
  destruct a as [sa|sa| |sa ma ea], b as [sb|sb| |sb mb eb],
           c as [sc|sc| |sc mc ec]; float_cases; compare_cases.
Qed.

Lemma ltb_asym a b : PyFloat.ltb a b = true -> PyFloat.ltb b a = false.
Proof.
  unfold PyFloat.ltb, SFltb.
  destruct a as [sa|sa| |sa ma ea], b as [sb|sb| |sb mb eb];
    float_cases; compare_cases.
Qed.

Lemma ltb_not_eqb a b :
  PyFloat.ltb a b = true ->
  PyFloat.eqb a b = false /\ PyFloat.eqb b a = false.
Proof.
  unfold PyFloat.ltb, PyFloat.eqb, SFltb, SFeqb.
  destruct a as [sa|sa| |sa ma ea], b as [sb|sb| |sb mb eb];
    float_cases; try (split; reflexivity); try (intros; split; congruence);
    compare_cases; intros; split; compare_cases.
Qed.

Lemma eqb_ltb_l a b c :
  PyFloat.eqb a b = true -> PyFloat.ltb b c = true -> PyFloat.ltb a c = true.
Proof.
  unfold PyFloat.ltb, PyFloat.eqb, SFltb, SFeqb.
  destruct a as [sa|sa| |sa ma ea], b as [sb|sb| |sb mb eb],
           c as [sc|sc| |sc mc ec]; float_cases; compare_cases.
Qed.

Lemma eqb_ltb_r a b c :
  PyFloat.eqb a b = true -> PyFloat.ltb c b = true -> PyFloat.ltb c a = true.
Proof.
  unfold PyFloat.ltb, PyFloat.eqb, SFltb, SFeqb.
  destruct a as [sa|sa| |sa ma ea], b as [sb|sb| |sb mb eb],
           c as [sc|sc| |sc mc ec]; float_cases; compare_cases.
Qed.

End PyFloatFacts.

(** ** Exceptions and dictionaries *)

Lemma try_except_returns {A : Type} (body : exc A) (a : A) :
  exists r, try_except body (Ret a) = Ret r.
Proof. destruct body; simpl; eauto. Qed.

Lemma dict_get_In {V : Type} (d : pydict V) (k : string) (v : V) :
  dict_get d k = Some v -> In (k, v) d.
Proof.
  induction d as [|[k' v'] d IH]; simpl; [discriminate|].
  destruct (String.eqb_spec k' k) as [->|Hne]; intros H.
  - injection H as ->. now left.
  - right. now apply IH.
Qed.



Lemma dict_get_None_keys {V : Type} (d : pydict V) (k : string) :
  dict_get d k = None <-> ~ In k (dict_keys d).
Proof.
  induction d as [|[k' v'] d IH]; simpl; [tauto|].
  destruct (String.eqb_spec k' k) as [->|Hne].
  - split; [discriminate|]. intros H. exfalso. apply H. now left.
  - rewrite IH. split; intros H; [intros [E|E]; [congruence|tauto]|tauto].
Qed.

Lemma dict_set_fresh {V : Type} (d : pydict V) (k : string) (v : V) :
  dict_get d k = None -> dict_set d k v = (d ++ [(k, v)])%list.
Proof.
  induction d as [|[k' v'] d IH]; simpl; [reflexivity|].
  destruct (String.eqb k' k); [discriminate|].
  intros H. now rewrite IH.
Qed.

Lemma dict_set_same {V : Type} (d : pydict V) (k : string) (v : V) :
  dict_get d k = Some v -> dict_set d k v = d.
Proof.
  induction d as [|[k' v'] d IH]; simpl; [discriminate|].
  destruct (String.eqb k' k).
  - intros H. now injection H as ->.
  - intros H. now rewrite IH.
Qed.

Lemma dict_get_set {V : Type} (d : pydict V) (k k' : string) (v : V) :
  dict_get (dict_set d k v) k' =
  if String.eqb k k' then Some v else dict_get d k'.
Proof.
  induction d as [|[k0 v0] d IH]; simpl.
  - destruct (String.eqb k k'); reflexivity.
  - destruct (String.eqb_spec k0 k) as [->|Hne]; simpl.
    + destruct (String.eqb k k'); reflexivity.
    + rewrite IH. destruct (String.eqb_spec k0 k') as [->|Hne'];
        [|reflexivity].
      destruct (String.eqb_spec k k'); congruence.
Qed.


(** ** Choosing the best entry *)

Section Extremum.

Variable better : float -> float -> bool.
Hypothesis better_trans : forall a b c,
    better a b = true -> better b c = true -> better a c = true.
Hypothesis better_asym : forall a b,
    better a b = true -> better b a = false.
Hypothesis better_not_tie : forall a b,
    better a b = true -> PyFloat.eqb b a = false.
Hypothesis tie_better : forall a b c,
    PyFloat.eqb a b = true -> better b c = true -> better a c = true.

(** Where the chosen entry stands: nothing before it ties with it or
    beats it, nothing after it beats it. *)
Lemma extremum_from_position (rest : pydict float) :
  forall cur : string * float,
  exists L1 L2 : pydict float,
    (cur :: rest = L1 ++ extremum_from better cur rest :: L2)%list /\
    (forall x, In x L1 ->
               PyFloat.eqb (snd x) (snd (extremum_from better cur rest))
               = false /\
               better (snd x) (snd (extremum_from better cur rest)) = false) /\
    (forall x, In x L2 ->
               better (snd x) (snd (extremum_from better cur rest)) = false) /\
    (L1 = [] \/
     better (snd (extremum_from better cur rest)) (snd cur) = true).
Proof.
  induction rest as [|kv rest IH]; intros cur; simpl.
  - exists [], []. split; [reflexivity|].
    split; [intros x []|]. split; [intros x []|now left].
  - destruct (better (snd kv) (snd cur)) eqn:Hb.
    + destruct (IH kv) as (L1 & L2 & Heq & H1 & H2 & Hc).
      set (w := extremum_from better kv rest) in *.
      assert (Hw : better (snd w) (snd cur) = true).
      { destruct Hc as [->|Hc]; [|eauto].
        simpl in Heq. injection Heq as <- _. exact Hb. }
      exists (cur :: L1), L2.
      split; [simpl; now rewrite Heq|].
      split; [|split; [exact H2|now right]].
      intros x [<-|H]; [|now apply H1].
      split; [now apply better_not_tie|now apply better_asym].
    + destruct (IH cur) as (L1 & L2 & Heq & H1 & H2 & Hc).
      set (w := extremum_from better cur rest) in *.
      destruct L1 as [|c L1].
      * simpl in Heq. injection Heq as Hw <-.
        exists [], (kv :: rest).
        split; [simpl; now rewrite <- Hw|].
        split; [intros x []|]. split; [|now left].
        rewrite <- Hw.
        intros x [<-|H]; [exact Hb|].
        assert (Hx := H2 x H). now rewrite <- Hw in Hx.
      * destruct Hc as [Hc|Hc]; [discriminate|].
        simpl in Heq. injection Heq as <- Heq.
        exists (cur :: kv :: L1), L2.
        split; [simpl; now rewrite Heq|].
        split; [|split; [exact H2|now right]].
        intros x [<-|[<-|H]].
        -- apply H1. now left.
        -- split.
           ++ destruct (PyFloat.eqb (snd kv) (snd w)) eqn:He; [|reflexivity].
              rewrite (tie_better _ _ _ He Hc) in Hb. discriminate.
           ++ destruct (better (snd kv) (snd w)) eqn:He; [|reflexivity].
              rewrite (better_trans _ _ _ He Hc) in Hb. discriminate.
        -- apply H1. now right.
Qed.

Lemma extremum_from_In (rest : pydict float) (cur : string * float) :
  In (extremum_from better cur rest) (cur :: rest).
Proof.
  destruct (extremum_from_position rest cur) as (L1 & L2 & -> & _).
  apply in_or_app. right. now left.
Qed.

(** No entry beats the chosen one. *)
Lemma extremum_from_best (rest : pydict float) (cur x : string * float) :
  In x (cur :: rest) ->
  better (snd x) (snd (extremum_from better cur rest)) = false.
Proof.
  destruct (extremum_from_position rest cur) as (L1 & L2 & Heq & H1 & H2 & _).
  rewrite Heq. intros H. apply in_app_or in H. destruct H as [H|[<-|H]].
  - now apply H1.
  - destruct (better (snd (extremum_from better cur rest))
                     (snd (extremum_from better cur rest))) eqn:E;
      [|reflexivity].
    now rewrite (better_asym _ _ E) in E.
  - now apply H2.
Qed.

End Extremum.

Lemma gtb_trans a b c :
  PyFloat.gtb a b = true -> PyFloat.gtb b c = true -> PyFloat.gtb a c = true.
Proof. unfold PyFloat.gtb. eauto using PyFloatFacts.ltb_trans. Qed.

Lemma gtb_asym a b : PyFloat.gtb a b = true -> PyFloat.gtb b a = false.
Proof. unfold PyFloat.gtb. apply PyFloatFacts.ltb_asym. Qed.

Lemma gtb_not_tie a b : PyFloat.gtb a b = true -> PyFloat.eqb b a = false.
Proof.
  unfold PyFloat.gtb. intros H.
  exact (proj1 (PyFloatFacts.ltb_not_eqb _ _ H)).
Qed.

Lemma tie_gtb a b c :
  PyFloat.eqb a b = true -> PyFloat.gtb b c = true -> PyFloat.gtb a c = true.
Proof. unfold PyFloat.gtb. apply PyFloatFacts.eqb_ltb_r. Qed.

Lemma ltb_not_tie a b : PyFloat.ltb a b = true -> PyFloat.eqb b a = false.
Proof. intros H. exact (proj2 (PyFloatFacts.ltb_not_eqb _ _ H)). Qed.

(** ** The dictionary a comparator collects *)

Section Collect.

Context {V : Type}.
Variable resolve : string -> exc (option V).
Hypothesis resolve_returns : forall t, exists r, resolve t = Ret r.

Let value (t : string) : option V := resolved (resolve t).

Lemma collect_first_occurrences (tickers : list string) :
  forall acc : pydict V,
    (forall k v, In (k, v) acc -> value k = Some v) ->
    collect resolve tickers acc =
    Ret (acc ++ first_occurrences value (dict_keys acc) tickers)%list.
Proof.
  induction tickers as [|t ts IH]; intros acc Hacc; simpl.
  - now rewrite app_nil_r.
  - destruct (resolve_returns t) as [r Hr].
    unfold value at 1, resolved. rewrite Hr. simpl.
    destruct r as [v|]; [|now apply IH].
    destruct (existsb (String.eqb t) (dict_keys acc)) eqn:Hseen.
    + apply existsb_exists in Hseen. destruct Hseen as (k & Hk & Ek).
      apply String.eqb_eq in Ek. subst k.
      destruct (dict_get acc t) as [v'|] eqn:Hget.
      * assert (v' = v).
        { apply dict_get_In, Hacc in Hget.
          unfold value, resolved in Hget. rewrite Hr in Hget. congruence. }
        subst v'. rewrite (dict_set_same _ _ _ Hget). now apply IH.
      * apply dict_get_None_keys in Hget. contradiction.
    + assert (Hget : dict_get acc t = None).
      { apply dict_get_None_keys. intros Hin.
        assert (existsb (String.eqb t) (dict_keys acc) = true); [|congruence].
        apply existsb_exists. exists t. split; [exact Hin|].
        apply String.eqb_refl. }
      rewrite (dict_set_fresh _ _ _ Hget). rewrite IH.
      * unfold dict_keys. rewrite map_app, <- app_assoc. reflexivity.
      * intros k v0 Hin. apply in_app_or in Hin.
        destruct Hin as [Hin|[Hin|[]]]; [now apply Hacc|].
        injection Hin as <- <-. unfold value, resolved. now rewrite Hr.
Qed.

Lemma collect_from_empty (tickers : list string) :
  collect resolve tickers [] = Ret (first_occurrences value [] tickers).
Proof.
  rewrite collect_first_occurrences; [reflexivity|]. intros k v [].
Qed.

End Collect.

Section FirstOccurrences.

Context {V : Type}.
Variable value : string -> option V.

Lemma first_occurrences_In (tickers : list string) :
  forall seen t v,
    In (t, v) (first_occurrences value seen tickers) ->
    In t tickers /\ value t = Some v /\ ~ In t seen.
Proof.
  induction tickers as [|t0 ts IH]; intros seen t v; simpl; [tauto|].
  destruct (value t0) as [v0|] eqn:Hv.
  - destruct (existsb (String.eqb t0) seen) eqn:Hseen.
    + intros H. apply IH in H. tauto.
    + intros [H|H].
      * injection H as <- <-. split; [now left|]. split; [exact Hv|].
        intros Hin.
        assert (existsb (String.eqb t0) seen = true); [|congruence].
        apply existsb_exists. exists t0. split; [exact Hin|].
        apply String.eqb_refl.
      * apply IH in H. destruct H as (H1 & H2 & H3).
        split; [now right|]. split; [exact H2|].
        intros Hin. apply H3. apply in_or_app. now left.
  - intros H. apply IH in H. tauto.
Qed.

Lemma In_first_occurrences (tickers : list string) :
  forall seen t v,
    In t tickers -> value t = Some v -> ~ In t seen ->
    In (t, v) (first_occurrences value seen tickers).
Proof.
  induction tickers as [|t0 ts IH]; intros seen t v; simpl; [tauto|].
  intros Hin Hv Hseen.
  destruct (String.eqb_spec t0 t) as [->|Hne].
  - rewrite Hv.
    destruct (existsb (String.eqb t) seen) eqn:E; [|now left].
    apply existsb_exists in E. destruct E as (k & Hk & Ek).
    apply String.eqb_eq in Ek. subst k. contradiction.
  - destruct Hin as [Hin|Hin]; [congruence|].
    destruct (value t0) as [v0|]; [|now apply IH].
    destruct (existsb (String.eqb t0) seen); [now apply IH|].
    right. apply IH; auto.
    intros H. apply in_app_or in H. destruct H as [H|[H|[]]]; congruence.
Qed.

Lemma first_occurrences_app (pre post : list string) :
  forall seen,
    first_occurrences value seen (pre ++ post) =
    (first_occurrences value seen pre ++
     first_occurrences value
       (seen ++ dict_keys (first_occurrences value seen pre)) post)%list.
Proof.
  induction pre as [|t ts IH]; intros seen; simpl.
  - now rewrite app_nil_r.
  - destruct (value t) as [v|]; [|apply IH].
    destruct (existsb (String.eqb t) seen); [apply IH|].
    simpl. rewrite IH. now rewrite <- app_assoc.
Qed.

End FirstOccurrences.

Section PickValues.

Context {V : Type}.
Variable pick : V -> option float.

Lemma pick_values_app (d1 d2 : pydict V) :
  pick_values pick (d1 ++ d2) =
  (pick_values pick d1 ++ pick_values pick d2)%list.
Proof.
  induction d1 as [|[t x] d1 IH]; simpl; [reflexivity|].
  destruct (pick x); simpl; now rewrite IH.
Qed.

Lemma pick_values_In (d : pydict V) (t : string) (v : float) :
  In (t, v) (pick_values pick d) <->
  exists x, In (t, x) d /\ pick x = Some v.
Proof.
  induction d as [|[t0 x0] d IH]; simpl.
  - split; [tauto|]. intros (x & [] & _).
  - destruct (pick x0) as [v0|] eqn:Hp; simpl; rewrite IH; split.
    + intros [H|(x & H1 & H2)]; [|eauto].
      injection H as <- <-. eauto.
    + intros (x & [H|H] & Hx); [|eauto].
      injection H as <- <-. left. congruence.
    + intros (x & H1 & H2). eauto.
    + intros (x & [H|H] & Hx); [|eauto].
      injection H as <- <-. congruence.
Qed.

End PickValues.

Lemma pick_values_all (d : pydict float) : pick_values Some d = d.
Proof.
  induction d as [|[t x] d IH]; simpl; [reflexivity|]. now rewrite IH.
Qed.

Lemma pick_values_map {V : Type} (f : V -> float) (d : pydict V) :
  map (fun kv => (fst kv, f (snd kv))) d = pick_values (fun x => Some (f x)) d.
Proof.
  induction d as [|[t x] d IH]; simpl; [reflexivity|]. now rewrite IH.
Qed.

Lemma select_attribute_pick (attr : fundamentals -> option float)
      (keep : float -> bool) (d : pydict fundamentals) :
  select_attribute attr keep d = pick_values (qualifying attr keep) d.
Proof.
  induction d as [|[t x] d IH]; simpl; [reflexivity|].
  unfold qualifying at 1. destruct (attr x) as [v|]; [|exact IH].
  destruct (keep v); [|exact IH]. now rewrite IH.
Qed.

Lemma app_prefix_before {A : Type} (P : list A) :
  forall (Q L1 L2 : list A) (w : A),
    (P ++ Q = L1 ++ w :: L2)%list -> ~ In w P ->
    exists C, L1 = (P ++ C)%list.
Proof.
  induction P as [|a P IH]; intros Q L1 L2 w Heq Hw; simpl in *; [eauto|].
  destruct L1 as [|b L1]; simpl in Heq.
  - injection Heq as -> _. exfalso. apply Hw. now left.
  - injection Heq as <- Heq. destruct (IH _ _ _ _ Heq) as [C ->]; [tauto|].
    now exists C.
Qed.

(** ** The winner of a ranking *)

Section Ranking.

Variable better : float -> float -> bool.
Hypothesis better_trans : forall a b c,
    better a b = true -> better b c = true -> better a c = true.
Hypothesis better_asym : forall a b,
    better a b = true -> better b a = false.
Hypothesis better_not_tie : forall a b,
    better a b = true -> PyFloat.eqb b a = false.
Hypothesis tie_better : forall a b c,
    PyFloat.eqb a b = true -> better b c = true -> better a c = true.

Context {V : Type}.
Variable value : string -> option V.
Variable pick : V -> option float.
Variable tickers : list string.

Lemma ranking_winner (cur : string * float) (rest : pydict float) :
  pick_values pick (first_occurrences value [] tickers) = cur :: rest ->
  In (fst (extremum_from better cur rest)) tickers /\
  candidate value pick (fst (extremum_from better cur rest)) =
    Some (snd (extremum_from better cur rest)) /\
  (forall t v, In t tickers -> candidate value pick t = Some v ->
               better v (snd (extremum_from better cur rest)) = false) /\
  first_among_ties tickers (candidate value pick)
                   (extremum_from better cur rest).
Proof.
  intros Hc. set (w := extremum_from better cur rest).
  assert (Hin : In w (cur :: rest))
    by apply (extremum_from_In better better_trans better_asym
                better_not_tie tie_better).
  assert (Hcand : forall t v, In (t, v) (cur :: rest) <->
                              In t tickers /\ candidate value pick t = Some v).
  { intros t v. rewrite <- Hc, pick_values_In. unfold candidate. split.
    - intros (x & Hx & Hp). apply first_occurrences_In in Hx.
      destruct Hx as (H1 & H2 & _). now rewrite H2.
    - intros (H1 & H2). destruct (value t) as [x|] eqn:Hv; [|discriminate].
      exists x. split; [|exact H2].
      apply In_first_occurrences; auto. }
  destruct w as [tw vw] eqn:Ew. simpl.
  destruct (proj1 (Hcand tw vw) Hin) as [Hw1 Hw2].
  split; [exact Hw1|]. split; [exact Hw2|]. split.
  - intros t v Ht Hv.
    assert (Hx : In (t, v) (cur :: rest)) by (apply Hcand; auto).
    pose proof (extremum_from_best better better_trans better_asym
                  better_not_tie tie_better rest cur (t, v) Hx) as Hb.
    fold w in Hb. rewrite Ew in Hb. exact Hb.
  - intros pre post Htk Hpre t v Ht Hv. simpl in *.
    destruct (extremum_from_position better better_trans better_asym
                better_not_tie tie_better rest cur)
      as (L1 & L2 & Heq & H1 & _).
    fold w in Heq, H1. rewrite Ew in Heq, H1. simpl in H1.
    rewrite <- Hc, Htk, first_occurrences_app, pick_values_app in Heq.
    apply app_prefix_before in Heq.
    + destruct Heq as [C ->].
      apply (H1 (t, v)). apply in_or_app. left.
      apply pick_values_In. unfold candidate in Hv.
      destruct (value t) as [x|] eqn:Hx; [|discriminate].
      exists x. split; [|exact Hv]. apply In_first_occurrences; auto.
    + intros Hbad. apply pick_values_In in Hbad.
      destruct Hbad as (x & Hx & _).
      apply first_occurrences_In in Hx. tauto.
Qed.

End Ranking.

(** ** Resolvers return *)

Lemma get_return_returns w ticker period :
  exists r, get_return w ticker period = Ret r.
Proof. apply try_except_returns. Qed.

Lemma get_volatility_returns w ticker period :
  exists r, get_volatility w ticker period = Ret r.
Proof. apply try_except_returns. Qed.

Lemma get_max_min_returns w ticker period :
  exists r, get_max_min w ticker period = Ret r.
Proof. apply try_except_returns. Qed.

Lemma get_fundamentals_returns w ticker :
  exists r, get_fundamentals w ticker = Ret r.
Proof. apply try_except_returns. Qed.

(** ** Comparators, unfolded *)

Lemma compare_returns_spec w tickers period :
  compare_returns w tickers period =
  Ret match
        first_occurrences (fun t => resolved (get_return w t period)) [] tickers
      with
      | [] => NoData "No data available for tickers"
      | cur :: rest =>
          Ranking {| best_ticker := fst (extremum_from PyFloat.gtb cur rest);
                     best_return := snd (extremum_from PyFloat.gtb cur rest);
                     all_returns := cur :: rest |}
      end.
Proof.
  unfold compare_returns.
  rewrite collect_from_empty by (intros; apply get_return_returns).
  simpl. now destruct (first_occurrences _ [] tickers).
Qed.

Lemma compare_volatility_spec w tickers period :
  compare_volatility w tickers period =
  Ret match
        first_occurrences (fun t => resolved (get_volatility w t period))
                          [] tickers
      with
      | [] => NoData "No volatility data available for tickers"
      | cur :: rest =>
          Ranking
            {| least_volatile := fst (extremum_from PyFloat.ltb cur rest);
               least_volatility := snd (extremum_from PyFloat.ltb cur rest);
               most_volatile := fst (extremum_from PyFloat.gtb cur rest);
               most_volatility := snd (extremum_from PyFloat.gtb cur rest);
               all_volatilities := cur :: rest |}
      end.
Proof.
  unfold compare_volatility.
  rewrite collect_from_empty by (intros; apply get_volatility_returns).
  simpl. now destruct (first_occurrences _ [] tickers).
Qed.

Lemma sub_comparison_spec name better (candidates : pydict float) :
  sub_comparison (py_extremum name better) candidates =
  Ret match candidates with
      | [] => None
      | cur :: rest => Some (extremum_from better cur rest)
      end.
Proof. now destruct candidates. Qed.

Lemma compare_fundamentals_spec w tickers :
  compare_fundamentals w tickers =
  Ret match
        first_occurrences (fun t => resolved (get_fundamentals w t)) [] tickers
      with
      | [] => NoData "No fundamentals data available for tickers"
      | e :: d =>
          let best better attr keep :=
            match pick_values (qualifying attr keep) (e :: d) with
            | [] => None
            | cur :: rest => Some (extremum_from better cur rest)
            end in
          Ranking
            {| all_fundamentals := e :: d;
               largest_market_cap := best PyFloat.gtb marketCap any_value;
               best_pe_ratio := best PyFloat.ltb peRatio positive_value;
               highest_dividend_yield :=
                 best PyFloat.gtb dividendYield positive_value;
               lowest_debt_to_equity :=
                 best PyFloat.ltb debtToEquity positive_value |}
      end.
Proof.
  unfold compare_fundamentals.
  rewrite collect_from_empty by (intros; apply get_fundamentals_returns).
  cbn [bind]. destruct (first_occurrences _ [] tickers) as [|e d];
    [reflexivity|].
  unfold py_max, py_min. rewrite !sub_comparison_spec. cbn [bind].
  rewrite !select_attribute_pick. reflexivity.
Qed.

Lemma compare_max_min_spec w tickers period :
  compare_max_min w tickers period =
  Ret match
        first_occurrences (fun t => resolved (get_max_min w t period))
                          [] tickers
      with
      | [] => NoData "No max/min data available for tickers"
      | e :: d =>
          match pick_values (fun m => Some (mm_max m)) (e :: d),
                pick_values (fun m => Some (mm_min m)) (e :: d)
          with
          | hi :: his, lo :: los =>
              Ranking {| highest_max := extremum_from PyFloat.gtb hi his;
                         lowest_min := extremum_from PyFloat.ltb lo los;
                         all_data := e :: d |}
          | _, _ => NoData "No max/min data available for tickers"
          end
      end.
Proof.
  unfold compare_max_min.
  rewrite collect_from_empty by (intros; apply get_max_min_returns).
  simpl. destruct (first_occurrences _ [] tickers) as [|[t m] d];
    reflexivity || (simpl; now rewrite !pick_values_map).
Qed.

Lemma max_In (cur : string * float) (rest : pydict float) :
  In (extremum_from PyFloat.gtb cur rest) (cur :: rest).
Proof.
  exact (extremum_from_In PyFloat.gtb gtb_trans gtb_asym gtb_not_tie tie_gtb
           rest cur).
Qed.

Lemma min_In (cur : string * float) (rest : pydict float) :
  In (extremum_from PyFloat.ltb cur rest) (cur :: rest).
Proof.
  exact (extremum_from_In PyFloat.ltb PyFloatFacts.ltb_trans
           PyFloatFacts.ltb_asym ltb_not_tie PyFloatFacts.eqb_ltb_l rest cur).
Qed.

Lemma In_dict_keys {V : Type} (d : pydict V) (k : string) (v : V) :
  In (k, v) d -> In k (dict_keys d).
Proof. intros H. unfold dict_keys. now apply (in_map fst) in H. Qed.

Lemma picked_key {V : Type} (pick : V -> option float) (d : pydict V)
      (e : string * float) :
  In e (pick_values pick d) -> In (fst e) (dict_keys d).
Proof.
  destruct e as [t v]. intros H. apply pick_values_In in H.
  destruct H as (x & Hx & _). simpl. eapply In_dict_keys, Hx.
Qed.

Section Availability.

Context {V : Type}.
Variable resolve : string -> exc (option V).
Hypothesis resolve_returns : forall t, exists r, resolve t = Ret r.
Variable tickers : list string.

Lemma available_entries (t : string) (v : V) :
  In (t, v) (first_occurrences (fun t => resolved (resolve t)) [] tickers) <->
  In t tickers /\ resolve t = Ret (Some v).
Proof.
  split.
  - intros H. apply first_occurrences_In in H. destruct H as (H1 & H2 & _).
    split; [exact H1|]. destruct (resolve_returns t) as [r Hr].
    rewrite Hr in *. simpl in H2. now subst r.
  - intros [H1 H2]. apply In_first_occurrences; auto.
    now rewrite H2.
Qed.

Lemma nothing_available :
  first_occurrences (fun t => resolved (resolve t)) [] tickers = [] ->
  forall t, In t tickers -> resolve t = Ret None.
Proof.
  intros Hnil t Ht. destruct (resolve_returns t) as [[v|] Hr]; [|exact Hr].
  assert (H : In (t, v) []); [|destruct H].
  rewrite <- Hnil. apply available_entries. auto.
Qed.

Lemma something_available (e : string * V) (d : pydict V) :
  first_occurrences (fun t => resolved (resolve t)) [] tickers = e :: d ->
  exists t, In t tickers /\ resolve t <> Ret None.
Proof.
  intros Hd. destruct e as [t v]. exists t.
  assert (H : In (t, v) ((t, v) :: d)) by now left.
  rewrite <- Hd in H. apply available_entries in H.
  destruct H as [H1 H2]. split; [exact H1|]. rewrite H2. discriminate.
Qed.

End Availability.

(** ** Comparators and missing data *)

Ltac missing_data_start spec returns Hd :=
  rewrite spec;
  match goal with
  | |- context [first_occurrences ?f [] ?ts] =>
      pose proof (available_entries _ returns ts) as Hentries;
      pose proof (nothing_available _ returns ts) as Hnone;
      pose proof (something_available _ returns ts) as Hsome;
      cbv beta in Hentries, Hnone, Hsome;
      destruct (first_occurrences f [] ts) as [|e d] eqn:Hd
  end.

Ltac record_projections :=
  cbn [tolerates_missing all_returns best_ticker all_volatilities
       least_volatile most_volatile all_data highest_max lowest_min
       all_fundamentals largest_market_cap best_pe_ratio
       highest_dividend_yield lowest_debt_to_equity].

(** C5. Each of the four comparators returns without raising; it gives
    the "no data" result exactly when every ticker of the list is
    unavailable, and otherwise a ranking whose per-ticker map holds
    exactly the available tickers and whose winners are among them. *)
Theorem comparators_tolerate_missing_data
        (w : World) (tickers : list string) (period : json) :
  (exists c, compare_returns w tickers period = Ret c /\
             tolerates_missing tickers (fun t => get_return w t period)
               all_returns (fun r => [best_ticker r]) c) /\
  (exists c, compare_volatility w tickers period = Ret c /\
             tolerates_missing tickers (fun t => get_volatility w t period)
               all_volatilities
               (fun r => [least_volatile r; most_volatile r]) c) /\
  (exists c, compare_max_min w tickers period = Ret c /\
             tolerates_missing tickers (fun t => get_max_min w t period)
               all_data
               (fun r => [fst (highest_max r); fst (lowest_min r)]) c) /\
  (exists c, compare_fundamentals w tickers = Ret c /\
             tolerates_missing tickers (fun t => get_fundamentals w t)
               all_fundamentals fundamentals_winners c).
Proof.
  split; [|split; [|split]].
  - missing_data_start compare_returns_spec
      (fun t => get_return_returns w t period) Hd;
      eexists; (split; [reflexivity|]); record_projections; [now apply Hnone|].
    split; [exact Hentries|]. split; [now apply (Hsome e d)|].
    intros t [<-|[]]. eapply In_dict_keys.
    rewrite <- surjective_pairing. apply max_In.
  - missing_data_start compare_volatility_spec
      (fun t => get_volatility_returns w t period) Hd;
      eexists; (split; [reflexivity|]); record_projections; [now apply Hnone|].
    split; [exact Hentries|]. split; [now apply (Hsome e d)|].
    intros t [<-|[<-|[]]]; eapply In_dict_keys;
      rewrite <- surjective_pairing; [apply min_In|apply max_In].
  - missing_data_start compare_max_min_spec
      (fun t => get_max_min_returns w t period) Hd;
      [eexists; (split; [reflexivity|]); record_projections; now apply Hnone|].
    destruct e as [t0 m0]. cbn [pick_values].
    eexists; (split; [reflexivity|]). record_projections.
    split; [exact Hentries|]. split; [now apply (Hsome (t0, m0) d)|].
    intros t [<-|[<-|[]]].
    + apply (picked_key (fun m => Some (mm_max m)) ((t0, m0) :: d)).
      cbn [pick_values]. apply max_In.
    + apply (picked_key (fun m => Some (mm_min m)) ((t0, m0) :: d)).
      cbn [pick_values]. apply min_In.
  - missing_data_start compare_fundamentals_spec
      (fun t => get_fundamentals_returns w t) Hd;
      eexists; (split; [reflexivity|]); record_projections;
      [now apply Hnone|].
    split; [exact Hentries|]. split; [now apply (Hsome e d)|].
    cbv zeta. unfold fundamentals_winners.
    cbn [all_fundamentals largest_market_cap best_pe_ratio
         highest_dividend_yield lowest_debt_to_equity].
    intros t Ht.
    repeat (apply in_app_or in Ht; destruct Ht as [Ht|Ht]);
      match type of Ht with
      | context [pick_values ?p (e :: d)] =>
          destruct (pick_values p (e :: d)) as [|cur rest] eqn:Hp;
          [destruct Ht|]; destruct Ht as [<-|[]];
          apply (picked_key p (e :: d)); rewrite Hp
      end; apply max_In || apply min_In.
Qed.

(** ** Sub-comparisons of the fundamentals *)

Lemma qualifying_Some attr keep data v :
  qualifying attr keep data = Some v <-> attr data = Some v /\ keep v = true.
Proof.
  unfold qualifying.
  destruct (attr data) as [x|]; [|split; [|intros []]; discriminate].
  destruct (keep x) eqn:Hk; split.
  - intros H. injection H as <-. auto.
  - intros [H _]. exact H.
  - discriminate.
  - intros [H Hv]. injection H as <-. congruence.
Qed.

Lemma fundamentals_value w t data :
  resolved (get_fundamentals w t) = Some data <->
  get_fundamentals w t = Ret (Some data).
Proof.
  destruct (get_fundamentals_returns w t) as [r ->]. simpl.
  split; congruence.
Qed.

Section SubComparison.

Variable better : float -> float -> bool.
Hypothesis better_trans : forall a b c,
    better a b = true -> better b c = true -> better a c = true.
Hypothesis better_asym : forall a b,
    better a b = true -> better b a = false.
Hypothesis better_not_tie : forall a b,
    better a b = true -> PyFloat.eqb b a = false.
Hypothesis tie_better : forall a b c,
    PyFloat.eqb a b = true -> better b c = true -> better a c = true.

Lemma sub_comparison_winner w tickers attr keep :
  sub_comparison_ok w tickers better attr keep
    match
      pick_values (qualifying attr keep)
        (first_occurrences (fun t => resolved (get_fundamentals w t))
                           [] tickers)
    with
    | [] => None
    | cur :: rest => Some (extremum_from better cur rest)
    end.
Proof.
  destruct (pick_values _ _) as [|cur rest] eqn:Hp; simpl.
  - intros t data v Ht Hd Ha. destruct (keep v) eqn:Hk; [|reflexivity].
    assert (H : In (t, v) []); [|destruct H]. rewrite <- Hp.
    apply pick_values_In. exists data. split.
    + apply In_first_occurrences; auto. now apply fundamentals_value.
    + apply qualifying_Some. auto.
  - destruct (ranking_winner better better_trans better_asym better_not_tie
                tie_better _ _ tickers cur rest Hp) as (H1 & H2 & H3 & _).
    split; [exact H1|]. split.
    + unfold candidate in H2.
      destruct (resolved (get_fundamentals w _)) as [data|] eqn:Hv;
        [|discriminate].
      exists data. apply fundamentals_value in Hv.
      apply qualifying_Some in H2. tauto.
    + intros t data v Ht Hd Ha Hk. apply (H3 t v Ht).
      unfold candidate. apply fundamentals_value in Hd. rewrite Hd.
      apply qualifying_Some. auto.
Qed.

End SubComparison.

(** C6. In a fundamentals comparison each of the four sub-comparisons
    stands alone: the largest market capitalisation, the lowest strictly
    positive price/earnings ratio, the highest strictly positive dividend
    yield and the lowest strictly positive debt-to-equity are each chosen
    among the tickers that have a qualifying value for that attribute,
    whatever their other attributes are, and a sub-comparison is left out
    exactly when no ticker qualifies for it. *)
Theorem fundamentals_sub_comparisons_independent
        (w : World) (tickers : list string) (r : fundamentals_ranking) :
  compare_fundamentals w tickers = Ret (Ranking r) ->
  sub_comparison_ok w tickers PyFloat.gtb marketCap any_value
                    (largest_market_cap r) /\
  sub_comparison_ok w tickers PyFloat.ltb peRatio positive_value
                    (best_pe_ratio r) /\
  sub_comparison_ok w tickers PyFloat.gtb dividendYield positive_value
                    (highest_dividend_yield r) /\
  sub_comparison_ok w tickers PyFloat.ltb debtToEquity positive_value
                    (lowest_debt_to_equity r).
Proof.
  rewrite compare_fundamentals_spec.
  pose proof (sub_comparison_winner PyFloat.gtb gtb_trans gtb_asym
                gtb_not_tie tie_gtb w tickers) as Hmax.
  pose proof (sub_comparison_winner PyFloat.ltb PyFloatFacts.ltb_trans
                PyFloatFacts.ltb_asym ltb_not_tie PyFloatFacts.eqb_ltb_l
                w tickers) as Hmin.
  destruct (first_occurrences _ [] tickers) as [|e d]; [discriminate|].
  intros H. injection H as <-. record_projections. cbv zeta.
  split; [apply Hmax|]. split; [apply Hmin|]. split; [apply Hmax|apply Hmin].
Qed.

(** The sample market: AAPL has no positive price/earnings ratio and no
    debt-to-equity, yet wins on market capitalisation. *)
Lemma fundamentals_sub_comparisons_witness :
  exists r,
    compare_fundamentals market sample_tickers = Ret (Ranking r) /\
    largest_market_cap r = Some ("AAPL", PyFloat.of_Z 3000) /\
    best_pe_ratio r = Some ("MSFT", PyFloat.of_Z 30) /\
    highest_dividend_yield r = Some ("AAPL", one_eighth) /\
    lowest_debt_to_equity r = Some ("MSFT", PyFloat.of_Z 40) /\
    sub_comparison_ok market sample_tickers PyFloat.gtb marketCap any_value
                      (largest_market_cap r) /\
    sub_comparison_ok market sample_tickers PyFloat.ltb peRatio positive_value
                      (best_pe_ratio r) /\
    sub_comparison_ok market sample_tickers PyFloat.gtb dividendYield
                      positive_value (highest_dividend_yield r) /\
    sub_comparison_ok market sample_tickers PyFloat.ltb debtToEquity
                      positive_value (lowest_debt_to_equity r).
Proof.
  eexists. split; [vm_compute; reflexivity|].
  do 4 (split; [vm_compute; reflexivity|]).
  apply (fundamentals_sub_comparisons_independent market sample_tickers).
  vm_compute. reflexivity.
Defined.

(** ** Ties *)

Lemma Ret_Ranking_inj {R : Type} (a b : R) :
  Ret (Ranking a) = Ret (Ranking b) -> a = b.
Proof. congruence. Qed.





(** The sample market: with no ticker available there is no ranking; with
    some, the ranking holds exactly those. *)
Lemma missing_data_witness :
  compare_returns market ["DOWN"; "NOPE"] ytd =
    Ret (NoData "No data available for tickers") /\
  (exists r,
      compare_returns market sample_tickers ytd = Ret (Ranking r) /\
      dict_keys (all_returns r) = ["AAPL"; "MSFT"; "GOOGL"]) /\
  (exists c,
      compare_returns market sample_tickers ytd = Ret c /\
      tolerates_missing sample_tickers (fun t => get_return market t ytd)
        all_returns (fun r => [best_ticker r]) c).
Proof.
  split; [vm_compute; reflexivity|].
  split; [eexists; split; vm_compute; reflexivity|].
  exact (proj1 (comparators_tolerate_missing_data market sample_tickers ytd)).
Defined.

(** ** Resolvers *)

Lemma no_price_series_None w ticker period :
  no_price_series w ticker period ->
  get_return w ticker period = Ret None /\
  get_volatility w ticker period = Ret None /\
  get_max_min w ticker period = Ret None.
Proof.
  unfold no_price_series, get_return, get_volatility, get_max_min, dict_mem.
  destruct (yf_download w ticker period) as [data|e]; simpl; [|auto].
  intros [->| ->]; simpl; auto.
  destruct (df_empty data); simpl; auto.
Qed.

(** ** Return of a one-point series *)

Lemma sub_self (s : bool) (m : positive) (e : Z) :
  PyFloat.sub (S754_finite s m e) (S754_finite s m e) = S754_zero false.
Proof.
  unfold PyFloat.sub, SFsub. cbv zeta. now rewrite Z.sub_diag.
Qed.

Lemma zero_percent (s : bool) (m : positive) (e : Z) :
  PyFloat.round2
    (PyFloat.mul
       (PyFloat.div (PyFloat.sub (S754_finite s m e) (S754_finite s m e))
                    (S754_finite s m e))
       (PyFloat.of_Z 100)) = S754_zero s.
Proof. rewrite sub_self. destruct s; vm_compute; reflexivity. Qed.

(** C10. When the fetched frame is not empty and its closing prices are a
    single finite, non-zero price, [get_return] returns zero, not [None]:
    the first and the last price are the same entry.  The zero carries
    the sign of the price, so it is [0.0] for a positive price. *)
Theorem get_return_one_point
        (w : World) (ticker : string) (period : json)
        (data : DataFrame) (price : float) :
  yf_download w ticker period = Ret data ->
  df_empty data = false ->
  dict_get data "Close" = Some [price] ->
  PyFloat.is_finite_nonzero price = true ->
  exists zero,
    get_return w ticker period = Ret (Some zero) /\
    PyFloat.eqb zero (PyFloat.of_Z 0) = true /\
    (PyFloat.gtb price (PyFloat.of_Z 0) = true -> zero = PyFloat.of_Z 0).
Proof.
  intros Hd He Hc Hp. unfold get_return, dict_mem, df_getitem.
  rewrite Hd. cbn [bind]. rewrite He, Hc. cbn [orb negb bind].
  destruct price as [| | |s m e]; try discriminate.
  cbn [iloc_first iloc_last bind try_except]. rewrite zero_percent.
  exists (S754_zero s). split; [reflexivity|]. split; [now destruct s|].
  destruct s; [discriminate|reflexivity].
Qed.

(** The sample market: NEWCO has one closing price, 100. *)
Lemma get_return_one_point_witness :
  yf_download market "NEWCO" ytd = Ret (closes [100]) /\
  get_return market "NEWCO" ytd = Ret (Some (PyFloat.of_Z 0)) /\
  exists zero,
    get_return market "NEWCO" ytd = Ret (Some zero) /\
    PyFloat.eqb zero (PyFloat.of_Z 0) = true /\
    (PyFloat.gtb (PyFloat.of_Z 100) (PyFloat.of_Z 0) = true ->
     zero = PyFloat.of_Z 0).
Proof.
  split; [reflexivity|]. split; [vm_compute; reflexivity|].
  apply (get_return_one_point market "NEWCO" ytd (closes [100])
           (PyFloat.of_Z 100)); vm_compute; reflexivity.
Defined.

(** ** Volatility *)

Lemma pct_change_from_length (s : list float) :
  forall prev, List.length (pct_change_from prev s) = List.length s.
Proof. induction s as [|x s IH]; intros prev; simpl; auto. Qed.

Lemma dropna_length (s : list float) :
  (List.length (dropna s) <= List.length s)%nat.
Proof. apply filter_length_le. Qed.

(** The change of the first row is undefined and is dropped. *)
Lemma first_change_dropped (x : float) (s : list float) :
  dropna (pct_change (x :: s)) = dropna (pct_change_from x s).
Proof. reflexivity. Qed.

Lemma changes_length (close : list float) :
  (List.length (dropna (pct_change close)) <= List.length close - 1)%nat.
Proof.
  destruct close as [|x s]; [simpl; lia|].
  rewrite first_change_dropped.
  pose proof (dropna_length (pct_change_from x s)) as H.
  rewrite pct_change_from_length in H. simpl. lia.
Qed.

Lemma series_std_short (s : list float) :
  (List.length s <= 1)%nat -> series_std s = PyFloat.nan.
Proof.
  intros H. unfold series_std.
  destruct (Z.leb_spec (Z.of_nat (List.length s)) 1); [reflexivity|lia].
Qed.

(** The rows of [pct_change], by position. *)
Lemma pct_change_from_rows (s : list float) :
  forall x,
    pct_change_from x s =
    map (day_over_day (x :: s)) (seq 0 (List.length s)).
Proof.
  induction s as [|y s IH]; intros x; [reflexivity|].
  cbn [pct_change_from List.length seq map]. f_equal.
  rewrite IH, <- seq_shift, map_map. apply map_ext. intros k. reflexivity.
Qed.

Lemma dropna_pct_change (close : list float) :
  dropna (pct_change close) = defined_changes close.
Proof.
  destruct close as [|x s]; [reflexivity|].
  rewrite first_change_dropped, pct_change_from_rows.
  unfold defined_changes, dropna. cbn [List.length].
  replace (S (List.length s) - 1)%nat with (List.length s) by lia.
  reflexivity.
Qed.

(** The square of a rounded number does not depend on its sign. *)
Lemma binary_round_square (s : bool) (m : positive) (e : Z) :
  PyFloat.mul (binary_round PyFloat.prec PyFloat.emax s m e)
              (binary_round PyFloat.prec PyFloat.emax s m e) =
  PyFloat.mul (binary_round PyFloat.prec PyFloat.emax false m e)
              (binary_round PyFloat.prec PyFloat.emax false m e).
Proof.
  unfold binary_round. destruct (shl_align m e _) as [mz ez].
  unfold binary_round_aux.
  destruct (shr_fexp _ _ (Z.pos mz) ez loc_Exact) as [mrs' e'].
  destruct (shr_fexp _ _ _ e' loc_Exact) as [mrs'' e''].
  destruct (shr_m mrs''); [now destruct s| |reflexivity].
  destruct (e'' <=? PyFloat.emax - PyFloat.prec); now destruct s.
Qed.

Lemma binary_normalize_square (k e : Z) :
  PyFloat.mul (binary_normalize PyFloat.prec PyFloat.emax (- k) e false)
              (binary_normalize PyFloat.prec PyFloat.emax (- k) e false) =
  PyFloat.mul (binary_normalize PyFloat.prec PyFloat.emax k e false)
              (binary_normalize PyFloat.prec PyFloat.emax k e false).
Proof.
  destruct k as [|q|q]; cbn [Z.opp binary_normalize]; [reflexivity| |].
  - apply binary_round_square.
  - symmetry. apply binary_round_square.
Qed.

(** The squared distance is the same from either side. *)
Lemma square_sub_swap (a b : float) :
  PyFloat.mul (PyFloat.sub a b) (PyFloat.sub a b) =
  PyFloat.mul (PyFloat.sub b a) (PyFloat.sub b a).
Proof.
  destruct a as [sa|sa| |sa ma ea], b as [sb|sb| |sb mb eb];
    try reflexivity;
    try (destruct sa, sb; reflexivity);
    try (destruct sa; reflexivity);
    try (destruct sb; reflexivity).
  unfold PyFloat.sub, SFsub. rewrite (Z.min_comm eb ea).
  set (A := cond_Zopp sa _). set (B := cond_Zopp sb _).
  replace (B - A) with (- (A - B)) by lia.
  symmetry. apply binary_normalize_square.
Qed.

(** What [std] computes from two values on is the sample standard
    deviation. *)
Lemma series_std_sample (xs : list float) :
  (2 <= List.length xs)%nat ->
  series_std xs = sample_standard_deviation series_sum xs.
Proof.
  intros H. unfold series_std, sample_standard_deviation.
  destruct (Z.leb_spec (Z.of_nat (List.length xs)) 1); [lia|].
  do 3 f_equal. apply map_ext. intros x. apply square_sub_swap.
Qed.

(** C2, as the code has it.  [get_volatility] returns [None] when the
    fetch gives no usable price series.  For every other frame it
    returns a float.  With two changes or more, the undefined ones left
    out, that float is their sample standard deviation, times the square
    root of 252, times 100, with two decimals.  With fewer it is NaN, not
    [None]; so it is for every series of one or two points, the first
    row having no change. *)
Theorem get_volatility_spec
        (w : World) (ticker : string) (period : json) :
  (no_price_series w ticker period ->
   get_volatility w ticker period = Ret None) /\
  (forall data close,
      yf_download w ticker period = Ret data ->
      df_empty data = false ->
      dict_get data "Close" = Some close ->
      ((2 <= List.length (defined_changes close))%nat ->
       get_volatility w ticker period =
         Ret (Some (annualised_percent
                      (sample_standard_deviation series_sum
                         (defined_changes close))))) /\
      ((List.length (defined_changes close) <= 1)%nat ->
       get_volatility w ticker period = Ret (Some PyFloat.nan)) /\
      (List.length (defined_changes close) <= List.length close - 1)%nat /\
      ((List.length close <= 2)%nat ->
       get_volatility w ticker period = Ret (Some PyFloat.nan))).
Proof.
  split; [intros H; now apply no_price_series_None in H|].
  intros data close Hd He Hc.
  assert (Hv : get_volatility w ticker period =
               Ret (Some (PyFloat.round2
                            (PyFloat.mul
                               (PyFloat.mul
                                  (series_std (defined_changes close))
                                  sqrt252)
                               (PyFloat.of_Z 100))))).
  { unfold get_volatility, dict_mem, df_getitem.
    rewrite Hd. cbn [bind]. rewrite He, Hc, <- dropna_pct_change.
    reflexivity. }
  pose proof (changes_length close) as Hlen.
  rewrite dropna_pct_change in Hlen.
  assert (Hnan : (List.length (defined_changes close) <= 1)%nat ->
                 get_volatility w ticker period = Ret (Some PyFloat.nan)).
  { intros H. rewrite Hv, series_std_short by exact H. reflexivity. }
  split; [|split; [exact Hnan|split; [exact Hlen|]]].
  - intros H. rewrite Hv, series_std_sample by exact H. reflexivity.
  - intros H. apply Hnan. lia.
Qed.

(** The sample markets: NOPE has no rows, GOOGL three closing prices,
    NEWCO one; the series of ten closing prices has nine changes, which
    the summation takes in eight running sums, and a volatility of
    45.12. *)
Lemma get_volatility_spec_witness :
  (no_price_series market "NOPE" ytd /\
   get_volatility market "NOPE" ytd = Ret None) /\
  (yf_download market "GOOGL" ytd = Ret (closes [200; 150; 180]) /\
   List.length (defined_changes (map PyFloat.of_Z [200; 150; 180])) = 2%nat /\
   get_volatility market "GOOGL" ytd =
     Ret (Some (annualised_percent
                  (sample_standard_deviation series_sum
                     (defined_changes
                        (map PyFloat.of_Z [200; 150; 180])))))) /\
  (yf_download ten_day_market "TEN" ytd = Ret (closes ten_closes) /\
   List.length (defined_changes (map PyFloat.of_Z ten_closes)) = 9%nat /\
   get_volatility ten_day_market "TEN" ytd =
     Ret (Some (PyFloat.div (PyFloat.of_Z 4512) (PyFloat.of_Z 100)))) /\
  ((List.length (map PyFloat.of_Z [100%Z]) <= 2)%nat /\
   get_volatility market "NEWCO" ytd = Ret (Some PyFloat.nan)).
Proof.
  split; [|split; [|split]].
  - split; [left; reflexivity|].
    apply (proj1 (get_volatility_spec market "NOPE" ytd)).
    left. reflexivity.
  - split; [reflexivity|]. split; [vm_compute; reflexivity|].
    apply (proj1 (proj2 (get_volatility_spec market "GOOGL" ytd)
                        (closes [200; 150; 180])
                        (map PyFloat.of_Z [200; 150; 180])
                        eq_refl eq_refl eq_refl)).
    vm_compute. lia.
  - split; [reflexivity|]. split; [vm_compute; reflexivity|].
    refine (eq_trans
              (proj1 (proj2 (get_volatility_spec ten_day_market "TEN" ytd)
                            (closes ten_closes)
                            (map PyFloat.of_Z ten_closes)
                            eq_refl eq_refl eq_refl) _) _).
    + vm_compute. lia.
    + vm_compute. reflexivity.
  - split; [simpl; lia|].
    apply (proj2 (proj2 (proj2
             (proj2 (get_volatility_spec market "NEWCO" ytd)
                    (closes [100]) (map PyFloat.of_Z [100])
                    eq_refl eq_refl eq_refl)))).
    simpl. lia.
Defined.

(** A series of one point: the volatility is NaN where C2 says [None]. *)
Lemma get_volatility_one_point :
  yf_download market "NEWCO" ytd = Ret (closes [100]) /\
  dict_get (closes [100]) "Close" = Some [PyFloat.of_Z 100] /\
  get_volatility market "NEWCO" ytd = Ret (Some PyFloat.nan) /\
  get_volatility market "NEWCO" ytd <> Ret None.
Proof.
  split; [reflexivity|]. split; [reflexivity|].
  split; [vm_compute; reflexivity|]. vm_compute. discriminate.
Qed.

(** ** Fundamentals *)

Lemma float_or_none_plain w info key :
  plain_number (info_get info key) = true ->
  float_or_none w info key = Ret (carried (info_get info key)).
Proof.
  unfold float_or_none. destruct (info_get info key) as [|b|z|f|s0|l|d];
    simpl; try discriminate; try reflexivity.
  - destruct (z =? 0); simpl; [reflexivity|].
    destruct (PyFloat.of_Z z); try discriminate; reflexivity.
  - destruct (PyFloat.truthy f); reflexivity.
Qed.

Lemma float_or_none_raises w info key e :
  truthy (info_get info key) = true ->
  py_float w (info_get info key) = Raise e ->
  float_or_none w info key = Raise e.
Proof. unfold float_or_none. intros -> ->. reflexivity. Qed.

Lemma float_or_none_Some w info key f :
  float_or_none w info key = Ret (Some f) ->
  py_float w (info_get info key) = Ret f.
Proof.
  unfold float_or_none. destruct (truthy (info_get info key)); [|discriminate].
  destruct (py_float w (info_get info key)); simpl; congruence.
Qed.

Ltac step_attribute :=
  match goal with
  | H : float_or_none ?w ?info ?k = _ |- context [float_or_none ?w ?info ?k] =>
      rewrite H; reflexivity
  | |- context [float_or_none ?w ?info ?k] =>
      destruct (float_or_none w info k); cbn [bind try_except];
      try reflexivity
  end.

(** C3, as the code has it.  [get_fundamentals] returns [None] when the
    fetch raises.  When the fetch succeeds and the five numeric
    attributes are absent, null or ordinary numbers, it returns a record:
    the name is the fetched value, or null when absent; each numeric
    attribute is its value as a float when present and not zero, and null
    when absent, null or zero.  A present attribute that [float] rejects
    makes the whole record [None]. *)
Theorem get_fundamentals_spec (w : World) (ticker : string) :
  (forall e, ticker_info w ticker = Raise e ->
             get_fundamentals w ticker = Ret None) /\
  (forall info,
      ticker_info w ticker = Ret info ->
      (forall key, In key numeric_keys ->
                   plain_number (info_get info key) = true) ->
      get_fundamentals w ticker =
        Ret (Some {| longName := info_get info "longName";
                     marketCap := carried (info_get info "marketCap");
                     peRatio := carried (info_get info "trailingPE");
                     eps := carried (info_get info "trailingEps");
                     dividendYield := carried (info_get info "dividendYield");
                     debtToEquity :=
                       carried (info_get info "debtToEquity") |})) /\
  (forall info key e,
      ticker_info w ticker = Ret info ->
      In key numeric_keys ->
      truthy (info_get info key) = true ->
      py_float w (info_get info key) = Raise e ->
      get_fundamentals w ticker = Ret None).
Proof.
  split; [|split].
  - intros e He. unfold get_fundamentals. now rewrite He.
  - intros info Hi Hplain. unfold get_fundamentals. rewrite Hi. cbn [bind].
    rewrite !float_or_none_plain by (apply Hplain; simpl; tauto).
    reflexivity.
  - intros info key e Hi Hk Ht He.
    pose proof (float_or_none_raises w info key e Ht He) as Hr.
    unfold get_fundamentals. rewrite Hi. cbn [bind].
    simpl in Hk.
    destruct Hk as [<-|[<-|[<-|[<-|[<-|[]]]]]]; repeat step_attribute.
Qed.

(** The sample market: MSFT has all five numbers; ODD has a market
    capitalisation that is not a number. *)
Lemma get_fundamentals_spec_witness :
  get_fundamentals market "DOWN" = Ret None /\
  get_fundamentals market "MSFT" =
    Ret (Some {| longName := JStr "Microsoft Corporation";
                 marketCap := Some (PyFloat.of_Z 2000);
                 peRatio := Some (PyFloat.of_Z 30);
                 eps := Some (PyFloat.of_Z 11);
                 dividendYield := Some one_eighth;
                 debtToEquity := Some (PyFloat.of_Z 40) |}) /\
  get_fundamentals market "ODD" = Ret None.
Proof.
  split; [|split].
  - apply (proj1 (get_fundamentals_spec market "DOWN")
                 (Exn "ConnectionError" "no route to host")).
    reflexivity.
  - refine (eq_trans
              (proj1 (proj2 (get_fundamentals_spec market "MSFT"))
                     [("longName", JStr "Microsoft Corporation");
                      ("marketCap", JInt 2000); ("trailingPE", JInt 30);
                      ("trailingEps", JInt 11);
                      ("dividendYield", JFloat one_eighth);
                      ("debtToEquity", JInt 40)] _ _) _).
    + reflexivity.
    + intros key Hk. simpl in Hk.
      destruct Hk as [<-|[<-|[<-|[<-|[<-|[]]]]]]; vm_compute; reflexivity.
    + vm_compute. reflexivity.
  - apply (proj2 (proj2 (get_fundamentals_spec market "ODD"))
                 [("longName", JStr "Odd Lot"); ("marketCap", JStr "n/a")]
                 "marketCap"
                 (Exn "ValueError" "could not convert string to float")).
    + reflexivity.
    + simpl. tauto.
    + reflexivity.
    + reflexivity.
Defined.

(** AAPL's earnings per share are present and zero, and the record has
    null for them; ODD is fetched, and its record is [None]. *)
Lemma get_fundamentals_drops_zero :
  (exists info r,
      ticker_info market "AAPL" = Ret info /\
      dict_get info "trailingEps" = Some (JFloat (PyFloat.of_Z 0)) /\
      get_fundamentals market "AAPL" = Ret (Some r) /\
      eps r = None) /\
  (exists info,
      ticker_info market "ODD" = Ret info /\
      get_fundamentals market "ODD" = Ret None).
Proof.
  split.
  - do 2 eexists. split; [reflexivity|]. split; [reflexivity|].
    split; vm_compute; reflexivity.
  - eexists. split; [reflexivity|]. vm_compute. reflexivity.
Qed.

(** ** Rounding *)

Lemma hundredths_div (k : Z) (s : bool) :
  hundredths (PyFloat.div (PyFloat.of_integer k s) (PyFloat.of_Z 100)).
Proof.
  unfold hundredths.
  destruct (PyFloat.div (PyFloat.of_integer k s) (PyFloat.of_Z 100)) eqn:E;
    try exact I; exists k, s; symmetry; exact E.
Qed.

Lemma div_infinity (s : bool) :
  PyFloat.div (S754_infinity s) (PyFloat.of_Z 100) = S754_infinity s.
Proof. destruct s; vm_compute; reflexivity. Qed.

Lemma round2_hundredths (x : float) : hundredths (PyFloat.round2 x).
Proof.
  unfold PyFloat.round2.
  destruct (PyFloat.mul x (PyFloat.of_Z 100)) as [s|s| |s m e].
  - change (PyFloat.rint (S754_zero s)) with (PyFloat.of_integer 0 s).
    apply hundredths_div.
  - cbn [PyFloat.rint]. rewrite div_infinity. exact I.
  - exact I.
  - cbn [PyFloat.rint]. apply hundredths_div.
Qed.

Lemma round2_output (x : float) : rounded_output (PyFloat.round2 x).
Proof. split; [now exists x|apply round2_hundredths]. Qed.

(** C4, as the code has it.  What [get_return] and [get_volatility]
    return, and both fields of what [get_max_min] returns, come out of
    [round(., 2)].  The numbers of [get_fundamentals] do not: each is
    [float] of the fetched value, unchanged. *)
Theorem resolver_outputs_rounding
        (w : World) (ticker : string) (period : json) :
  (forall v, get_return w ticker period = Ret (Some v) -> rounded_output v) /\
  (forall v, get_volatility w ticker period = Ret (Some v) ->
             rounded_output v) /\
  (forall m, get_max_min w ticker period = Ret (Some m) ->
             rounded_output (mm_max m) /\ rounded_output (mm_min m)) /\
  (forall info r,
      ticker_info w ticker = Ret info ->
      get_fundamentals w ticker = Ret (Some r) ->
      passes_through w info "marketCap" (marketCap r) /\
      passes_through w info "trailingPE" (peRatio r) /\
      passes_through w info "trailingEps" (eps r) /\
      passes_through w info "dividendYield" (dividendYield r) /\
      passes_through w info "debtToEquity" (debtToEquity r)).
Proof.
  split; [|split; [|split]].
  - intros v. unfold get_return.
    destruct (yf_download w ticker period) as [data|]; cbn [bind try_except];
      [|discriminate].
    destruct (df_empty data || negb (dict_mem data "Close"));
      cbn [try_except]; [discriminate|].
    destruct (df_getitem data "Close") as [close|]; cbn [bind try_except];
      [|discriminate].
    destruct (iloc_first close); cbn [bind try_except]; [|discriminate].
    destruct (iloc_last close); cbn [bind try_except]; [|discriminate].
    intros H. injection H as <-. apply round2_output.
  - intros v. unfold get_volatility.
    destruct (yf_download w ticker period) as [data|]; cbn [bind try_except];
      [|discriminate].
    destruct (df_empty data || negb (dict_mem data "Close"));
      cbn [try_except]; [discriminate|].
    destruct (df_getitem data "Close") as [close|]; cbn [bind try_except];
      [|discriminate].
    intros H. injection H as <-. apply round2_output.
  - intros m. unfold get_max_min.
    destruct (yf_download w ticker period) as [data|]; cbn [bind try_except];
      [|discriminate].
    destruct (df_empty data || negb (dict_mem data "Close"));
      cbn [try_except]; [discriminate|].
    destruct (df_getitem data "Close") as [close|]; cbn [bind try_except];
      [|discriminate].
    intros H. injection H as <-. split; apply round2_output.
  - intros info r Hi. unfold get_fundamentals. rewrite Hi. cbn [bind].
    destruct (float_or_none w info "marketCap") as [mc|] eqn:Hmc;
      cbn [bind try_except]; [|discriminate].
    destruct (float_or_none w info "trailingPE") as [pe|] eqn:Hpe;
      cbn [bind try_except]; [|discriminate].
    destruct (float_or_none w info "trailingEps") as [ep|] eqn:Hep;
      cbn [bind try_except]; [|discriminate].
    destruct (float_or_none w info "dividendYield") as [dy|] eqn:Hdy;
      cbn [bind try_except]; [|discriminate].
    destruct (float_or_none w info "debtToEquity") as [de|] eqn:Hde;
      cbn [bind try_except]; [|discriminate].
    intros H. injection H as <-. unfold passes_through. simpl.
    repeat split; intros f ->; now apply float_or_none_Some.
Qed.

(** The sample market: AAPL's return is a rounded value; its dividend
    yield is the fetched float. *)
Lemma resolver_outputs_rounding_witness :
  rounded_output (PyFloat.of_Z 10) /\
  py_float market (JFloat one_eighth) = Ret one_eighth.
Proof.
  pose proof (resolver_outputs_rounding market "AAPL" ytd)
    as (Hret & _ & _ & Hfund).
  split.
  - apply Hret. vm_compute. reflexivity.
  - refine (proj1 (proj2 (proj2 (proj2 (Hfund _ _ eq_refl eq_refl))))
                  one_eighth eq_refl).
Defined.

(** AAPL's dividend yield leaves [get_fundamentals] as 0.125, which
    [round(., 2)] would turn into 0.12. *)
Lemma get_fundamentals_not_rounded :
  exists r,
    get_fundamentals market "AAPL" = Ret (Some r) /\
    dividendYield r = Some one_eighth /\
    PyFloat.round2 one_eighth =
      PyFloat.div (PyFloat.of_Z 12) (PyFloat.of_Z 100) /\
    PyFloat.is_rounded2 one_eighth = false.
Proof.
  eexists. split; [vm_compute; reflexivity|].
  repeat split; vm_compute; reflexivity.
Qed.

(** ** [to_dict] changes nothing *)


Lemma to_dict_id (v : json) : to_dict v = v.
Proof.
  induction v using json_induction; simpl; try reflexivity.
  - f_equal. induction H as [|x l Hx Hl IH]; simpl; [reflexivity|].
    now rewrite Hx, IH.
  - f_equal. induction H as [|[k x] d Hx Hd IH]; simpl; [reflexivity|].
    simpl in Hx. now rewrite Hx, IH.
Qed.

(** ** The loops of the walker *)

Lemma map_items_get f (d : pydict json) :
  forall d' k v,
    map_items f d = Ret d' -> dict_get d k = Some v ->
    exists v', f k v = Ret v' /\ dict_get d' k = Some v'.
Proof.
  induction d as [|[k0 v0] d IH]; intros d' k v; simpl; [discriminate|].
  destruct (f k0 v0) as [v0'|] eqn:Hf; cbn [bind]; [|discriminate].
  destruct (map_items f d) as [d0|]; cbn [bind]; [|discriminate].
  intros H. injection H as <-. simpl.
  destruct (String.eqb_spec k0 k) as [->|Hne].
  - intros H. injection H as <-. eauto.
  - intros H. eapply IH; eauto.
Qed.

Lemma map_items_total f (d : pydict json) :
  (forall k v, In (k, v) d -> exists v', f k v = Ret v') ->
  exists d', map_items f d = Ret d'.
Proof.
  induction d as [|[k0 v0] d IH]; intros H; simpl; [eauto|].
  destruct (H k0 v0) as [v' ->]; [now left|]. cbn [bind].
  destruct IH as [d' ->]; [intros; apply H; now right|]. cbn [bind]. eauto.
Qed.

Lemma map_items_raises f (d : pydict json) k v e :
  In (k, v) d -> f k v = Raise e -> exists e', map_items f d = Raise e'.
Proof.
  induction d as [|[k0 v0] d IH]; simpl; [tauto|].
  intros [H|H] Hf.
  - injection H as -> ->. rewrite Hf. cbn [bind]. eauto.
  - destruct (f k0 v0); cbn [bind]; [|eauto].
    destruct (IH H Hf) as [e' ->]. cbn [bind]. eauto.
Qed.

Lemma fill_leaf_dict value (d : pydict json) (k : string) :
  fill_leaf value (JDict d) (JStr k) = Ret (JDict (store_leaf value d k)).
Proof.
  unfold fill_leaf, store_leaf, leaf_value.
  destruct (value (JStr k)) as [[v|e]|]; reflexivity.
Qed.

Lemma iterate_keys_dict value (ks : list string) :
  forall d,
    iterate_keys (map JStr ks) (JDict d) (fill_leaf value) =
    Ret (JDict (fold_left (store_leaf value) ks d)).
Proof.
  induction ks as [|k ks IH]; intros d; simpl; [reflexivity|].
  rewrite fill_leaf_dict. cbn [bind]. apply IH.
Qed.

Lemma for_each_dict value (d : pydict json) :
  for_each (JDict d) (fill_leaf value) =
  Ret (JDict (fold_left (store_leaf value) (dict_keys d) d)).
Proof. apply iterate_keys_dict. Qed.

Lemma stored_get value (ks : list string) :
  forall d k,
    dict_get (fold_left (store_leaf value) ks d) k =
    match
      (if existsb (String.eqb k) ks then leaf_value value k else None)
    with
    | Some v => Some v
    | None => dict_get d k
    end.
Proof.
  induction ks as [|k0 ks IH]; intros d k; simpl; [reflexivity|].
  rewrite IH. unfold store_leaf.
  destruct (String.eqb_spec k k0) as [->|Hne]; simpl.
  - destruct (existsb (String.eqb k0) ks);
      destruct (leaf_value value k0) as [v|]; try reflexivity.
    rewrite dict_get_set. now rewrite String.eqb_refl.
  - destruct (existsb (String.eqb k) ks);
      [destruct (leaf_value value k); [reflexivity|]|];
      (destruct (leaf_value value k0) as [v0|]; [|reflexivity]);
      rewrite dict_get_set;
      (destruct (String.eqb_spec k0 k); [congruence|reflexivity]).
Qed.

Lemma stored_leaf value (d : pydict json) (k : string) (old v : json) :
  dict_get d k = Some old ->
  leaf_value value k = Some v ->
  dict_get (fold_left (store_leaf value) (dict_keys d) d) k = Some v.
Proof.
  intros Hold Hv. rewrite stored_get, Hv.
  assert (H : existsb (String.eqb k) (dict_keys d) = true); [|now rewrite H].
  apply existsb_exists. exists k. split; [|apply String.eqb_refl].
  apply dict_get_In in Hold. eapply In_dict_keys, Hold.
Qed.




Lemma recognized_false metric :
  recognized metric = false ->
  String.eqb metric "return" = false /\
  String.eqb metric "volatility" = false /\
  String.eqb metric "fundamentals" = false /\
  String.eqb metric "max_min" = false /\
  String.eqb metric "compare" = false.
Proof.
  unfold recognized. simpl. rewrite !orb_false_iff. tauto.
Qed.

Lemma resolver_for_unrecognized w metric ticker period :
  recognized metric = false -> resolver_for w metric ticker period = None.
Proof.
  intros H. apply recognized_false in H.
  destruct H as (H1 & H2 & _ & H4 & _).
  unfold resolver_for. now rewrite H1, H2, H4.
Qed.

Lemma resolver_for_fundamentals w ticker period :
  resolver_for w "fundamentals" ticker period = None.
Proof. reflexivity. Qed.

Lemma comparator_for_recognized w sub_metric tickers period :
  In sub_metric ["return"; "volatility"; "fundamentals"; "max_min"] ->
  comparator_for w sub_metric tickers period =
    Some (Ret (comparison_result w sub_metric tickers period)) /\
  aggregate_of w sub_metric tickers period
               (comparison_result w sub_metric tickers period).
Proof.
  unfold aggregate_of, comparison_result.
  intros [<-|[<-|[<-|[<-|[]]]]]; unfold comparator_for;
    cbn [String.eqb Ascii.eqb Bool.eqb].
  - rewrite compare_returns_spec. cbn [bind]. rewrite to_dict_id.
    split; [reflexivity|]. left. split; [reflexivity|].
    eexists. split; reflexivity.
  - rewrite compare_volatility_spec. cbn [bind]. rewrite to_dict_id.
    split; [reflexivity|]. right. left. split; [reflexivity|].
    eexists. split; reflexivity.
  - rewrite compare_fundamentals_spec. cbn [bind]. rewrite to_dict_id.
    split; [reflexivity|]. right. right. left. split; [reflexivity|].
    eexists. split; reflexivity.
  - rewrite compare_max_min_spec. cbn [bind]. rewrite to_dict_id.
    split; [reflexivity|]. right. right. right. split; [reflexivity|].
    eexists. split; reflexivity.
Qed.

(** With no case of the chain applying, a pass of the loop leaves the
    periods as they are, whatever they are. *)
Lemma fill_leaf_nothing value (periods period : json) :
  value period = None -> fill_leaf value periods period = Ret periods.
Proof. unfold fill_leaf. now intros ->. Qed.

Lemma iterate_keys_nothing value (keys : list json) (periods : json) :
  (forall p, value p = None) ->
  iterate_keys keys periods (fill_leaf value) = Ret periods.
Proof.
  intros H. induction keys as [|k ks IH]; simpl; [reflexivity|].
  now rewrite fill_leaf_nothing.
Qed.

Lemma iterate_list_nothing value (fuel : nat) :
  (forall p, value p = None) ->
  forall i periods,
    iterate_list fuel i periods (fill_leaf value) = Ret periods.
Proof.
  intros H. induction fuel as [|fuel IH]; intros i periods; simpl;
    [reflexivity|].
  destruct periods; try reflexivity.
  destruct (nth_error l i); [|reflexivity].
  rewrite fill_leaf_nothing by apply H. cbn [bind]. apply IH.
Qed.

Lemma for_each_nothing value (periods periods' : json) :
  (forall p, value p = None) ->
  for_each periods (fill_leaf value) = Ret periods' -> periods' = periods.
Proof.
  intros H. unfold for_each. destruct periods; try discriminate.
  - rewrite iterate_keys_nothing by exact H. congruence.
  - rewrite iterate_list_nothing by exact H. congruence.
  - rewrite iterate_keys_nothing by exact H. congruence.
Qed.

Lemma map_items_same f (d : pydict json) :
  (forall k v v', In (k, v) d -> f k v = Ret v' -> v' = v) ->
  forall d', map_items f d = Ret d' -> d' = d.
Proof.
  induction d as [|[k0 v0] d IH]; intros H d'; simpl; [congruence|].
  destruct (f k0 v0) as [v0'|] eqn:Hf; cbn [bind]; [|discriminate].
  destruct (map_items f d) as [d0|] eqn:Hd; cbn [bind]; [|discriminate].
  intros E. injection E as <-.
  rewrite (H k0 v0 v0') by (auto; now left).
  rewrite (IH (fun k v v' Hin => H k v v' (or_intror Hin)) d0 eq_refl).
  reflexivity.
Qed.

(** ** What the walker leaves in the request *)

Lemma walk_inv w parsed res :
  walk w parsed = Ret res ->
  exists b b',
    parsed = JDict b /\ res = JDict b' /\
    map_items (fun metric tickers_data =>
                 if String.eqb metric "compare"
                 then walk_compare w tickers_data
                 else walk_metric w metric tickers_data) b = Ret b'.
Proof.
  unfold walk. destruct parsed; try discriminate. cbn [items bind].
  destruct (map_items _ d) as [b'|] eqn:E; cbn [bind]; [|discriminate].
  intros H. injection H as <-. eauto.
Qed.

Lemma walk_metric_inv w metric v v' :
  walk_metric w metric v = Ret v' ->
  exists d d',
    v = JDict d /\ v' = JDict d' /\
    map_items (fun ticker periods =>
                 if String.eqb metric "fundamentals" then
                   try_except
                     (r <- get_fundamentals w ticker ;;
                      Ret (json_of_option json_of_fundamentals r))
                     (Ret JNull)
                 else
                   for_each periods
                            (fill_leaf (resolver_for w metric ticker)))
              d = Ret d'.
Proof.
  unfold walk_metric. destruct v; try discriminate. cbn [items bind].
  destruct (map_items _ d) as [d'|] eqn:E; cbn [bind]; [|discriminate].
  intros H. injection H as <-. eauto.
Qed.

(** A leaf of a plain branch holds what its own resolver returned. *)
Lemma walk_leaf w parsed res metric ticker period old v :
  walk w parsed = Ret res ->
  String.eqb metric "compare" = false ->
  lookup parsed [metric; ticker; period] = Some old ->
  resolver_for w metric ticker (JStr period) = Some (Ret v) ->
  lookup res [metric; ticker; period] = Some v.
Proof.
  intros Hw Hm Hl Hr.
  destruct (walk_inv _ _ _ Hw) as (b & b' & -> & -> & Hb).
  cbn [lookup] in Hl.
  destruct (dict_get b metric) as [td|] eqn:Htd; [|discriminate].
  destruct (map_items_get _ _ _ _ _ Hb Htd) as (td' & Hf & Htd').
  rewrite Hm in Hf.
  destruct (walk_metric_inv _ _ _ _ Hf) as (d & d' & -> & -> & Hd).
  cbn [lookup] in Hl.
  destruct (dict_get d ticker) as [ps|] eqn:Hps; [|discriminate].
  destruct (map_items_get _ _ _ _ _ Hd Hps) as (ps' & Hg & Hps').
  destruct (String.eqb_spec metric "fundamentals") as [->|_];
    [now rewrite resolver_for_fundamentals in Hr|].
  destruct ps as [| | | | | |periods]; try discriminate.
  cbn [lookup] in Hl.
  destruct (dict_get periods period) as [o|] eqn:Ho; [|discriminate].
  rewrite for_each_dict in Hg. injection Hg as <-.
  cbn [lookup]. rewrite Htd', Hps'.
  rewrite (stored_leaf _ _ _ o v Ho); [reflexivity|].
  unfold leaf_value. now rewrite Hr.
Qed.

(** A leaf of the [compare] branch holds what the comparator returned
    for all the tickers listed beside it. *)
Lemma walk_compare_leaf w parsed res sub_metric cmp ticker period old agg :
  walk w parsed = Ret res ->
  lookup parsed ["compare"; sub_metric] = Some (JDict cmp) ->
  lookup (JDict cmp) [ticker; period] = Some old ->
  comparator_for w sub_metric (dict_keys cmp) (JStr period) = Some (Ret agg) ->
  lookup res ["compare"; sub_metric; ticker; period] = Some agg.
Proof.
  intros Hw Hl Hleaf Hc.
  destruct (walk_inv _ _ _ Hw) as (b & b' & -> & -> & Hb).
  cbn [lookup] in Hl.
  destruct (dict_get b "compare") as [td|] eqn:Htd; [|discriminate].
  destruct (map_items_get _ _ _ _ _ Hb Htd) as (td' & Hf & Htd').
  cbn [String.eqb Ascii.eqb Bool.eqb] in Hf. unfold walk_compare in Hf.
  destruct td as [| | | | | |subs]; try discriminate.
  cbn [items bind] in Hf.
  destruct (map_items _ subs) as [subs'|] eqn:Hsubs; [|discriminate].
  cbn [bind] in Hf. injection Hf as <-.
  destruct (dict_get subs sub_metric) as [c|] eqn:Hsub; [|discriminate].
  injection Hl as ->.
  destruct (map_items_get _ _ _ _ _ Hsubs Hsub) as (c' & Hg & Hc').
  cbn [items bind] in Hg.
  destruct (map_items _ cmp) as [cmp'|] eqn:Hcmp; [|discriminate].
  cbn [bind] in Hg. injection Hg as <-.
  cbn [lookup] in Hleaf.
  destruct (dict_get cmp ticker) as [ps|] eqn:Hps; [|discriminate].
  destruct (map_items_get _ _ _ _ _ Hcmp Hps) as (ps' & Hh & Hps').
  destruct ps as [| | | | | |periods]; try discriminate.
  destruct (dict_get periods period) as [o|] eqn:Ho; [|discriminate].
  rewrite for_each_dict in Hh. injection Hh as <-.
  cbn [lookup]. rewrite Htd', Hc', Hps'.
  rewrite (stored_leaf _ _ _ o agg Ho); [reflexivity|].
  unfold leaf_value. now rewrite Hc.
Qed.

(** A branch the walker has no case for comes back as it went in. *)
Lemma walk_unknown_branch w parsed res metric v :
  walk w parsed = Ret res ->
  recognized metric = false ->
  lookup parsed [metric] = Some v ->
  lookup res [metric] = Some v.
Proof.
  intros Hw Hm Hl.
  destruct (walk_inv _ _ _ Hw) as (b & b' & -> & -> & Hb).
  cbn [lookup] in *.
  destruct (dict_get b metric) as [td|] eqn:Htd; [|discriminate].
  injection Hl as ->.
  destruct (map_items_get _ _ _ _ _ Hb Htd) as (td' & Hf & ->).
  destruct (recognized_false _ Hm) as (_ & _ & Hfund & _ & Hcmp).
  rewrite Hcmp in Hf.
  destruct (walk_metric_inv _ _ _ _ Hf) as (d & d' & -> & -> & Hd).
  rewrite Hfund in Hd.
  apply map_items_same in Hd; [now subst d'|].
  intros k p p' _ Hp. eapply for_each_nothing; [|exact Hp].
  intros q. now apply resolver_for_unrecognized.
Qed.

Lemma periods_loop_returns (value : string -> json -> option (exc json))
      (d : pydict json) :
  tickers_shaped (JDict d) = true ->
  exists d',
    map_items
      (fun ticker periods => for_each periods (fill_leaf (value ticker)))
              d = Ret d'.
Proof.
  cbn [tickers_shaped]. rewrite forallb_forall. intros H.
  apply map_items_total. intros k v Hin.
  specialize (H (k, v) Hin). simpl in H.
  destruct v; try discriminate. rewrite for_each_dict. eauto.
Qed.

Lemma walk_metric_shaped w metric v :
  (if String.eqb metric "fundamentals" then is_mapping v
   else tickers_shaped v) = true ->
  exists v', walk_metric w metric v = Ret v'.
Proof.
  unfold walk_metric.
  destruct (String.eqb metric "fundamentals") eqn:Hm; intros H.
  - destruct v; try discriminate. cbn [items bind].
    match goal with
    | |- context [map_items ?f d] =>
        destruct (map_items_total f d) as [d' ->]; [|cbn [bind]; eauto]
    end.
    intros k v _. apply try_except_returns.
  - destruct v; try discriminate. cbn [items bind].
    destruct (periods_loop_returns (resolver_for w metric) d H) as [d' ->].
    cbn [bind]. eauto.
Qed.

Lemma walk_compare_shaped w v :
  match v with
  | JDict subs => forallb (fun kv => tickers_shaped (snd kv)) subs
  | _ => false
  end = true ->
  exists v', walk_compare w v = Ret v'.
Proof.
  unfold walk_compare. destruct v as [| | | | | |subs]; try discriminate.
  rewrite forallb_forall. intros H. cbn [items bind].
  match goal with
  | |- context [map_items ?f subs] =>
      destruct (map_items_total f subs) as [subs' ->]; [|cbn [bind]; eauto]
  end.
  intros sub_metric c Hin. specialize (H (sub_metric, c) Hin). simpl in H.
  destruct c as [| | | | | |cmp]; try discriminate. cbn [items bind].
  destruct (periods_loop_returns
              (fun _ => comparator_for w sub_metric (dict_keys cmp)) cmp H)
    as [cmp' ->].
  cbn [bind]. eauto.
Qed.

(** A request of the expected shape goes through, whatever its branches
    are called. *)
Lemma walk_well_shaped w parsed :
  well_shaped parsed = true -> exists res, walk w parsed = Ret res.
Proof.
  unfold walk, well_shaped. destruct parsed as [| | | | | |b];
    try discriminate.
  rewrite forallb_forall. intros H. cbn [items bind].
  match goal with
  | |- context [map_items ?f b] =>
      destruct (map_items_total f b) as [b' ->]; [|cbn [bind]; eauto]
  end.
  intros metric v Hin. specialize (H (metric, v) Hin).
  unfold branch_shaped in H. cbn [fst snd] in H.
  destruct (String.eqb metric "compare").
  - now apply walk_compare_shaped.
  - now apply walk_metric_shaped.
Qed.

(** A branch that is not a mapping ends the walk with an exception. *)
Lemma walk_not_mapping w parsed :
  is_mapping parsed = false \/
  (exists metric v, In (metric, v) (branches parsed) /\ is_mapping v = false) ->
  exists e, walk w parsed = Raise e.
Proof.
  unfold walk. intros [H|(metric & v & Hin & Hv)].
  - destruct parsed; try discriminate; cbn [items bind]; eauto.
  - destruct parsed as [| | | | | |b]; try destruct Hin.
    cbn [items bind branches] in *.
    match goal with
    | |- context [map_items ?f b] =>
        destruct (map_items_raises f b metric v
                                   (AttributeError v "items") Hin)
          as [e' ->]; [|cbn [bind]; eauto]
    end.
    destruct (String.eqb metric "compare");
      unfold walk_compare, walk_metric; destruct v; try discriminate;
      reflexivity.
Qed.

Lemma receive_prompt_walk w prompt parsed :
  oracle_request w prompt = Ret parsed ->
  receive_prompt w prompt =
  match walk w parsed with
  | Raise e => error_response "Failed to fetch data: " e
  | Ret res =>
      JDict [("status", JStr "ok");
             ("result", res);
             ("natural_language",
              JStr match oracle_summary w res with
                   | Ret text => text
                   | Raise e =>
                       ("Failed to generate natural language summary: "
                          ++ exn_text e)%string
                   end)]
  end.
Proof.
  intros H. unfold receive_prompt. rewrite H. cbn [bind].
  now rewrite to_dict_id.
Qed.

Lemma receive_prompt_result w prompt parsed res :
  oracle_request w prompt = Ret parsed ->
  result (receive_prompt w prompt) = Some res ->
  walk w parsed = Ret res.
Proof.
  intros H. rewrite (receive_prompt_walk _ _ _ H).
  destruct (walk w parsed); simpl; congruence.
Qed.

(** C1, as the code has it.  An unrecognised branch name does not abort
    the request: a request of the expected shape gets an ok response,
    and a branch whose name the walker has no case for comes back
    unchanged.  The request is aborted with one error response when it,
    or one of its branches, is not a mapping.  Whenever the response is
    ok, each leaf of a plain branch holds what its own ticker's resolver
    returned, so a ticker that cannot be fetched leaves the results of
    its siblings in place. *)
Theorem walker_request_level_errors
        (w : World) (prompt : string) (parsed : json) :
  oracle_request w prompt = Ret parsed ->
  (well_shaped parsed = true ->
   status (receive_prompt w prompt) = Some (JStr "ok") /\
   exists res, result (receive_prompt w prompt) = Some res) /\
  (forall res metric v,
      result (receive_prompt w prompt) = Some res ->
      recognized metric = false ->
      lookup parsed [metric] = Some v ->
      lookup res [metric] = Some v) /\
  (is_mapping parsed = false \/
   (exists metric v, In (metric, v) (branches parsed) /\
                     is_mapping v = false) ->
   status (receive_prompt w prompt) = Some (JStr "error") /\
   result (receive_prompt w prompt) = None) /\
  (forall res metric ticker period old v,
      result (receive_prompt w prompt) = Some res ->
      String.eqb metric "compare" = false ->
      lookup parsed [metric; ticker; period] = Some old ->
      resolver_for w metric ticker (JStr period) = Some (Ret v) ->
      lookup res [metric; ticker; period] = Some v).
Proof.
  intros Ho. split; [|split; [|split]].
  - intros Hs. destruct (walk_well_shaped w parsed Hs) as [res Hw].
    rewrite (receive_prompt_walk _ _ _ Ho), Hw. simpl. eauto.
  - intros res metric v Hr.
    apply (walk_unknown_branch w parsed res metric v).
    now apply (receive_prompt_result w prompt).
  - intros Hb. destruct (walk_not_mapping w parsed Hb) as [e Hw].
    rewrite (receive_prompt_walk _ _ _ Ho), Hw. split; reflexivity.
  - intros res metric ticker period old v Hr.
    apply (walk_leaf w parsed res metric ticker period old v).
    now apply (receive_prompt_result w prompt).
Qed.

(** The sample market: a request with an unknown branch, a ticker that
    cannot be fetched and a ticker that can; and a request whose branch
    is null. *)
Lemma walker_request_level_errors_witness :
  (status (receive_prompt (sample_world (Ret mixed_request)) "q")
   = Some (JStr "ok") /\
   exists res,
     result (receive_prompt (sample_world (Ret mixed_request)) "q")
     = Some res /\
     lookup res ["foo"] = Some (JDict [("AAPL", null_leaf)]) /\
     lookup res ["return"; "DOWN"; "ytd"] = Some JNull /\
     lookup res ["return"; "AAPL"; "ytd"] = Some (JFloat (PyFloat.of_Z 10))) /\
  (status (receive_prompt (sample_world (Ret broken_request)) "q")
   = Some (JStr "error") /\
   result (receive_prompt (sample_world (Ret broken_request)) "q") = None).
Proof.
  split.
  - destruct (walker_request_level_errors
                (sample_world (Ret mixed_request)) "q" mixed_request eq_refl)
      as (Hok & Hunknown & _ & Hleaf).
    destruct (Hok eq_refl) as [Hstatus [res Hres]].
    split; [exact Hstatus|]. exists res. split; [exact Hres|].
    split; [|split].
    + apply (Hunknown res "foo" _ Hres); reflexivity.
    + apply (Hleaf res "return" "DOWN" "ytd" JNull JNull Hres); reflexivity.
    + apply (Hleaf res "return" "AAPL" "ytd" JNull _ Hres);
        vm_compute; reflexivity.
  - apply (proj1 (proj2 (proj2
             (walker_request_level_errors
                (sample_world (Ret broken_request)) "q" broken_request
                eq_refl)))).
    right. exists "return", JNull. split; [now left|reflexivity].
Defined.

(** A branch called [foo]: the response is ok and carries the request
    back as it came, where C1 expects an error response. *)
Lemma unknown_branch_not_rejected :
  recognized "foo" = false /\
  lookup unknown_branch_request ["foo"] = Some (JDict [("AAPL", null_leaf)]) /\
  receive_prompt (sample_world (Ret unknown_branch_request)) "q" =
    JDict [("status", JStr "ok");
           ("result", unknown_branch_request);
           ("natural_language", JStr "Sintesi.")] /\
  status (receive_prompt (sample_world (Ret unknown_branch_request)) "q")
    <> Some (JStr "error").
Proof.
  split; [reflexivity|]. split; [reflexivity|].
  split; [vm_compute; reflexivity|]. vm_compute. discriminate.
Qed.

(** ** The [compare] branch *)

(** C7. Under a sub-metric of the [compare] branch that names a
    comparator, every ticker/period leaf receives the result of that
    comparator run over all the tickers listed under the sub-metric, for
    the leaf's period; leaves of different tickers that share a period
    hold the same value. *)
Theorem compare_leaves_share_aggregate
        (w : World) (parsed res : json) (sub_metric : string)
        (cmp : pydict json) :
  walk w parsed = Ret res ->
  lookup parsed ["compare"; sub_metric] = Some (JDict cmp) ->
  In sub_metric ["return"; "volatility"; "fundamentals"; "max_min"] ->
  forall period,
    aggregate_of w sub_metric (dict_keys cmp) (JStr period)
      (comparison_result w sub_metric (dict_keys cmp) (JStr period)) /\
    (forall ticker old,
        lookup (JDict cmp) [ticker; period] = Some old ->
        lookup res ["compare"; sub_metric; ticker; period] =
        Some (comparison_result w sub_metric (dict_keys cmp) (JStr period))) /\
    (forall ticker1 ticker2 old1 old2,
        lookup (JDict cmp) [ticker1; period] = Some old1 ->
        lookup (JDict cmp) [ticker2; period] = Some old2 ->
        lookup res ["compare"; sub_metric; ticker1; period] =
        lookup res ["compare"; sub_metric; ticker2; period]).
Proof.
  intros Hw Hl Hs period.
  destruct (comparator_for_recognized w sub_metric (dict_keys cmp)
              (JStr period) Hs) as [Hc Ha].
  assert (Hleaf : forall ticker old,
             lookup (JDict cmp) [ticker; period] = Some old ->
             lookup res ["compare"; sub_metric; ticker; period] =
             Some (comparison_result w sub_metric (dict_keys cmp)
                                     (JStr period))).
  { intros ticker old Ho.
    exact (walk_compare_leaf w parsed res sub_metric cmp ticker period old _
             Hw Hl Ho Hc). }
  split; [exact Ha|]. split; [exact Hleaf|].
  intros t1 t2 o1 o2 H1 H2.
  now rewrite (Hleaf t1 o1 H1), (Hleaf t2 o2 H2).
Qed.

(** The sample market: returns compared over AAPL, GOOGL and DOWN. *)
Lemma compare_leaves_share_aggregate_witness :
  exists res,
    walk market compare_request = Ret res /\
    lookup res ["compare"; "return"; "AAPL"; "ytd"] =
      Some (comparison_result market "return" ["AAPL"; "GOOGL"; "DOWN"] ytd) /\
    lookup res ["compare"; "return"; "DOWN"; "ytd"] =
      Some (comparison_result market "return" ["AAPL"; "GOOGL"; "DOWN"] ytd) /\
    lookup res ["compare"; "return"; "GOOGL"; "ytd"; "best_ticker"] =
      Some (JStr "AAPL") /\
    lookup res ["compare"; "return"; "AAPL"; "ytd"] =
      lookup res ["compare"; "return"; "GOOGL"; "ytd"].
Proof.
  eexists. split; [vm_compute; reflexivity|].
  match goal with
  | |- context [lookup ?res _] =>
      pose proof (compare_leaves_share_aggregate market compare_request res
                    "return"
                    [("AAPL", null_leaf); ("GOOGL", null_leaf);
                     ("DOWN", null_leaf)]) as H
  end.
  destruct (H ltac:(vm_compute; reflexivity) eq_refl
              ltac:(now left) "ytd") as (_ & Hleaf & Hsame).
  split; [exact (Hleaf "AAPL" JNull eq_refl)|].
  split; [exact (Hleaf "DOWN" JNull eq_refl)|].
  split; [vm_compute; reflexivity|].
  exact (Hsame "AAPL" "GOOGL" JNull JNull eq_refl eq_refl).
Defined.

(** ** What a resolver absorbs *)

Lemma get_return_ends w ticker period data close first last :
  yf_download w ticker period = Ret data ->
  df_empty data = false ->
  dict_get data "Close" = Some close ->
  iloc_first close = Ret first ->
  iloc_last close = Ret last ->
  get_return w ticker period = Ret (Some (percent_return first last)).
Proof.
  intros Hd He Hc Hf Hl. unfold get_return, dict_mem, df_getitem.
  rewrite Hd. cbn [bind]. rewrite He, Hc. cbn [orb negb bind].
  rewrite Hf, Hl. reflexivity.
Qed.

Lemma get_volatility_short w ticker period data close :
  yf_download w ticker period = Ret data ->
  df_empty data = false ->
  dict_get data "Close" = Some close ->
  (List.length close <= 2)%nat ->
  get_volatility w ticker period = Ret (Some PyFloat.nan).
Proof.
  intros Hd He Hc Hlen. unfold get_volatility, dict_mem, df_getitem.
  rewrite Hd. cbn [bind]. rewrite He, Hc. cbn [orb negb bind try_except].
  rewrite series_std_short; [reflexivity|].
  pose proof (changes_length close). lia.
Qed.

Lemma iloc_last_returns (x : float) (s : list float) :
  exists last, iloc_last (x :: s) = Ret last.
Proof.
  revert x. induction s as [|y s IH]; intros x; [now exists x|].
  destruct (IH y) as [last H]. exists last. exact H.
Qed.

(** A division by zero gives an infinity or NaN. *)
Lemma percent_return_zero_start (s0 : bool) (last : float) :
  percent_return (S754_zero s0) last = PyFloat.nan \/
  exists s, percent_return (S754_zero s0) last = S754_infinity s.
Proof.
  unfold percent_return.
  destruct last as [s|s| |s m e]; destruct s0; try destruct s;
    solve [left; vm_compute; reflexivity
          |right; eexists; vm_compute; reflexivity].
Qed.

(** C9, as the code has it.  None of the four resolvers raises: each
    returns a value for every ticker and period.  What raises inside a
    resolver comes back as [None]: a price fetch that raises, or gives an
    empty frame or one without closing prices, for the three price
    resolvers; a fundamentals fetch that raises, or a present attribute
    that [float] rejects, for [get_fundamentals].  A computation that
    goes wrong without raising is not turned into [None]: with a usable
    price series the three price resolvers return a number; a first
    closing price of zero gives an infinite or NaN return, and a series
    of one or two points gives a NaN volatility. *)
Theorem resolvers_absorb_failures
        (w : World) (ticker : string) (period : json) :
  ((exists r, get_return w ticker period = Ret r) /\
   (exists r, get_volatility w ticker period = Ret r) /\
   (exists r, get_max_min w ticker period = Ret r) /\
   (exists r, get_fundamentals w ticker = Ret r)) /\
  (no_price_series w ticker period ->
   get_return w ticker period = Ret None /\
   get_volatility w ticker period = Ret None /\
   get_max_min w ticker period = Ret None) /\
  (forall e, ticker_info w ticker = Raise e ->
             get_fundamentals w ticker = Ret None) /\
  (forall info key e,
      ticker_info w ticker = Ret info ->
      In key numeric_keys ->
      truthy (info_get info key) = true ->
      py_float w (info_get info key) = Raise e ->
      get_fundamentals w ticker = Ret None) /\
  (forall data first rest,
      yf_download w ticker period = Ret data ->
      df_empty data = false ->
      dict_get data "Close" = Some (first :: rest) ->
      (exists v, get_return w ticker period = Ret (Some v)) /\
      (exists v, get_volatility w ticker period = Ret (Some v)) /\
      (exists v, get_max_min w ticker period = Ret (Some v)) /\
      (PyFloat.truthy first = false ->
       exists v, get_return w ticker period = Ret (Some v) /\
                 (v = PyFloat.nan \/ exists s, v = S754_infinity s)) /\
      ((List.length (first :: rest) <= 2)%nat ->
       get_volatility w ticker period = Ret (Some PyFloat.nan))).
Proof.
  split; [|split; [|split; [|split]]].
  - split; [apply get_return_returns|].
    split; [apply get_volatility_returns|].
    split; [apply get_max_min_returns|apply get_fundamentals_returns].
  - apply no_price_series_None.
  - intros e He. unfold get_fundamentals. now rewrite He.
  - intros info key e Hi Hk Ht He.
    pose proof (float_or_none_raises w info key e Ht He) as Hr.
    unfold get_fundamentals. rewrite Hi. cbn [bind].
    simpl in Hk.
    destruct Hk as [<-|[<-|[<-|[<-|[<-|[]]]]]]; repeat step_attribute.
  - intros data first rest Hd He Hc.
    destruct (iloc_last_returns first rest) as [last Hl].
    pose proof (get_return_ends w ticker period data (first :: rest)
                  first last Hd He Hc eq_refl Hl) as Hr.
    split; [eexists; exact Hr|].
    split; [|split; [|split]].
    + unfold get_volatility, dict_mem, df_getitem.
      rewrite Hd. cbn [bind]. rewrite He, Hc. eexists. reflexivity.
    + unfold get_max_min, dict_mem, df_getitem.
      rewrite Hd. cbn [bind]. rewrite He, Hc. eexists. reflexivity.
    + intros Hz. destruct first as [s0| | |]; try discriminate.
      eexists. split; [exact Hr|apply percent_return_zero_start].
    + apply (get_volatility_short w ticker period data _ Hd He Hc).
Qed.

(** The sample markets: DOWN cannot be fetched and NOPE has no rows; ODD
    has a market capitalisation that is not a number; the series of ZERO
    starts at zero, and NEWCO has one closing price. *)
Lemma resolvers_absorb_failures_witness :
  (no_price_series market "DOWN" ytd /\
   get_return market "DOWN" ytd = Ret None /\
   get_volatility market "DOWN" ytd = Ret None /\
   get_max_min market "DOWN" ytd = Ret None) /\
  (no_price_series market "NOPE" ytd /\
   get_return market "NOPE" ytd = Ret None /\
   get_volatility market "NOPE" ytd = Ret None /\
   get_max_min market "NOPE" ytd = Ret None) /\
  get_fundamentals market "DOWN" = Ret None /\
  get_fundamentals market "ODD" = Ret None /\
  (exists v, get_return zero_start_market "ZERO" ytd = Ret (Some v) /\
             (v = PyFloat.nan \/ exists s, v = S754_infinity s)) /\
  get_volatility market "NEWCO" ytd = Ret (Some PyFloat.nan).
Proof.
  split; [|split; [|split; [|split; [|split]]]].
  - split; [exact I|].
    apply (proj1 (proj2 (resolvers_absorb_failures market "DOWN" ytd))).
    exact I.
  - split; [left; reflexivity|].
    apply (proj1 (proj2 (resolvers_absorb_failures market "NOPE" ytd))).
    left. reflexivity.
  - apply (proj1 (proj2 (proj2 (resolvers_absorb_failures market "DOWN" ytd)))
                 (Exn "ConnectionError" "no route to host")).
    reflexivity.
  - apply (proj1 (proj2 (proj2 (proj2
             (resolvers_absorb_failures market "ODD" ytd))))
                 [("longName", JStr "Odd Lot"); ("marketCap", JStr "n/a")]
                 "marketCap"
                 (Exn "ValueError" "could not convert string to float")).
    + reflexivity.
    + simpl. tauto.
    + reflexivity.
    + reflexivity.
  - apply (proj1 (proj2 (proj2 (proj2
             (proj2 (proj2 (proj2 (proj2
                (resolvers_absorb_failures zero_start_market "ZERO" ytd))))
                (closes [0; 3; 5]) (PyFloat.of_Z 0)
                (map PyFloat.of_Z [3; 5]) eq_refl eq_refl eq_refl))))).
    reflexivity.
  - apply (proj2 (proj2 (proj2 (proj2
             (proj2 (proj2 (proj2 (proj2
                (resolvers_absorb_failures market "NEWCO" ytd))))
                (closes [100]) (PyFloat.of_Z 100) [] eq_refl eq_refl
                eq_refl))))).
    simpl. lia.
Defined.

(** A series that starts at zero: the division by zero raises nothing,
    and the return is an infinity where C9 says [None]. *)
Lemma division_by_zero_not_absorbed :
  yf_download zero_start_market "ZERO" ytd = Ret (closes [0; 3; 5]) /\
  dict_get (closes [0; 3; 5]) "Close" = Some (map PyFloat.of_Z [0; 3; 5]) /\
  get_return zero_start_market "ZERO" ytd = Ret (Some (S754_infinity false)) /\
  get_return zero_start_market "ZERO" ytd <> Ret None.
Proof.
  split; [reflexivity|]. split; [reflexivity|].
  split; [vm_compute; reflexivity|]. vm_compute. discriminate.
Qed.

(** * Further properties *)

(** ** Returns *)

Lemma iloc_last_app (s : list float) (x : float) :
  iloc_last (s ++ [x]) = Ret x.
Proof.
  induction s as [|a s IH]; [reflexivity|].
  simpl. destruct (s ++ [x]) eqn:E; [|exact IH].
  now destruct s.
Qed.

(** X1. The return depends on the two ends of the series only: whatever
    lies between the first and the last closing price, [get_return] gives
    the rounded percentage change from the first to the last; and when
    the two ends are one and the same finite non-zero price it is zero. *)
Theorem get_return_first_last
        (w : World) (ticker : string) (period : json) (data : DataFrame)
        (first last : float) (middle : list float) :
  yf_download w ticker period = Ret data ->
  df_empty data = false ->
  dict_get data "Close" = Some (first :: middle ++ [last]) ->
  get_return w ticker period = Ret (Some (percent_return first last)) /\
  (last = first -> PyFloat.is_finite_nonzero first = true ->
   PyFloat.eqb (percent_return first last) (PyFloat.of_Z 0) = true).
Proof.
  intros Hd He Hc. split.
  - apply (get_return_ends w ticker period data _ first last Hd He Hc);
      [reflexivity|].
    change (first :: middle ++ [last]) with ((first :: middle) ++ [last]).
    apply iloc_last_app.
  - intros -> Hp. destruct first as [| | |s m e]; try discriminate.
    unfold percent_return. rewrite zero_percent. now destruct s.
Qed.

(** The sample market: MSFT goes 50, 40, 55. *)
Lemma get_return_first_last_witness :
  get_return market "MSFT" ytd =
    Ret (Some (percent_return (PyFloat.of_Z 50) (PyFloat.of_Z 55))) /\
  percent_return (PyFloat.of_Z 50) (PyFloat.of_Z 55) = PyFloat.of_Z 10.
Proof.
  split; [|vm_compute; reflexivity].
  apply (get_return_first_last market "MSFT" ytd (closes [50; 40; 55])
           (PyFloat.of_Z 50) (PyFloat.of_Z 55) [PyFloat.of_Z 40]);
    reflexivity.
Defined.

(** X2. A first closing price of zero does not make the return
    unavailable and raises nothing: the division goes through, and
    [get_return] gives an infinity when the last price is not zero, NaN
    when it is zero or NaN. *)
Theorem get_return_zero_start
        (w : World) (ticker : string) (period : json) (data : DataFrame)
        (close : list float) (s0 : bool) (last : float) :
  yf_download w ticker period = Ret data ->
  df_empty data = false ->
  dict_get data "Close" = Some close ->
  iloc_first close = Ret (S754_zero s0) ->
  iloc_last close = Ret last ->
  get_return w ticker period =
    Ret (Some match last with
              | S754_finite s _ _ | S754_infinity s =>
                  S754_infinity (xorb s s0)
              | _ => PyFloat.nan
              end).
Proof.
  intros Hd He Hc Hf Hl.
  rewrite (get_return_ends w ticker period data close _ _ Hd He Hc Hf Hl).
  do 2 f_equal. unfold percent_return.
  destruct last as [s|s| |s m e]; destruct s0; try destruct s;
    vm_compute; reflexivity.
Qed.

(** A series that starts at zero and ends at 5. *)
Lemma get_return_zero_start_witness :
  get_return zero_start_market "ZERO" ytd = Ret (Some (S754_infinity false)).
Proof.
  exact (get_return_zero_start zero_start_market "ZERO" ytd
           (closes [0; 3; 5]) (map PyFloat.of_Z [0; 3; 5]) false
           (PyFloat.of_Z 5) eq_refl eq_refl eq_refl eq_refl eq_refl).
Defined.

(** ** Highest and lowest close *)

Section SeriesExtremum.

Variable better : float -> float -> bool.
Hypothesis better_trans : forall a b c,
    better a b = true -> better b c = true -> better a c = true.
Hypothesis better_asym : forall a b,
    better a b = true -> better b a = false.
Hypothesis better_nan : forall c, better S754_nan c = false.

Let step (cur : option float) (x : float) : option float :=
  if PyFloat.is_nan x then cur
  else match cur with
       | None => Some x
       | Some c => if better x c then Some x else cur
       end.

Let chosen (cur : option float) (seen : list float) : Prop :=
  match cur with
  | None => forall x, In x seen -> PyFloat.is_nan x = true
  | Some c =>
      In c seen /\ PyFloat.is_nan c = false /\
      forall y, In y seen -> better y c = false
  end.

Lemma better_irrefl (x : float) : better x x = false.
Proof.
  destruct (better x x) eqn:E; [|reflexivity].
  now rewrite (better_asym _ _ E) in E.
Qed.

Lemma step_chosen (cur : option float) (seen : list float) (x : float) :
  chosen cur seen -> chosen (step cur x) (seen ++ [x]).
Proof.
  unfold step. destruct (PyFloat.is_nan x) eqn:Hx.
  - destruct x; try discriminate.
    destruct cur as [c|]; simpl.
    + intros (H1 & H2 & H3). split; [apply in_or_app; now left|].
      split; [exact H2|]. intros y Hy. apply in_app_or in Hy.
      destruct Hy as [Hy|[<-|[]]]; [now apply H3|apply better_nan].
    + intros H y Hy. apply in_app_or in Hy.
      destruct Hy as [Hy|[<-|[]]]; [now apply H|reflexivity].
  - destruct cur as [c|]; simpl.
    + intros (H1 & H2 & H3). destruct (better x c) eqn:Hb.
      * split; [apply in_or_app; right; now left|]. split; [exact Hx|].
        intros y Hy. apply in_app_or in Hy.
        destruct Hy as [Hy|[<-|[]]]; [|apply better_irrefl].
        destruct (better y x) eqn:E; [|reflexivity].
        specialize (H3 y Hy).
        rewrite (better_trans _ _ _ E Hb) in H3. discriminate.
      * split; [apply in_or_app; now left|]. split; [exact H2|].
        intros y Hy. apply in_app_or in Hy.
        destruct Hy as [Hy|[<-|[]]]; [now apply H3|exact Hb].
    + intros H. split; [apply in_or_app; right; now left|].
      split; [exact Hx|]. intros y Hy. apply in_app_or in Hy.
      destruct Hy as [Hy|[<-|[]]]; [|apply better_irrefl].
      specialize (H y Hy). destruct y; try discriminate. apply better_nan.
Qed.

Lemma fold_chosen (s : list float) :
  forall cur seen,
    chosen cur seen -> chosen (fold_left step s cur) (seen ++ s).
Proof.
  induction s as [|x s IH]; intros cur seen H; simpl.
  - now rewrite app_nil_r.
  - replace (seen ++ x :: s) with ((seen ++ [x]) ++ s)
      by now rewrite <- app_assoc.
    apply IH. now apply step_chosen.
Qed.

(** The value picked from a series: NaN when every entry is NaN,
    otherwise an entry that is not NaN and that no entry beats. *)
Lemma series_extremum_spec (s : list float) :
  ((forall x, In x s -> PyFloat.is_nan x = true) /\
   series_extremum better s = PyFloat.nan) \/
  (In (series_extremum better s) s /\
   PyFloat.is_nan (series_extremum better s) = false /\
   forall y, In y s -> better y (series_extremum better s) = false).
Proof.
  pose proof (fold_chosen s None [] (fun x (H : In x []) => match H with end))
    as H.
  unfold series_extremum. fold step.
  destruct (fold_left step s None) as [c|]; simpl in H.
  - right. exact H.
  - left. split; [exact H|reflexivity].
Qed.

End SeriesExtremum.

Lemma gtb_nan (c : float) : PyFloat.gtb S754_nan c = false.
Proof. now destruct c. Qed.

Lemma ltb_nan (c : float) : PyFloat.ltb S754_nan c = false.
Proof. reflexivity. Qed.

(** X3. For a frame with closing prices, [get_max_min] returns the
    rounded highest and lowest close: each is an entry of the series that
    is not NaN, no entry is above the highest or below the lowest, and
    the highest is not below the lowest.  NaN entries are skipped; when
    every entry is NaN (or there is none) both fields are NaN. *)
Theorem get_max_min_extremes
        (w : World) (ticker : string) (period : json) (data : DataFrame)
        (close : list float) :
  yf_download w ticker period = Ret data ->
  df_empty data = false ->
  dict_get data "Close" = Some close ->
  exists hi lo,
    get_max_min w ticker period =
      Ret (Some {| mm_max := PyFloat.round2 hi;
                   mm_min := PyFloat.round2 lo |}) /\
    (((forall x, In x close -> PyFloat.is_nan x = true) /\
      hi = PyFloat.nan /\ lo = PyFloat.nan) \/
     (In hi close /\ In lo close /\
      PyFloat.is_nan hi = false /\ PyFloat.is_nan lo = false /\
      (forall x, In x close ->
                 PyFloat.gtb x hi = false /\ PyFloat.ltb x lo = false) /\
      PyFloat.ltb hi lo = false)).
Proof.
  intros Hd He Hc. exists (series_max close), (series_min close). split.
  - unfold get_max_min, dict_mem, df_getitem.
    rewrite Hd. cbn [bind]. rewrite He, Hc. reflexivity.
  - destruct (series_extremum_spec PyFloat.gtb gtb_trans gtb_asym gtb_nan
                close) as [[Hn Hhi]|(Hhi1 & Hhi2 & Hhi3)];
      destruct (series_extremum_spec PyFloat.ltb PyFloatFacts.ltb_trans
                  PyFloatFacts.ltb_asym ltb_nan close)
        as [[Hn' Hlo]|(Hlo1 & Hlo2 & Hlo3)].
    + left. auto.
    + rewrite (Hn _ Hlo1) in Hlo2. discriminate.
    + rewrite (Hn' _ Hhi1) in Hhi2. discriminate.
    + right. fold series_max in Hhi1, Hhi2, Hhi3.
      fold series_min in Hlo1, Hlo2, Hlo3.
      split; [exact Hhi1|]. split; [exact Hlo1|].
      split; [exact Hhi2|]. split; [exact Hlo2|].
      split; [intros x Hx; split; [now apply Hhi3|now apply Hlo3]|].
      exact (Hhi3 _ Hlo1).
Qed.

(** The sample market: GOOGL goes 200, 150, 180. *)
Lemma get_max_min_extremes_witness :
  get_max_min market "GOOGL" ytd =
    Ret (Some {| mm_max := PyFloat.of_Z 200; mm_min := PyFloat.of_Z 150 |}) /\
  exists hi lo,
    get_max_min market "GOOGL" ytd =
      Ret (Some {| mm_max := PyFloat.round2 hi;
                   mm_min := PyFloat.round2 lo |}) /\
    (((forall x, In x (map PyFloat.of_Z [200; 150; 180]) ->
                 PyFloat.is_nan x = true) /\
      hi = PyFloat.nan /\ lo = PyFloat.nan) \/
     (In hi (map PyFloat.of_Z [200; 150; 180]) /\
      In lo (map PyFloat.of_Z [200; 150; 180]) /\
      PyFloat.is_nan hi = false /\ PyFloat.is_nan lo = false /\
      (forall x, In x (map PyFloat.of_Z [200; 150; 180]) ->
                 PyFloat.gtb x hi = false /\ PyFloat.ltb x lo = false) /\
      PyFloat.ltb hi lo = false)).
Proof.
  split; [vm_compute; reflexivity|].
  exact (get_max_min_extremes market "GOOGL" ytd (closes [200; 150; 180])
           (map PyFloat.of_Z [200; 150; 180]) eq_refl eq_refl eq_refl).
Defined.

(** ** The sign of the volatility *)

Lemma binary_round_aux_sign (mx ex : Z) (lx : location) :
  sign_clear (binary_round_aux PyFloat.prec PyFloat.emax false mx ex lx) = true.
Proof.
  unfold binary_round_aux.
  destruct (shr_fexp _ _ mx ex lx) as [mrs' e'].
  destruct (shr_fexp _ _ _ e' loc_Exact) as [mrs'' e''].
  destruct (shr_m mrs''); [reflexivity| |reflexivity].
  destruct (e'' <=? PyFloat.emax - PyFloat.prec); reflexivity.
Qed.

Lemma binary_round_sign (m : positive) (e : Z) :
  sign_clear (binary_round PyFloat.prec PyFloat.emax false m e) = true.
Proof.
  unfold binary_round. destruct (shl_align m e _) as [mz ez].
  apply binary_round_aux_sign.
Qed.

Lemma of_integer_sign (k : Z) :
  0 <= k -> sign_clear (PyFloat.of_integer k false) = true.
Proof.
  unfold PyFloat.of_integer, binary_normalize.
  destruct k; [reflexivity|intros _; apply binary_round_sign|lia].
Qed.

Lemma of_Z_sign (k : Z) : 0 <= k -> sign_clear (PyFloat.of_Z k) = true.
Proof. apply of_integer_sign. Qed.

Lemma sign_clear_not_negative (x : float) :
  sign_clear x = true -> not_negative x = true.
Proof. destruct x as [[]|[]| |[] ? ?]; simpl; congruence. Qed.

Lemma mul_not_negative (x y : float) :
  not_negative x = true -> not_negative y = true ->
  not_negative (PyFloat.mul x y) = true.
Proof.
  destruct x as [[]|[]| |[] mx ex], y as [[]|[]| |[] my ey]; simpl;
    try discriminate; try reflexivity.
  intros _ _. apply sign_clear_not_negative, binary_round_aux_sign.
Qed.

Lemma square_not_negative (d : float) :
  not_negative (PyFloat.mul d d) = true.
Proof.
  destruct d as [[]|[]| |[] m e]; simpl; try reflexivity;
    apply sign_clear_not_negative, binary_round_aux_sign.
Qed.

Lemma add_not_negative (x y : float) :
  not_negative x = true -> not_negative y = true ->
  not_negative (PyFloat.add x y) = true.
Proof.
  destruct x as [[]|[]| |[] mx ex], y as [[]|[]| |[] my ey]; simpl;
    try discriminate; try reflexivity.
  intros _ _. apply sign_clear_not_negative, binary_round_sign.
Qed.

(** A property of floats that the addition keeps is kept by the pairwise
    summation, whatever the cuts. *)
Section SumClosed.

Variable P : float -> Prop.
Hypothesis P_add : forall x y, P x -> P y -> P (PyFloat.add x y).
Hypothesis P_zero : P (PyFloat.of_Z 0).

Lemma sum_in_order_closed (a : list float) :
  (forall x, In x a -> P x) ->
  forall res, P res -> P (sum_in_order res a).
Proof.
  unfold sum_in_order.
  induction a as [|x a IH]; intros Ha res Hres; simpl; [exact Hres|].
  apply IH; [intros; apply Ha; now right|].
  apply P_add; [exact Hres|apply Ha; now left].
Qed.

Lemma add_groups_closed (n : nat) :
  forall a r,
    (List.length a <= n)%nat ->
    (forall x, In x a -> P x) -> lanes_all P r ->
    lanes_all P (fst (add_groups r a)) /\
    (forall x, In x (snd (add_groups r a)) -> P x).
Proof.
  induction n as [|n IH]; intros a r Hlen Ha Hr.
  - destruct a; [split; assumption|simpl in Hlen; lia].
  - destruct a as [|a0 [|a1 [|a2 [|a3 [|a4 [|a5 [|a6 [|a7 rest]]]]]]]];
      try (split; assumption).
    cbn [add_groups]. destruct Hr as (H0 & H1 & H2 & H3 & H4 & H5 & H6 & H7).
    apply IH.
    + simpl in Hlen. lia.
    + intros x Hx. apply Ha. simpl. tauto.
    + unfold lanes_all. cbn [lane0 lane1 lane2 lane3 lane4 lane5 lane6 lane7].
      repeat split; apply P_add; try assumption; apply Ha; simpl; tauto.
Qed.

Lemma add_tree_closed (r : lanes) : lanes_all P r -> P (add_tree r).
Proof.
  intros (H0 & H1 & H2 & H3 & H4 & H5 & H6 & H7). unfold add_tree.
  repeat apply P_add; assumption.
Qed.

Lemma block_sum_closed (a : list float) :
  (forall x, In x a -> P x) -> P (block_sum a).
Proof.
  intros Ha.
  destruct a as [|a0 [|a1 [|a2 [|a3 [|a4 [|a5 [|a6 [|a7 rest]]]]]]]];
    try (apply sum_in_order_closed; [exact Ha|exact P_zero]).
  cbn [block_sum].
  destruct (add_groups_closed (List.length rest) rest
              {| lane0 := a0; lane1 := a1; lane2 := a2; lane3 := a3;
                 lane4 := a4; lane5 := a5; lane6 := a6; lane7 := a7 |})
    as [Hr Ht].
  - lia.
  - intros x Hx. apply Ha. simpl. tauto.
  - unfold lanes_all. cbn [lane0 lane1 lane2 lane3 lane4 lane5 lane6 lane7].
    repeat split; apply Ha; simpl; tauto.
  - destruct (add_groups _ rest) as [r tail]. cbn [fst snd] in Hr, Ht.
    apply sum_in_order_closed; [exact Ht|now apply add_tree_closed].
Qed.

Lemma In_firstn (k : nat) (a : list float) (x : float) :
  In x (firstn k a) -> In x a.
Proof.
  intros H. rewrite <- (firstn_skipn k a). apply in_or_app. now left.
Qed.

Lemma In_skipn (k : nat) (a : list float) (x : float) :
  In x (skipn k a) -> In x a.
Proof.
  intros H. rewrite <- (firstn_skipn k a). apply in_or_app. now right.
Qed.

Lemma pairwise_sum_closed (fuel : nat) :
  forall a, (forall x, In x a -> P x) -> P (pairwise_sum fuel a).
Proof.
  induction fuel as [|fuel IH]; intros a Ha; cbn [pairwise_sum];
    [now apply block_sum_closed|].
  destruct (block_size <? List.length a)%nat; [|now apply block_sum_closed].
  apply P_add; apply IH; intros x Hx; apply Ha;
    [exact (In_firstn _ _ _ Hx)|exact (In_skipn _ _ _ Hx)].
Qed.

Lemma series_sum_closed (s : list float) :
  (forall x, In x s -> P x) -> P (series_sum s).
Proof.
  intros Hs. unfold series_sum.
  apply P_add; [exact P_zero|now apply pairwise_sum_closed].
Qed.

End SumClosed.

(** The cuts end before the fuel does: from the length of the array on,
    more fuel changes nothing. *)
Lemma pairwise_sum_fuel (fuel : nat) :
  forall fuel' a,
    (List.length a <= fuel)%nat -> (List.length a <= fuel')%nat ->
    pairwise_sum fuel a = pairwise_sum fuel' a.
Proof.
  induction fuel as [|fuel IH]; intros fuel' a H H'.
  - destruct a; [|simpl in H; lia]. now destruct fuel'.
  - destruct fuel' as [|fuel'].
    + destruct a; [|simpl in H'; lia]. reflexivity.
    + cbn [pairwise_sum].
      destruct (Nat.ltb_spec block_size (List.length a)) as [Hn|Hn];
        [|reflexivity].
      unfold block_size in Hn.
      assert (Hc : (1 <= List.length a / 2 - (List.length a / 2) mod 8
                    < List.length a)%nat).
      { pose proof (Nat.div_mod_eq (List.length a) 2) as E2.
        pose proof (Nat.mod_upper_bound (List.length a) 2 ltac:(lia)) as B2.
        pose proof (Nat.mod_upper_bound (List.length a / 2) 8 ltac:(lia))
          as B8.
        lia. }
      f_equal; apply IH;
        rewrite ?length_firstn, ?length_skipn; lia.
Qed.

Lemma series_sum_not_negative (s : list float) :
  (forall x, In x s -> not_negative x = true) ->
  not_negative (series_sum s) = true.
Proof.
  apply (series_sum_closed (fun x => not_negative x = true));
    [exact add_not_negative|reflexivity].
Qed.

Lemma div_not_negative (x y : float) :
  not_negative x = true -> sign_clear y = true ->
  not_negative (PyFloat.div x y) = true.
Proof.
  destruct x as [[]|[]| |[] mx ex], y as [[]|[]| |[] my ey]; simpl;
    try discriminate; try reflexivity.
  intros _ _.
  destruct (SFdiv_core_binary _ _ (Z.pos mx) ex (Z.pos my) ey) as [[mz ez] lz].
  apply sign_clear_not_negative, binary_round_aux_sign.
Qed.

Lemma sqrt_not_negative (x : float) :
  not_negative x = true -> not_negative (PyFloat.sqrt x) = true.
Proof.
  destruct x as [[]|[]| |[] m e]; simpl; try discriminate; try reflexivity.
  intros _.
  destruct (SFsqrt_core_binary _ _ (Z.pos m) e) as [[mz ez] lz].
  apply sign_clear_not_negative, binary_round_aux_sign.
Qed.

Lemma round_half_even_nonneg (q r d : Z) :
  0 <= q -> 0 <= PyFloat.round_half_even q r d.
Proof.
  unfold PyFloat.round_half_even. intros H.
  destruct (2 * r ?= d); [destruct (Z.even q)| |]; lia.
Qed.

Lemma rint_not_negative (x : float) :
  not_negative x = true -> not_negative (PyFloat.rint x) = true.
Proof.
  destruct x as [s|s| |s m e]; try (intros H; exact H).
  destruct s; [discriminate|]. intros _. unfold PyFloat.rint.
  apply sign_clear_not_negative, of_integer_sign. cbn [cond_Zopp].
  destruct (0 <=? e) eqn:He.
  - apply Z.leb_le in He. apply Z.mul_nonneg_nonneg; [lia|].
    now apply Z.pow_nonneg.
  - apply round_half_even_nonneg. apply Z.div_pos; [lia|].
    apply Z.pow_pos_nonneg; [lia|]. apply Z.leb_gt in He. lia.
Qed.

Lemma round2_not_negative (x : float) :
  not_negative x = true -> not_negative (PyFloat.round2 x) = true.
Proof.
  intros H. unfold PyFloat.round2.
  apply div_not_negative; [|now apply of_Z_sign].
  apply rint_not_negative, mul_not_negative; [exact H|].
  now apply sign_clear_not_negative, of_Z_sign.
Qed.

Lemma series_std_not_negative (s : list float) :
  not_negative (series_std s) = true.
Proof.
  unfold series_std. destruct (Z.leb_spec (Z.of_nat (List.length s)) 1);
    [reflexivity|].
  apply sqrt_not_negative, div_not_negative; [|apply of_Z_sign; lia].
  apply series_sum_not_negative. intros x Hx.
  apply in_map_iff in Hx. destruct Hx as (y & <- & _).
  apply square_not_negative.
Qed.

Lemma not_negative_ltb (x : float) :
  not_negative x = true -> PyFloat.ltb x (PyFloat.of_Z 0) = false.
Proof. destruct x as [[]|[]| |[] m e]; simpl; try discriminate; reflexivity. Qed.

(** X4. The volatility is never below zero: whatever the series, a value
    returned by [get_volatility] is NaN or not less than [0.0]. *)
Theorem get_volatility_not_negative
        (w : World) (ticker : string) (period : json) (v : float) :
  get_volatility w ticker period = Ret (Some v) ->
  not_negative v = true /\ PyFloat.ltb v (PyFloat.of_Z 0) = false.
Proof.
  intros H.
  assert (Hv : not_negative v = true); [|split; [exact Hv|]].
  - revert H. unfold get_volatility.
    destruct (yf_download w ticker period) as [data|];
      cbn [bind try_except]; [|discriminate].
    destruct (df_empty data || negb (dict_mem data "Close"));
      cbn [try_except]; [discriminate|].
    destruct (df_getitem data "Close") as [close|]; cbn [bind try_except];
      [|discriminate].
    intros H.
    assert (E : PyFloat.round2
                  (PyFloat.mul
                     (PyFloat.mul (series_std (dropna (pct_change close)))
                                  sqrt252)
                     (PyFloat.of_Z 100)) = v) by congruence.
    rewrite <- E.
    apply round2_not_negative, mul_not_negative;
      [|now apply sign_clear_not_negative, of_Z_sign].
    apply mul_not_negative; [apply series_std_not_negative|].
    apply sqrt_not_negative. now apply sign_clear_not_negative, of_Z_sign.
  - now apply not_negative_ltb.
Qed.

(** The sample market: GOOGL goes 200, 150, 180. *)
Lemma get_volatility_not_negative_witness :
  exists v,
    get_volatility market "GOOGL" ytd = Ret (Some v) /\
    not_negative v = true /\ PyFloat.ltb v (PyFloat.of_Z 0) = false.
Proof.
  eexists. split; [vm_compute; reflexivity|].
  apply (get_volatility_not_negative market "GOOGL" ytd).
  vm_compute. reflexivity.
Defined.

(** ** Rankings *)

Lemma resolved_value {V : Type} (r : exc (option V)) (v : V) :
  (exists x, r = Ret x) -> (resolved r = Some v <-> r = Ret (Some v)).
Proof. intros [x ->]. simpl. split; congruence. Qed.

Lemma candidate_all {V : Type} (resolve : string -> exc (option V))
      (pick : V -> float) (t : string) (x : V) :
  resolve t = Ret (Some x) ->
  candidate (fun t => resolved (resolve t)) (fun x => Some (pick x)) t
  = Some (pick x).
Proof. unfold candidate. now intros ->. Qed.

Lemma max_best {V : Type} (value : string -> option V)
      (pick : V -> option float) (tickers : list string)
      (cur : string * float) (rest : pydict float) :
  pick_values pick (first_occurrences value [] tickers) = cur :: rest ->
  forall t v, In t tickers -> candidate value pick t = Some v ->
              PyFloat.gtb v (snd (extremum_from PyFloat.gtb cur rest)) = false.
Proof.
  intros H.
  exact (proj1 (proj2 (proj2
           (ranking_winner PyFloat.gtb gtb_trans gtb_asym gtb_not_tie tie_gtb
              value pick tickers cur rest H)))).
Qed.

Lemma min_best {V : Type} (value : string -> option V)
      (pick : V -> option float) (tickers : list string)
      (cur : string * float) (rest : pydict float) :
  pick_values pick (first_occurrences value [] tickers) = cur :: rest ->
  forall t v, In t tickers -> candidate value pick t = Some v ->
              PyFloat.ltb v (snd (extremum_from PyFloat.ltb cur rest)) = false.
Proof.
  intros H.
  exact (proj1 (proj2 (proj2
           (ranking_winner PyFloat.ltb PyFloatFacts.ltb_trans
              PyFloatFacts.ltb_asym ltb_not_tie PyFloatFacts.eqb_ltb_l
              value pick tickers cur rest H)))).
Qed.

(** X5. The winners of the three price rankings are extremal: no ticker
    of the list has a return above the best return, a volatility below
    the least or above the most volatility, a maximum above the highest
    maximum or a minimum below the lowest minimum. *)
Theorem price_rankings_extremal
        (w : World) (tickers : list string) (period : json) :
  (forall r t v,
      compare_returns w tickers period = Ret (Ranking r) ->
      In t tickers -> get_return w t period = Ret (Some v) ->
      PyFloat.gtb v (best_return r) = false) /\
  (forall r t v,
      compare_volatility w tickers period = Ret (Ranking r) ->
      In t tickers -> get_volatility w t period = Ret (Some v) ->
      PyFloat.ltb v (least_volatility r) = false /\
      PyFloat.gtb v (most_volatility r) = false) /\
  (forall r t m,
      compare_max_min w tickers period = Ret (Ranking r) ->
      In t tickers -> get_max_min w t period = Ret (Some m) ->
      PyFloat.gtb (mm_max m) (snd (highest_max r)) = false /\
      PyFloat.ltb (mm_min m) (snd (lowest_min r)) = false).
Proof.
  split; [|split].
  - intros r t v. rewrite compare_returns_spec.
    destruct (first_occurrences _ [] tickers) as [|cur rest] eqn:Hd;
      [discriminate|].
    intros H Ht Hv. apply Ret_Ranking_inj in H. subst r.
    cbn [best_return].
    assert (Hp : pick_values Some
                   (first_occurrences
                      (fun t => resolved (get_return w t period)) [] tickers)
                 = cur :: rest) by (rewrite Hd; apply pick_values_all).
    apply (max_best _ _ _ _ _ Hp t v Ht).
    now apply (candidate_all (fun t => get_return w t period) (fun x => x)).
  - intros r t v. rewrite compare_volatility_spec.
    destruct (first_occurrences _ [] tickers) as [|cur rest] eqn:Hd;
      [discriminate|].
    intros H Ht Hv. apply Ret_Ranking_inj in H. subst r.
    cbn [least_volatility most_volatility].
    assert (Hp : pick_values Some
                   (first_occurrences
                      (fun t => resolved (get_volatility w t period))
                      [] tickers)
                 = cur :: rest) by (rewrite Hd; apply pick_values_all).
    pose proof (candidate_all (fun t => get_volatility w t period)
                              (fun x => x) t v Hv) as Hc.
    split; [apply (min_best _ _ _ _ _ Hp t v Ht Hc)
           |apply (max_best _ _ _ _ _ Hp t v Ht Hc)].
  - intros r t m. rewrite compare_max_min_spec.
    destruct (first_occurrences _ [] tickers) as [|e d] eqn:Hd;
      [discriminate|].
    destruct (pick_values (fun m => Some (mm_max m)) (e :: d))
      as [|hi his] eqn:Hhi; [discriminate|].
    destruct (pick_values (fun m => Some (mm_min m)) (e :: d))
      as [|lo los] eqn:Hlo; [discriminate|].
    intros H Ht Hm. apply Ret_Ranking_inj in H. subst r.
    cbn [highest_max lowest_min]. rewrite <- Hd in Hhi, Hlo.
    split.
    + apply (max_best _ _ _ _ _ Hhi t _ Ht).
      now apply (candidate_all (fun t => get_max_min w t period) mm_max).
    + apply (min_best _ _ _ _ _ Hlo t _ Ht).
      now apply (candidate_all (fun t => get_max_min w t period) mm_min).
Qed.

(** The sample market: AAPL has the best return, GOOGL the worst. *)
Lemma price_rankings_extremal_witness :
  exists r v,
    compare_returns market sample_tickers ytd = Ret (Ranking r) /\
    get_return market "GOOGL" ytd = Ret (Some v) /\
    PyFloat.gtb v (best_return r) = false.
Proof.
  do 2 eexists. split; [vm_compute; reflexivity|].
  split; [vm_compute; reflexivity|].
  apply (proj1 (price_rankings_extremal market sample_tickers ytd)
               _ "GOOGL"); [vm_compute; reflexivity| |vm_compute; reflexivity].
  simpl. tauto.
Defined.

(** ** The per-ticker maps *)

Section FirstOccurrencesOrder.

Context {V : Type}.
Variable value : string -> option V.

Lemma first_occurrences_NoDup (tickers : list string) :
  forall seen, NoDup (dict_keys (first_occurrences value seen tickers)).
Proof.
  induction tickers as [|t ts IH]; intros seen; simpl; [constructor|].
  destruct (value t) as [v|]; [|apply IH].
  destruct (existsb (String.eqb t) seen); [apply IH|].
  simpl. constructor; [|apply IH].
  intros Hin. unfold dict_keys in Hin. apply in_map_iff in Hin.
  destruct Hin as ([k v'] & Hk & Hin). simpl in Hk. subst k.
  apply first_occurrences_In in Hin. destruct Hin as (_ & _ & Hseen).
  apply Hseen. apply in_or_app. right. now left.
Qed.

Lemma first_occurrences_in_order (tickers : list string) :
  NoDup tickers ->
  forall seen,
    (forall t, In t tickers -> ~ In t seen) ->
    first_occurrences value seen tickers = available_in_order value tickers.
Proof.
  induction 1 as [|t ts Ht Hts IH]; intros seen Hseen; simpl; [reflexivity|].
  destruct (value t) as [v|]; simpl.
  - destruct (existsb (String.eqb t) seen) eqn:E.
    + apply existsb_exists in E. destruct E as (k & Hk & Ek).
      apply String.eqb_eq in Ek. subst k.
      exfalso. apply (Hseen t); [now left|exact Hk].
    + f_equal. apply IH. intros t' Ht' Hin. apply in_app_or in Hin.
      destruct Hin as [Hin|[<-|[]]]; [|contradiction].
      apply (Hseen t'); [now right|exact Hin].
  - apply IH. intros t' Ht'. apply Hseen. now right.
Qed.

End FirstOccurrencesOrder.

Lemma collected_once_in_order {V : Type} (resolve : string -> exc (option V))
      (tickers : list string) :
  lists_once_in_order tickers resolve
    (first_occurrences (fun t => resolved (resolve t)) [] tickers).
Proof.
  split; [apply first_occurrences_NoDup|].
  intros H. apply first_occurrences_in_order; [exact H|]. intros t _ [].
Qed.

(** X6. The per-ticker map of each comparator names no ticker twice,
    even when the input list repeats one; and when the list has no
    repetition the map holds the available tickers with their values in
    the order of the list. *)
Theorem per_ticker_maps_in_input_order
        (w : World) (tickers : list string) (period : json) :
  (forall r, compare_returns w tickers period = Ret (Ranking r) ->
             lists_once_in_order tickers (fun t => get_return w t period)
                                 (all_returns r)) /\
  (forall r, compare_volatility w tickers period = Ret (Ranking r) ->
             lists_once_in_order tickers (fun t => get_volatility w t period)
                                 (all_volatilities r)) /\
  (forall r, compare_max_min w tickers period = Ret (Ranking r) ->
             lists_once_in_order tickers (fun t => get_max_min w t period)
                                 (all_data r)) /\
  (forall r, compare_fundamentals w tickers = Ret (Ranking r) ->
             lists_once_in_order tickers (fun t => get_fundamentals w t)
                                 (all_fundamentals r)).
Proof.
  split; [|split; [|split]]; intros r.
  - rewrite compare_returns_spec.
    pose proof (collected_once_in_order (fun t => get_return w t period)
                  tickers) as H.
    cbv beta in H.
    destruct (first_occurrences _ [] tickers); [discriminate|].
    intros E. apply Ret_Ranking_inj in E. now subst r.
  - rewrite compare_volatility_spec.
    pose proof (collected_once_in_order (fun t => get_volatility w t period)
                  tickers) as H.
    cbv beta in H.
    destruct (first_occurrences _ [] tickers); [discriminate|].
    intros E. apply Ret_Ranking_inj in E. now subst r.
  - rewrite compare_max_min_spec.
    pose proof (collected_once_in_order (fun t => get_max_min w t period)
                  tickers) as H.
    cbv beta in H.
    destruct (first_occurrences _ [] tickers) as [|e d]; [discriminate|].
    destruct (pick_values (fun m => Some (mm_max m)) (e :: d));
      [discriminate|].
    destruct (pick_values (fun m => Some (mm_min m)) (e :: d));
      [discriminate|].
    intros E. apply Ret_Ranking_inj in E. now subst r.
  - rewrite compare_fundamentals_spec.
    pose proof (collected_once_in_order (fun t => get_fundamentals w t)
                  tickers) as H.
    cbv beta in H.
    destruct (first_occurrences _ [] tickers); [discriminate|].
    intros E. apply Ret_Ranking_inj in E. now subst r.
Qed.

(** The sample market: a list that names AAPL twice and DOWN, which
    cannot be fetched; and the same list without the repetition. *)
Lemma per_ticker_maps_in_input_order_witness :
  (exists r,
      compare_returns market ["MSFT"; "AAPL"; "DOWN"; "AAPL"] ytd
      = Ret (Ranking r) /\
      dict_keys (all_returns r) = ["MSFT"; "AAPL"] /\
      NoDup (dict_keys (all_returns r))) /\
  (exists r,
      compare_returns market ["MSFT"; "AAPL"; "DOWN"] ytd = Ret (Ranking r) /\
      all_returns r =
        available_in_order (fun t => resolved (get_return market t ytd))
                           ["MSFT"; "AAPL"; "DOWN"]).
Proof.
  split.
  - eexists. split; [vm_compute; reflexivity|].
    split; [vm_compute; reflexivity|].
    apply (proj1 (per_ticker_maps_in_input_order market
                    ["MSFT"; "AAPL"; "DOWN"; "AAPL"] ytd)).
    vm_compute. reflexivity.
  - eexists. split; [vm_compute; reflexivity|].
    apply (proj1 (per_ticker_maps_in_input_order market
                    ["MSFT"; "AAPL"; "DOWN"] ytd)).
    + vm_compute. reflexivity.
    + repeat constructor; simpl; intuition discriminate.
Defined.

(** ** NaN in a ranking *)

Lemma extremum_from_stuck {V : Type} (better : V -> V -> bool)
      (rest : pydict V) (cur : string * V) :
  (forall x, better x (snd cur) = false) ->
  extremum_from better cur rest = cur.
Proof.
  intros H. induction rest as [|kv rest IH]; simpl; [reflexivity|].
  now rewrite H.
Qed.

Lemma nothing_beats_nan_max (x : float) : PyFloat.gtb x PyFloat.nan = false.
Proof. reflexivity. Qed.

Lemma nothing_beats_nan_min (x : float) : PyFloat.ltb x PyFloat.nan = false.
Proof. now destruct x. Qed.

(** X7. A NaN at the head of the list takes the ranking: when the first
    ticker's return is NaN it is the best ticker, and when its volatility
    is NaN it is both the least and the most volatile ticker, whatever
    the other tickers have.  The volatility is NaN for every series of
    one or two points. *)
Theorem nan_first_takes_ranking
        (w : World) (first : string) (others : list string) (period : json) :
  (get_return w first period = Ret (Some PyFloat.nan) ->
   exists r,
     compare_returns w (first :: others) period = Ret (Ranking r) /\
     best_ticker r = first /\ best_return r = PyFloat.nan) /\
  (get_volatility w first period = Ret (Some PyFloat.nan) ->
   exists r,
     compare_volatility w (first :: others) period = Ret (Ranking r) /\
     least_volatile r = first /\ least_volatility r = PyFloat.nan /\
     most_volatile r = first /\ most_volatility r = PyFloat.nan) /\
  (forall data close,
      yf_download w first period = Ret data ->
      df_empty data = false ->
      dict_get data "Close" = Some close ->
      (List.length close <= 2)%nat ->
      get_volatility w first period = Ret (Some PyFloat.nan)).
Proof.
  split; [|split].
  - intros H. rewrite compare_returns_spec. cbn [first_occurrences].
    rewrite H. cbn [resolved existsb].
    eexists. split; [reflexivity|]. cbn [best_ticker best_return].
    rewrite extremum_from_stuck by apply nothing_beats_nan_max.
    split; reflexivity.
  - intros H. rewrite compare_volatility_spec. cbn [first_occurrences].
    rewrite H. cbn [resolved existsb].
    eexists. split; [reflexivity|].
    cbn [least_volatile least_volatility most_volatile most_volatility].
    rewrite (extremum_from_stuck PyFloat.gtb)
      by apply nothing_beats_nan_max.
    rewrite (extremum_from_stuck PyFloat.ltb)
      by apply nothing_beats_nan_min.
    repeat split; reflexivity.
  - apply get_volatility_short.
Qed.

(** The sample market: NEWCO has one closing price; listed before GOOGL
    it is both the least and the most volatile. *)
Lemma nan_first_takes_ranking_witness :
  get_volatility market "NEWCO" ytd = Ret (Some PyFloat.nan) /\
  exists r,
    compare_volatility market ["NEWCO"; "GOOGL"] ytd = Ret (Ranking r) /\
    least_volatile r = "NEWCO" /\ least_volatility r = PyFloat.nan /\
    most_volatile r = "NEWCO" /\ most_volatility r = PyFloat.nan.
Proof.
  pose proof (nan_first_takes_ranking market "NEWCO" ["GOOGL"] ytd)
    as (_ & Hvol & Hshort).
  assert (H : get_volatility market "NEWCO" ytd = Ret (Some PyFloat.nan)).
  { apply (Hshort (closes [100]) (map PyFloat.of_Z [100])); try reflexivity.
    simpl. lia. }
  split; [exact H|]. exact (Hvol H).
Defined.

(** ** [to_dict] on every value *)

(** X8. [to_dict] returns a value equal to its argument, at every depth
    of nesting. *)
Theorem to_dict_unchanged (v : json) : to_dict v = v.
Proof. apply to_dict_id. Qed.

(** ** What the walk keeps *)

Lemma map_items_keys f (d : pydict json) :
  forall d', map_items f d = Ret d' -> dict_keys d' = dict_keys d.
Proof.
  induction d as [|[k v] d IH]; intros d'; simpl.
  - intros H. now injection H as <-.
  - destruct (f k v); cbn [bind]; [|discriminate].
    destruct (map_items f d) as [d0|]; cbn [bind]; [|discriminate].
    intros H. injection H as <-. simpl. f_equal. now apply IH.
Qed.

Lemma dict_set_keys {V : Type} (d : pydict V) (k : string) (v : V) :
  In k (dict_keys d) -> dict_keys (dict_set d k v) = dict_keys d.
Proof.
  unfold dict_keys. induction d as [|[k0 v0] d IH]; simpl; [tauto|].
  destruct (String.eqb_spec k0 k) as [->|Hne]; [reflexivity|].
  intros [H|H]; [congruence|]. simpl. now rewrite IH.
Qed.

Lemma stored_keys value (ks : list string) :
  forall d,
    (forall k, In k ks -> In k (dict_keys d)) ->
    dict_keys (fold_left (store_leaf value) ks d) = dict_keys d.
Proof.
  induction ks as [|k ks IH]; intros d H; simpl; [reflexivity|].
  assert (E : dict_keys (store_leaf value d k) = dict_keys d).
  { unfold store_leaf. destruct (leaf_value value k); [|reflexivity].
    apply dict_set_keys, H. now left. }
  rewrite IH; [exact E|]. intros k' Hk'. rewrite E. apply H. now right.
Qed.

Lemma for_each_dict_keys value (d : pydict json) (v' : json) :
  for_each (JDict d) (fill_leaf value) = Ret v' ->
  exists d', v' = JDict d' /\ dict_keys d' = dict_keys d.
Proof.
  rewrite for_each_dict. intros H. injection H as <-.
  eexists. split; [reflexivity|]. now apply stored_keys.
Qed.

(** X10. A walk that returns keeps the names of the request: the result
    has the same branches in the same order, each branch the same keys
    (tickers, or sub-metrics under [compare]), and under a plain branch
    other than [fundamentals] each ticker the same periods. *)
Theorem walk_keeps_keys (w : World) (parsed res : json) :
  walk w parsed = Ret res ->
  dict_keys (branches res) = dict_keys (branches parsed) /\
  (forall metric v,
      lookup parsed [metric] = Some v ->
      exists d d',
        v = JDict d /\ lookup res [metric] = Some (JDict d') /\
        dict_keys d' = dict_keys d) /\
  (forall metric ticker periods,
      String.eqb metric "compare" = false ->
      String.eqb metric "fundamentals" = false ->
      lookup parsed [metric; ticker] = Some (JDict periods) ->
      exists periods',
        lookup res [metric; ticker] = Some (JDict periods') /\
        dict_keys periods' = dict_keys periods).
Proof.
  intros Hw. destruct (walk_inv _ _ _ Hw) as (b & b' & -> & -> & Hb).
  split; [exact (map_items_keys _ _ _ Hb)|]. split.
  - intros metric v Hl. cbn [lookup] in *.
    destruct (dict_get b metric) as [td|] eqn:Htd; [|discriminate].
    injection Hl as ->.
    destruct (map_items_get _ _ _ _ _ Hb Htd) as (td' & Hf & ->).
    destruct (String.eqb metric "compare").
    + unfold walk_compare in Hf. destruct v as [| | | | | |subs];
        try discriminate.
      cbn [items bind] in Hf.
      destruct (map_items _ subs) as [subs'|] eqn:Hs; [|discriminate].
      cbn [bind] in Hf. injection Hf as <-.
      exists subs, subs'. split; [reflexivity|]. split; [reflexivity|].
      exact (map_items_keys _ _ _ Hs).
    + destruct (walk_metric_inv _ _ _ _ Hf) as (d & d' & -> & -> & Hd).
      exists d, d'. split; [reflexivity|]. split; [reflexivity|].
      exact (map_items_keys _ _ _ Hd).
  - intros metric ticker periods Hc Hfu Hl. cbn [lookup] in *.
    destruct (dict_get b metric) as [td|] eqn:Htd; [|discriminate].
    destruct (map_items_get _ _ _ _ _ Hb Htd) as (td' & Hf & ->).
    rewrite Hc in Hf.
    destruct (walk_metric_inv _ _ _ _ Hf) as (d & d' & -> & -> & Hd).
    rewrite Hfu in Hd.
    destruct (dict_get d ticker) as [ps|] eqn:Hps; [|discriminate].
    injection Hl as ->.
    destruct (map_items_get _ _ _ _ _ Hd Hps) as (ps' & Hg & ->).
    destruct (for_each_dict_keys _ _ _ Hg) as (periods' & -> & Hk).
    eauto.
Qed.

(** The sample market: the mixed request keeps its branches, tickers and
    periods. *)
Lemma walk_keeps_keys_witness :
  exists res,
    walk market mixed_request = Ret res /\
    dict_keys (branches res) = ["foo"; "return"] /\
    (exists periods',
        lookup res ["return"; "DOWN"] = Some (JDict periods') /\
        dict_keys periods' = ["ytd"]).
Proof.
  eexists. split; [vm_compute; reflexivity|].
  match goal with
  | |- context [branches ?res] =>
      pose proof (walk_keeps_keys market mixed_request res) as H
  end.
  destruct (H ltac:(vm_compute; reflexivity)) as (Hb & _ & Hp).
  split; [exact Hb|].
  exact (Hp "return" "DOWN" [("ytd", JNull)] eq_refl eq_refl eq_refl).
Defined.

(** X11. Under the [fundamentals] branch there is no period level: when
    the walk returns, each ticker of the branch holds the record
    [get_fundamentals] gives for it, or null, whatever placeholder stood
    there. *)
Theorem walk_fundamentals_branch
        (w : World) (parsed res : json) (ticker : string) (old : json) :
  walk w parsed = Ret res ->
  lookup parsed ["fundamentals"; ticker] = Some old ->
  lookup res ["fundamentals"; ticker] =
    Some (json_of_option json_of_fundamentals
                         (resolved (get_fundamentals w ticker))).
Proof.
  intros Hw Hl. destruct (walk_inv _ _ _ Hw) as (b & b' & -> & -> & Hb).
  cbn [lookup] in *.
  destruct (dict_get b "fundamentals") as [td|] eqn:Htd; [|discriminate].
  destruct (map_items_get _ _ _ _ _ Hb Htd) as (td' & Hf & ->).
  cbn [String.eqb Ascii.eqb Bool.eqb] in Hf.
  destruct (walk_metric_inv _ _ _ _ Hf) as (d & d' & -> & -> & Hd).
  cbn [String.eqb Ascii.eqb Bool.eqb] in Hd.
  destruct (dict_get d ticker) as [ps|] eqn:Hps; [|discriminate].
  destruct (map_items_get _ _ _ _ _ Hd Hps) as (ps' & Hg & ->).
  destruct (get_fundamentals_returns w ticker) as [r Hr].
  rewrite Hr in Hg |- *. cbn [bind try_except] in Hg. now injection Hg as <-.
Qed.

(** The sample market: MSFT had a null placeholder, DOWN a period
    mapping; DOWN cannot be fetched. *)
Lemma walk_fundamentals_branch_witness :
  exists res,
    walk market fundamentals_request = Ret res /\
    lookup res ["fundamentals"; "MSFT"; "peRatio"] =
      Some (JFloat (PyFloat.of_Z 30)) /\
    lookup res ["fundamentals"; "DOWN"] = Some JNull /\
    lookup res ["fundamentals"; "MSFT"] =
      Some (json_of_option json_of_fundamentals
                           (resolved (get_fundamentals market "MSFT"))).
Proof.
  eexists. split; [vm_compute; reflexivity|].
  split; [vm_compute; reflexivity|]. split; [vm_compute; reflexivity|].
  apply (walk_fundamentals_branch market fundamentals_request _ "MSFT" JNull);
    vm_compute; reflexivity.
Defined.

(** X12. A sub-metric of the [compare] branch that names no comparator is
    not rejected: when the walk returns, what stood under it comes back
    unchanged. *)
Theorem walk_unknown_sub_metric
        (w : World) (parsed res : json) (sub_metric : string) (v : json) :
  walk w parsed = Ret res ->
  ~ In sub_metric ["return"; "volatility"; "fundamentals"; "max_min"] ->
  lookup parsed ["compare"; sub_metric] = Some v ->
  lookup res ["compare"; sub_metric] = Some v.
Proof.
  intros Hw Hs Hl. destruct (walk_inv _ _ _ Hw) as (b & b' & -> & -> & Hb).
  cbn [lookup] in *.
  destruct (dict_get b "compare") as [td|] eqn:Htd; [|discriminate].
  destruct (map_items_get _ _ _ _ _ Hb Htd) as (td' & Hf & ->).
  cbn [String.eqb Ascii.eqb Bool.eqb] in Hf. unfold walk_compare in Hf.
  destruct td as [| | | | | |subs]; try discriminate.
  cbn [items bind] in Hf.
  destruct (map_items _ subs) as [subs'|] eqn:Hsubs; [|discriminate].
  cbn [bind] in Hf. injection Hf as <-.
  destruct (dict_get subs sub_metric) as [c|] eqn:Hsub; [|discriminate].
  injection Hl as ->.
  destruct (map_items_get _ _ _ _ _ Hsubs Hsub) as (c' & Hg & ->).
  f_equal. destruct v as [| | | | | |cmp]; try discriminate.
  cbn [items bind] in Hg.
  destruct (map_items _ cmp) as [cmp'|] eqn:Hcmp; [|discriminate].
  cbn [bind] in Hg. injection Hg as <-. f_equal.
  apply map_items_same in Hcmp; [exact Hcmp|].
  intros k p p' _ Hp. eapply for_each_nothing; [|exact Hp].
  intros q. unfold comparator_for.
  destruct (String.eqb_spec sub_metric "return") as [->|_];
    [exfalso; apply Hs; simpl; tauto|].
  destruct (String.eqb_spec sub_metric "volatility") as [->|_];
    [exfalso; apply Hs; simpl; tauto|].
  destruct (String.eqb_spec sub_metric "fundamentals") as [->|_];
    [exfalso; apply Hs; simpl; tauto|].
  destruct (String.eqb_spec sub_metric "max_min") as [->|_];
    [exfalso; apply Hs; simpl; tauto|].
  reflexivity.
Qed.

(** The sample market: a comparison by a sub-metric called [sharpe]. *)
Lemma walk_unknown_sub_metric_witness :
  walk market unknown_compare_request = Ret unknown_compare_request /\
  lookup unknown_compare_request ["compare"; "sharpe"] =
    Some (JDict [("AAPL", null_leaf)]).
Proof.
  assert (H : walk market unknown_compare_request =
              Ret unknown_compare_request) by (vm_compute; reflexivity).
  split; [exact H|].
  apply (walk_unknown_sub_metric market unknown_compare_request
           unknown_compare_request "sharpe" _ H); [|reflexivity].
  simpl. intuition discriminate.
Defined.

(** ** Periods that are not a mapping *)

Lemma resolver_for_recognized w metric ticker period :
  In metric ["return"; "volatility"; "max_min"] ->
  exists v, resolver_for w metric ticker period = Some (Ret v).
Proof.
  intros [<-|[<-|[<-|[]]]]; unfold resolver_for;
    cbn [String.eqb Ascii.eqb Bool.eqb].
  - destruct (get_return_returns w ticker period) as [r ->].
    cbn [bind]. eauto.
  - destruct (get_volatility_returns w ticker period) as [r ->].
    cbn [bind]. eauto.
  - destruct (get_max_min_returns w ticker period) as [r ->].
    cbn [bind]. eauto.
Qed.

Lemma walk_metric_raises w metric (d : pydict json) ticker v e :
  String.eqb metric "fundamentals" = false ->
  dict_get d ticker = Some v ->
  for_each v (fill_leaf (resolver_for w metric ticker)) = Raise e ->
  exists e', walk_metric w metric (JDict d) = Raise e'.
Proof.
  intros Hf Hps He. unfold walk_metric. cbn [items bind]. rewrite Hf.
  match goal with
  | |- context [map_items ?f d] =>
      destruct (map_items_raises f d ticker v e (dict_get_In _ _ _ Hps) He)
        as [e' ->]
  end.
  cbn [bind]. eauto.
Qed.

Lemma walk_ticker_raises w parsed metric ticker v e :
  String.eqb metric "compare" = false ->
  String.eqb metric "fundamentals" = false ->
  lookup parsed [metric; ticker] = Some v ->
  for_each v (fill_leaf (resolver_for w metric ticker)) = Raise e ->
  exists e', walk w parsed = Raise e'.
Proof.
  intros Hc Hf Hl He. unfold walk.
  destruct parsed as [| | | | | |b]; try discriminate.
  cbn [lookup items bind] in *.
  destruct (dict_get b metric) as [td|] eqn:Htd; [|discriminate].
  destruct td as [| | | | | |d]; try discriminate.
  destruct (dict_get d ticker) as [ps|] eqn:Hps; [|discriminate].
  injection Hl as ->.
  destruct (walk_metric_raises w metric d ticker v e Hf Hps He) as [e1 H1].
  match goal with
  | |- context [map_items ?f b] =>
      destruct (map_items_raises f b metric (JDict d) e1
                                 (dict_get_In _ _ _ Htd))
        as [e' ->]; [|cbn [bind]; eauto]
  end.
  now rewrite Hc.
Qed.

Lemma receive_prompt_aborted w prompt parsed :
  oracle_request w prompt = Ret parsed ->
  (exists e, walk w parsed = Raise e) ->
  status (receive_prompt w prompt) = Some (JStr "error") /\
  result (receive_prompt w prompt) = None.
Proof.
  intros H [e He]. rewrite (receive_prompt_walk _ _ _ H), He.
  split; reflexivity.
Qed.

(** X13. Under a plain branch other than [fundamentals], recognised or
    not, a ticker whose periods are null, a number or a boolean aborts
    the whole request: the loop over the periods stands outside the
    per-leaf [try], so the walk raises and the response is the error
    envelope. *)
Theorem walk_periods_not_iterable
        (w : World) (prompt : string) (parsed : json)
        (metric ticker : string) (v : json) :
  oracle_request w prompt = Ret parsed ->
  String.eqb metric "compare" = false ->
  String.eqb metric "fundamentals" = false ->
  lookup parsed [metric; ticker] = Some v ->
  not_iterable v = true ->
  (exists e, walk w parsed = Raise e) /\
  status (receive_prompt w prompt) = Some (JStr "error") /\
  result (receive_prompt w prompt) = None.
Proof.
  intros Ho Hc Hf Hl Hv.
  assert (Hw : exists e, walk w parsed = Raise e).
  { apply (walk_ticker_raises w parsed metric ticker v (NotIterable v)
             Hc Hf Hl).
    destruct v; try discriminate; reflexivity. }
  split; [exact Hw|]. now apply (receive_prompt_aborted w prompt parsed).
Qed.

(** The sample market: a null in place of the periods, under a branch
    the walker does not even know. *)
Lemma walk_periods_not_iterable_witness :
  walk market null_periods_request =
    Raise (Exn "TypeError" "'NoneType' object is not iterable") /\
  status (receive_prompt (sample_world (Ret null_periods_request)) "q")
    = Some (JStr "error").
Proof.
  split; [vm_compute; reflexivity|].
  apply (walk_periods_not_iterable (sample_world (Ret null_periods_request))
           "q" null_periods_request "foo" "AAPL" JNull); reflexivity.
Defined.

Lemma for_each_names_raises value (v : json) :
  names_not_mapping v = true ->
  (forall p, exists c, value (JStr p) = Some (Ret c)) ->
  exists e, for_each v (fill_leaf value) = Raise e.
Proof.
  intros Hv Hvalue.
  destruct v as [| | | |s|l|]; try discriminate.
  - destruct s as [|c s]; [discriminate|].
    unfold for_each, chars. cbn [list_ascii_of_string map iterate_keys].
    unfold fill_leaf at 1.
    destruct (Hvalue (String c "")) as [x ->]. cbn [bind assign try_except].
    eauto.
  - destruct l as [|[| | | |p| |] l]; try discriminate.
    unfold for_each. cbn [List.length iterate_list nth_error].
    unfold fill_leaf at 1.
    destruct (Hvalue p) as [x ->]. cbn [bind assign try_except].
    eauto.
Qed.

(** X14. The per-leaf [try] does not absorb a failed store.  Under
    [return], [volatility] or [max_min], periods given as a list that
    starts with a name, or as a non-empty string, abort the whole
    request: the value is computed, storing it raises, and the handler's
    store of null raises again. *)
Theorem walk_periods_not_mapping
        (w : World) (prompt : string) (parsed : json)
        (metric ticker : string) (v : json) :
  oracle_request w prompt = Ret parsed ->
  In metric ["return"; "volatility"; "max_min"] ->
  lookup parsed [metric; ticker] = Some v ->
  names_not_mapping v = true ->
  (exists e, walk w parsed = Raise e) /\
  status (receive_prompt w prompt) = Some (JStr "error") /\
  result (receive_prompt w prompt) = None.
Proof.
  intros Ho Hm Hl Hv.
  assert (Hw : exists e, walk w parsed = Raise e).
  { destruct (for_each_names_raises (resolver_for w metric ticker) v Hv)
      as [e He].
    - intros p. now apply resolver_for_recognized.
    - apply (walk_ticker_raises w parsed metric ticker v e); auto;
        destruct Hm as [<-|[<-|[<-|[]]]]; reflexivity. }
  split; [exact Hw|]. now apply (receive_prompt_aborted w prompt parsed).
Qed.

(** The sample market: the periods of AAPL written as a list. *)
Lemma walk_periods_not_mapping_witness :
  walk market list_periods_request =
    Raise (Exn "TypeError"
               "list indices must be integers or slices, not str") /\
  status (receive_prompt (sample_world (Ret list_periods_request)) "q")
    = Some (JStr "error").
Proof.
  split; [vm_compute; reflexivity|].
  apply (walk_periods_not_mapping (sample_world (Ret list_periods_request))
           "q" list_periods_request "return" "AAPL" (JList [JStr "ytd"]));
    try reflexivity.
  simpl. tauto.
Defined.

(** ** Walking a result again *)

Lemma map_items_fixed f (d : pydict json) :
  (forall k v, In (k, v) d -> f k v = Ret v) -> map_items f d = Ret d.
Proof.
  induction d as [|[k0 v0] d IH]; intros H; simpl; [reflexivity|].
  rewrite (H k0 v0) by now left. cbn [bind].
  rewrite IH by (intros; apply H; now right). reflexivity.
Qed.

Lemma map_items_In_inv f (d : pydict json) :
  forall d' k v',
    map_items f d = Ret d' -> In (k, v') d' ->
    exists v, In (k, v) d /\ f k v = Ret v'.
Proof.
  induction d as [|[k0 v0] d IH]; intros d' k v'; simpl.
  - intros H. injection H as <-. intros [].
  - destruct (f k0 v0) as [v0'|] eqn:Hf; cbn [bind]; [|discriminate].
    destruct (map_items f d) as [d0|] eqn:Hd; cbn [bind]; [|discriminate].
    intros H. injection H as <-. intros [Hin|Hin].
    + injection Hin as <- <-. exists v0. split; [now left|exact Hf].
    + destruct (IH d0 k v' eq_refl Hin) as (v & Hv & Hfv).
      exists v. split; [now right|exact Hfv].
Qed.

Lemma stored_fixed value (ks : list string) :
  forall d,
    (forall k v, In k ks -> leaf_value value k = Some v ->
                 dict_get d k = Some v) ->
    fold_left (store_leaf value) ks d = d.
Proof.
  induction ks as [|k ks IH]; intros d H; simpl; [reflexivity|].
  assert (E : store_leaf value d k = d).
  { unfold store_leaf. destruct (leaf_value value k) as [v|] eqn:Hv;
      [|reflexivity].
    apply dict_set_same, H; [now left|exact Hv]. }
  rewrite E. apply IH. intros k' v Hk'. apply H. now right.
Qed.

(** The periods loop, run on its own outcome, changes nothing. *)
Lemma for_each_dict_again value (d : pydict json) (v' : json) :
  for_each (JDict d) (fill_leaf value) = Ret v' ->
  for_each v' (fill_leaf value) = Ret v'.
Proof.
  rewrite for_each_dict. intros H. injection H as <-.
  rewrite for_each_dict. do 2 f_equal.
  rewrite stored_keys by auto.
  apply stored_fixed. intros k v Hk Hv.
  rewrite stored_get, Hv.
  assert (E : existsb (String.eqb k) (dict_keys d) = true); [|now rewrite E].
  apply existsb_exists. exists k. split; [exact Hk|apply String.eqb_refl].
Qed.

Lemma periods_loop_again (value : string -> json -> option (exc json))
      (d d' : pydict json) :
  tickers_shaped (JDict d) = true ->
  map_items (fun ticker periods => for_each periods (fill_leaf (value ticker)))
            d = Ret d' ->
  map_items (fun ticker periods => for_each periods (fill_leaf (value ticker)))
            d' = Ret d'.
Proof.
  cbn [tickers_shaped]. rewrite forallb_forall. intros Hs Hd.
  apply map_items_fixed. intros t ps' Hin.
  destruct (map_items_In_inv _ _ _ _ _ Hd Hin) as (ps & Hps & Hf).
  specialize (Hs (t, ps) Hps). simpl in Hs.
  destruct ps; try discriminate. now apply for_each_dict_again in Hf.
Qed.

Lemma walk_metric_again w metric v v' :
  (if String.eqb metric "fundamentals" then is_mapping v
   else tickers_shaped v) = true ->
  walk_metric w metric v = Ret v' ->
  walk_metric w metric v' = Ret v'.
Proof.
  intros Hs Hw. destruct (walk_metric_inv _ _ _ _ Hw) as (d & d' & -> & -> & Hd).
  unfold walk_metric. cbn [items bind].
  destruct (String.eqb metric "fundamentals").
  - rewrite map_items_fixed; [reflexivity|]. intros t x' Hin.
    destruct (map_items_In_inv _ _ _ _ _ Hd Hin) as (x & _ & Hf).
    exact Hf.
  - now rewrite (periods_loop_again (resolver_for w metric) d d' Hs Hd).
Qed.

Lemma walk_compare_again w v v' :
  match v with
  | JDict subs => forallb (fun kv => tickers_shaped (snd kv)) subs
  | _ => false
  end = true ->
  walk_compare w v = Ret v' ->
  walk_compare w v' = Ret v'.
Proof.
  unfold walk_compare. destruct v as [| | | | | |subs]; try discriminate.
  rewrite forallb_forall. intros Hs. cbn [items bind].
  destruct (map_items _ subs) as [subs'|] eqn:Hsubs; [|discriminate].
  cbn [bind]. intros H. injection H as <-. cbn [items bind].
  rewrite map_items_fixed; [reflexivity|].
  intros sub_metric c' Hin.
  destruct (map_items_In_inv _ _ _ _ _ Hsubs Hin) as (c & Hc & Hf).
  specialize (Hs (sub_metric, c) Hc). simpl in Hs.
  destruct c as [| | | | | |cmp]; try discriminate.
  cbn [items bind] in Hf.
  destruct (map_items _ cmp) as [cmp'|] eqn:Hcmp; [|discriminate].
  cbn [bind] in Hf. injection Hf as <-. cbn [items bind].
  rewrite (map_items_keys _ _ _ Hcmp).
  now rewrite (periods_loop_again
                 (fun _ => comparator_for w sub_metric (dict_keys cmp))
                 cmp cmp' Hs Hcmp).
Qed.

(** X15. Walking a populated result again changes nothing: for a request
    of the expected shape, the walk of its result returns that same
    result. *)
Theorem walk_again (w : World) (parsed res : json) :
  well_shaped parsed = true ->
  walk w parsed = Ret res ->
  walk w res = Ret res.
Proof.
  intros Hs Hw. destruct (walk_inv _ _ _ Hw) as (b & b' & -> & -> & Hb).
  cbn [well_shaped] in Hs. rewrite forallb_forall in Hs.
  unfold walk. cbn [items bind].
  rewrite map_items_fixed; [reflexivity|].
  intros metric v' Hin.
  destruct (map_items_In_inv _ _ _ _ _ Hb Hin) as (v & Hv & Hf).
  specialize (Hs (metric, v) Hv). unfold branch_shaped in Hs.
  cbn [fst snd] in Hs.
  destruct (String.eqb metric "compare").
  - now apply (walk_compare_again w v).
  - now apply (walk_metric_again w metric v).
Qed.

(** The sample market: the mixed request and the comparison. *)
Lemma walk_again_witness :
  (exists res,
      walk market mixed_request = Ret res /\ walk market res = Ret res) /\
  (exists res,
      walk market compare_request = Ret res /\ walk market res = Ret res).
Proof.
  split; eexists; (split; [vm_compute; reflexivity|]).
  - apply (walk_again market mixed_request); vm_compute; reflexivity.
  - apply (walk_again market compare_request); vm_compute; reflexivity.
Defined.

(** ** The error object of a comparison *)

Lemma lookup_app (v : json) (p q : list string) :
  lookup v (p ++ q) =
  match lookup v p with
  | Some v' => lookup v' q
  | None => None
  end.
Proof.
  revert v. induction p as [|k p IH]; intros v; simpl; [reflexivity|].
  destruct v; try reflexivity.
  destruct (dict_get d k); [apply IH|reflexivity].
Qed.

Lemma error_key_iff {V : Type} (resolve : string -> exc (option V))
      (tickers : list string) (agg : json) :
  (forall t, exists r, resolve t = Ret r) ->
  (first_occurrences (fun t => resolved (resolve t)) [] tickers = [] ->
   lookup agg ["error"] <> None) ->
  (first_occurrences (fun t => resolved (resolve t)) [] tickers <> [] ->
   lookup agg ["error"] = None) ->
  (lookup agg ["error"] <> None <->
   forall t, In t tickers -> resolve t = Ret None).
Proof.
  intros Hret Hnil Hcons.
  destruct (first_occurrences (fun t => resolved (resolve t)) [] tickers)
    as [|e d] eqn:Hd.
  - split; [|intros _; now apply Hnil].
    intros _. now apply (nothing_available resolve Hret tickers).
  - split; [intros H; exfalso; apply H, Hcons; discriminate|].
    intros Hall.
    destruct (something_available resolve Hret tickers e d Hd)
      as (t & Ht & Hne).
    now specialize (Hall t Ht).
Qed.

(** X16. A leaf of the [compare] branch holds the error object exactly
    when none of the tickers listed under its sub-metric has a value:
    after the walk the leaf has an ["error"] entry if and only if the
    sub-metric's resolver returns [None] for every one of them. *)
Theorem compare_leaf_error_iff_no_data
        (w : World) (parsed res : json) (sub_metric : string)
        (cmp : pydict json) (ticker period : string) (old : json) :
  walk w parsed = Ret res ->
  lookup parsed ["compare"; sub_metric] = Some (JDict cmp) ->
  In sub_metric ["return"; "volatility"; "fundamentals"; "max_min"] ->
  lookup (JDict cmp) [ticker; period] = Some old ->
  (lookup res ["compare"; sub_metric; ticker; period; "error"] <> None <->
   forall t, In t (dict_keys cmp) ->
             sub_metric_unavailable w sub_metric t (JStr period)).
Proof.
  intros Hw Hl Hs Ho.
  destruct (comparator_for_recognized w sub_metric (dict_keys cmp)
              (JStr period) Hs) as [Hc _].
  pose proof (walk_compare_leaf w parsed res sub_metric cmp ticker period
                old _ Hw Hl Ho Hc) as Hleaf.
  change ["compare"; sub_metric; ticker; period; "error"]
    with (["compare"; sub_metric; ticker; period] ++ ["error"]).
  rewrite lookup_app, Hleaf.
  revert Hc. unfold comparison_result, comparator_for, sub_metric_unavailable.
  destruct Hs as [<-|[<-|[<-|[<-|[]]]]];
    cbn [String.eqb Ascii.eqb Bool.eqb]; intros _.
  - rewrite compare_returns_spec. cbn [bind]. rewrite to_dict_id.
    apply error_key_iff; [intros; apply get_return_returns| |].
    + intros ->. discriminate.
    + destruct (first_occurrences _ [] (dict_keys cmp)); [congruence|].
      reflexivity.
  - rewrite compare_volatility_spec. cbn [bind]. rewrite to_dict_id.
    apply error_key_iff; [intros; apply get_volatility_returns| |].
    + intros ->. discriminate.
    + destruct (first_occurrences _ [] (dict_keys cmp)); [congruence|].
      reflexivity.
  - rewrite compare_fundamentals_spec. cbn [bind]. rewrite to_dict_id.
    apply error_key_iff; [intros; apply get_fundamentals_returns| |].
    + intros ->. discriminate.
    + destruct (first_occurrences _ [] (dict_keys cmp)); [congruence|].
      reflexivity.
  - rewrite compare_max_min_spec. cbn [bind]. rewrite to_dict_id.
    apply error_key_iff; [intros; apply get_max_min_returns| |].
    + intros ->. discriminate.
    + destruct (first_occurrences _ [] (dict_keys cmp)) as [|[t0 m0] d];
        [congruence|].
      reflexivity.
Qed.

(** The sample market: returns compared over DOWN and NOPE, which have
    no data, and over AAPL and DOWN. *)
Lemma compare_leaf_error_iff_no_data_witness :
  (exists res,
      walk market
           (JDict [("compare",
                    JDict [("return",
                            JDict [("DOWN", null_leaf);
                                   ("NOPE", null_leaf)])])])
      = Ret res /\
      lookup res ["compare"; "return"; "DOWN"; "ytd"; "error"] =
        Some (JStr "No data available for tickers")) /\
  (exists res,
      walk market compare_request = Ret res /\
      lookup res ["compare"; "return"; "DOWN"; "ytd"; "error"] = None /\
      (lookup res ["compare"; "return"; "DOWN"; "ytd"; "error"] <> None <->
       forall t, In t ["AAPL"; "GOOGL"; "DOWN"] ->
                 sub_metric_unavailable market "return" t ytd)).
Proof.
  split.
  - eexists. split; vm_compute; reflexivity.
  - eexists. split; [vm_compute; reflexivity|].
    split; [vm_compute; reflexivity|].
    apply (compare_leaf_error_iff_no_data market compare_request _ "return"
             [("AAPL", null_leaf); ("GOOGL", null_leaf); ("DOWN", null_leaf)]
             "DOWN" "ytd" JNull);
      try (vm_compute; reflexivity).
    simpl. tauto.
Defined.

(** ** When a price metric is unavailable *)

Lemma iloc_last_raises (s : list float) (e : exn) :
  iloc_last s = Raise e -> s = [].
Proof.
  induction s as [|x s IH]; [reflexivity|]. simpl.
  destruct s as [|y s]; [discriminate|]. intros H. now apply IH in H.
Qed.

(** X17. The price resolvers return [None] in these cases only:
    [get_volatility] and [get_max_min] exactly when the fetch gives no
    usable price series (it raised, the frame is empty or has no closing
    prices); [get_return] then, and also when the closing-price column
    has no row. *)
Theorem price_resolvers_unavailable_iff
        (w : World) (ticker : string) (period : json) :
  (get_volatility w ticker period = Ret None <->
   no_price_series w ticker period) /\
  (get_max_min w ticker period = Ret None <->
   no_price_series w ticker period) /\
  (get_return w ticker period = Ret None <->
   no_price_series w ticker period \/ close_without_rows w ticker period).
Proof.
  split; [|split]; split;
    try (intros H; now apply no_price_series_None in H).
  - unfold get_volatility, no_price_series, dict_mem, df_getitem.
    destruct (yf_download w ticker period) as [data|]; cbn [bind]; [|auto].
    destruct (df_empty data); [auto|].
    destruct (dict_get data "Close"); [discriminate|auto].
  - unfold get_max_min, no_price_series, dict_mem, df_getitem.
    destruct (yf_download w ticker period) as [data|]; cbn [bind]; [|auto].
    destruct (df_empty data); [auto|].
    destruct (dict_get data "Close"); [discriminate|auto].
  - unfold get_return, no_price_series, close_without_rows, dict_mem,
      df_getitem.
    destruct (yf_download w ticker period) as [data|]; cbn [bind]; [|auto].
    destruct (df_empty data); [auto|].
    destruct (dict_get data "Close") as [close|] eqn:Hc; [|auto].
    cbn [orb negb bind]. destruct close as [|x close].
    + intros _. right. exists data. auto.
    + cbn [iloc_first bind].
      destruct (iloc_last (x :: close)) eqn:Hl; [discriminate|].
      apply iloc_last_raises in Hl. discriminate.
  - intros [H|(data & Hd & Hc)]; [now apply no_price_series_None in H|].
    unfold get_return, dict_mem, df_getitem. rewrite Hd. cbn [bind].
    rewrite Hc. now destruct (df_empty data).
Qed.

(** The sample market and a frame with an empty closing-price column. *)
Lemma price_resolvers_unavailable_iff_witness :
  (get_volatility market "DOWN" ytd = Ret None /\
   no_price_series market "DOWN" ytd) /\
  (close_without_rows ragged_market "X" ytd /\
   get_return ragged_market "X" ytd = Ret None /\
   ~ no_price_series ragged_market "X" ytd).
Proof.
  split.
  - split; [|exact I].
    apply (proj1 (price_resolvers_unavailable_iff market "DOWN" ytd)).
    exact I.
  - assert (H : close_without_rows ragged_market "X" ytd)
      by (eexists; split; reflexivity).
    split; [exact H|]. split.
    + apply (proj2 (proj2 (price_resolvers_unavailable_iff
                             ragged_market "X" ytd))).
      now right.
    + intros [E|E]; discriminate E.
Defined.

(** ** A flat series *)

Lemma div_eucl_shift (m : positive) :
  Z.div_eucl (Z.shiftl (Z.pos m) 53) (Z.pos m) = (2 ^ 53, 0).
Proof.
  pose proof (Z.div_eucl_eq (Z.shiftl (Z.pos m) 53) (Z.pos m)) as E.
  pose proof (Z.mod_pos_bound (Z.shiftl (Z.pos m) 53) (Z.pos m)) as B.
  unfold Z.modulo in B.
  destruct (Z.div_eucl (Z.shiftl (Z.pos m) 53) (Z.pos m)) as [q r].
  rewrite Z.shiftl_mul_pow2 in E by lia.
  specialize (E ltac:(lia)). specialize (B ltac:(lia)).
  assert (q = 2 ^ 53 /\ r = 0) as [-> ->]; [|reflexivity].
  assert (Hq : Z.pos m * (2 ^ 53 - q) = r) by lia.
  assert (2 ^ 53 - q = 0) by nia. split; nia.
Qed.

Lemma div_self (s : bool) (m : positive) (e : Z) :
  PyFloat.div (S754_finite s m e) (S754_finite s m e) = PyFloat.of_Z 1.
Proof.
  unfold PyFloat.div, SFdiv, SFdiv_core_binary.
  replace (Zdigits2 (Z.pos m) + e - (Zdigits2 (Z.pos m) + e)) with 0 by lia.
  replace (e - e) with 0 by lia.
  change (Z.min (fexp PyFloat.prec PyFloat.emax 0) 0) with (-53).
  change (0 - -53) with 53. cbv iota.
  change (IntDef.Z.div_eucl (IntDef.Z.shiftl (Z.pos m) 53) (Z.pos m))
    with (Z.div_eucl (Z.shiftl (Z.pos m) 53) (Z.pos m)).
  rewrite div_eucl_shift.
  assert (L : new_location (Z.pos m) 0 = loc_Exact).
  { unfold new_location. now destruct (Z.even (Z.pos m)). }
  rewrite L. destruct s; vm_compute; reflexivity.
Qed.

Lemma flat_change (s : bool) (m : positive) (e : Z) :
  PyFloat.sub (PyFloat.div (S754_finite s m e) (S754_finite s m e))
              (PyFloat.of_Z 1) = S754_zero false.
Proof. rewrite div_self. vm_compute. reflexivity. Qed.

Lemma pct_change_from_flat (s : bool) (m : positive) (e : Z) (n : nat) :
  pct_change_from (S754_finite s m e) (repeat (S754_finite s m e) n) =
  repeat (S754_zero false) n.
Proof.
  induction n as [|n IH]; simpl; [reflexivity|].
  rewrite IH. f_equal. apply flat_change.
Qed.

Lemma dropna_zeros (n : nat) :
  dropna (repeat (S754_zero false) n) = repeat (S754_zero false) n.
Proof. induction n as [|n IH]; simpl; [reflexivity|]. now rewrite IH. Qed.

Lemma series_sum_zeros (n : nat) :
  series_sum (repeat (S754_zero false) n) = S754_zero false.
Proof.
  apply (series_sum_closed (fun x => x = S754_zero false)).
  - intros x y -> ->. reflexivity.
  - reflexivity.
  - intros x Hx. now apply repeat_spec in Hx.
Qed.

Lemma of_Z_small (k : nat) :
  (1 <= k <= flat_limit)%nat ->
  PyFloat.is_finite_nonzero (PyFloat.of_Z (Z.of_nat k)) = true.
Proof.
  intros H.
  assert (A : forallb
                (fun k => PyFloat.is_finite_nonzero
                            (PyFloat.of_Z (Z.of_nat k)))
                (seq 1 flat_limit) = true) by (vm_compute; reflexivity).
  rewrite forallb_forall in A. apply A. apply in_seq.
  unfold flat_limit in *. lia.
Qed.

Lemma zero_over_count (k : nat) :
  (1 <= k <= flat_limit)%nat ->
  PyFloat.div (S754_zero false) (PyFloat.of_Z (Z.of_nat k)) = S754_zero false.
Proof.
  intros H. pose proof (of_Z_small k H) as F.
  pose proof (of_Z_sign (Z.of_nat k) ltac:(lia)) as G.
  destruct (PyFloat.of_Z (Z.of_nat k)) as [| | |[] m e]; try discriminate.
  reflexivity.
Qed.

Lemma series_std_zeros (k : nat) :
  (2 <= k <= flat_limit)%nat ->
  series_std (repeat (S754_zero false) k) = S754_zero false.
Proof.
  intros H. unfold series_std. rewrite repeat_length.
  destruct (Z.leb_spec (Z.of_nat k) 1); [lia|].
  rewrite series_sum_zeros, zero_over_count by lia.
  assert (E : map (fun x => PyFloat.mul (PyFloat.sub (S754_zero false) x)
                                        (PyFloat.sub (S754_zero false) x))
                  (repeat (S754_zero false) k) = repeat (S754_zero false) k).
  { clear. induction k as [|k IH]; cbn [repeat map]; [reflexivity|].
    rewrite IH. reflexivity. }
  rewrite E, series_sum_zeros.
  replace (Z.of_nat k - 1) with (Z.of_nat (k - 1)) by lia.
  rewrite zero_over_count by lia. reflexivity.
Qed.

(** X18. A flat series has no volatility: when the closing prices are one
    finite non-zero price repeated, three times or more (up to
    [flat_limit] points), [get_volatility] returns [0.0]. *)
Theorem get_volatility_flat
        (w : World) (ticker : string) (period : json) (data : DataFrame)
        (price : float) (n : nat) :
  yf_download w ticker period = Ret data ->
  df_empty data = false ->
  dict_get data "Close" = Some (repeat price n) ->
  PyFloat.is_finite_nonzero price = true ->
  (3 <= n <= flat_limit)%nat ->
  get_volatility w ticker period = Ret (Some (PyFloat.of_Z 0)).
Proof.
  intros Hd He Hc Hp Hn. unfold get_volatility, dict_mem, df_getitem.
  rewrite Hd. cbn [bind]. rewrite He, Hc. cbn [orb negb bind try_except].
  destruct price as [| | |s m e]; try discriminate.
  destruct n as [|n]; [lia|]. cbn [repeat pct_change].
  rewrite pct_change_from_flat.
  change (dropna (PyFloat.nan :: repeat (S754_zero false) n))
    with (dropna (repeat (S754_zero false) n)).
  rewrite dropna_zeros, series_std_zeros by lia.
  vm_compute. reflexivity.
Qed.

(** A series of five closes at 42. *)
Lemma get_volatility_flat_witness :
  get_volatility flat_market "FLAT" ytd = Ret (Some (PyFloat.of_Z 0)).
Proof.
  apply (get_volatility_flat flat_market "FLAT" ytd
           [("Close", repeat (PyFloat.of_Z 42) 5)] (PyFloat.of_Z 42) 5);
    try reflexivity.
  unfold flat_limit. lia.
Defined.

(** ** The summary and the data *)

Lemma walk_with_summary w summary parsed :
  walk (with_summary w summary) parsed = walk w parsed.
Proof. reflexivity. Qed.

(** X9. The second oracle call cannot touch the data: whatever it
    returns or raises, the response has the same status and the same
    result, and only the narrative differs.  A response is ok exactly
    when the first oracle call and the walk went through, and it then
    carries the walker's result. *)
Theorem summary_cannot_change_data
        (w : World) (summary : json -> exc string) (prompt : string) :
  status (receive_prompt (with_summary w summary) prompt) =
    status (receive_prompt w prompt) /\
  result (receive_prompt (with_summary w summary) prompt) =
    result (receive_prompt w prompt) /\
  (status (receive_prompt w prompt) = Some (JStr "ok") <->
   exists parsed res,
     oracle_request w prompt = Ret parsed /\
     walk w (to_dict parsed) = Ret res /\
     result (receive_prompt w prompt) = Some res).
Proof.
  unfold receive_prompt. cbn [with_summary oracle_request].
  destruct (oracle_request w prompt) as [parsed|e]; cbn [bind].
  - rewrite walk_with_summary.
    destruct (walk w (to_dict parsed)) as [res|e] eqn:Hw.
    + split; [reflexivity|]. split; [reflexivity|]. split.
      * intros _. exists parsed, res.
        split; [reflexivity|]. split; [exact Hw|reflexivity].
      * intros _. reflexivity.
    + split; [reflexivity|]. split; [reflexivity|]. split.
      * discriminate.
      * intros (parsed' & res & H & Hw' & _).
        assert (parsed' = parsed) as -> by congruence. congruence.
  - split; [reflexivity|]. split; [reflexivity|]. split.
    + discriminate.
    + intros (parsed' & res & H & _). discriminate.
Qed.
